(** * Counterfactual account operation engine (ERC-4337 demo clients and contracts)

    A shallow embedding of the TypeScript clients ([01-simple], [02-paymaster],
    [03-social]) and of the Solidity contracts they talk to ([DemoAccount],
    [DemoPaymaster], [AccountFactory]), with the properties the design
    document states about digests, address derivation, payload layout,
    relay responses, receipt polling and hex serialization. *)

From Equations Require Import Equations.
From Stdlib Require Import String Ascii Strings.Byte.
From Stdlib Require Import ZArith NArith Bool Lia List.
Import ListNotations.

Local Open Scope string_scope.
Local Open Scope list_scope.
Local Open Scope Z_scope.

(* ================================================================== *)
(** * Bytes and fixed-width big-endian integers *)
(* ================================================================== *)

Module Bytes.

Definition bytes := list byte.

Definition byte_of_Z (z : Z) : byte :=
  match Byte.of_N (Z.to_N (z mod 256)) with
  | Some b => b
  | None => x00
  end.

Definition Z_of_byte (b : byte) : Z := Z.of_N (Byte.to_N b).

(** [be n z]: the [n] low-order bytes of [z], most significant first
    (Solidity's packed encoding of a [uintN] / [address] value). *)
Fixpoint be (n : nat) (z : Z) : bytes :=
  match n with
  | O => []
  | S k => be k (z / 256) ++ [byte_of_Z z]
  end.

(** Big-endian value of a byte string ([uint256(bytes32)]). *)
Definition from_be (bs : bytes) : Z :=
  fold_left (fun acc b => acc * 256 + Z_of_byte b) bs 0.

Definition zeros (n : nat) : bytes := repeat x00 n.

(** UTF-8 bytes of a string (the model keeps strings as byte strings). *)
Definition utf8 (s : string) : bytes := list_byte_of_string s.

End Bytes.
Export Bytes.

(* ================================================================== *)
(** * Keccak-256

    The hash [keccak256] of viem and of the EVM: Keccak-f[1600] sponge,
    rate 136 bytes, multi-rate padding with the original 0x01 domain byte,
    32 bytes of output.  Lanes are 64-bit words held in [N]. *)
(* ================================================================== *)

Module Keccak.

Local Open Scope N_scope.

Definition mask64 : N := 0xFFFFFFFFFFFFFFFF.

Definition rotl64 (x : N) (n : N) : N :=
  N.land (N.lor (N.shiftl x n) (N.shiftr x (64 - n))) mask64.

Definition not64 (x : N) : N := N.lxor x mask64.

Definition round_constants : list N :=
  [ 0x0000000000000001; 0x0000000000008082; 0x800000000000808A;
    0x8000000080008000; 0x000000000000808B; 0x0000000080000001;
    0x8000000080008081; 0x8000000000008009; 0x000000000000008A;
    0x0000000000000088; 0x0000000080008009; 0x000000008000000A;
    0x000000008000808B; 0x800000000000008B; 0x8000000000008089;
    0x8000000000008003; 0x8000000000008002; 0x8000000000000080;
    0x000000000000800A; 0x800000008000000A; 0x8000000080008081;
    0x8000000000008080; 0x0000000080000001; 0x8000000080008008 ].

(** Rotation offsets, indexed by [x + 5 * y]. *)
Definition rotation_offsets : list N :=
  [ 0; 1; 62; 28; 27;
    36; 44; 6; 55; 20;
    3; 10; 43; 25; 39;
    41; 45; 15; 21; 8;
    18; 2; 61; 56; 14 ].

Definition state := list N.

Definition lane (s : state) (x y : nat) : N :=
  nth (x mod 5 + 5 * (y mod 5))%nat s 0.

Definition build (f : nat -> nat -> N) : state :=
  map (fun i => f (i mod 5)%nat (i / 5)%nat) (seq 0 25).

Definition theta (s : state) : state :=
  let c x := N.lxor (lane s x 0) (N.lxor (lane s x 1)
             (N.lxor (lane s x 2) (N.lxor (lane s x 3) (lane s x 4)))) in
  let d x := N.lxor (c (x + 4)%nat) (rotl64 (c (x + 1)%nat) 1) in
  build (fun x y => N.lxor (lane s x y) (d x)).

(** rho and pi together: [B[y, 2x+3y] = rot (A[x, y], r[x, y])], written
    from the destination coordinates. *)
Definition rho_pi (s : state) : state :=
  build (fun X Y =>
           let x := ((X + 3 * Y) mod 5)%nat in
           let y := X in
           rotl64 (lane s x y) (nth (x + 5 * y)%nat rotation_offsets 0)).

Definition chi (s : state) : state :=
  build (fun x y =>
           N.lxor (lane s x y)
                  (N.land (not64 (lane s (x + 1) y)) (lane s (x + 2) y))).

Definition iota (rc : N) (s : state) : state :=
  match s with
  | [] => []
  | a :: rest => N.lxor a rc :: rest
  end.

Definition round (s : state) (rc : N) : state :=
  iota rc (chi (rho_pi (theta s))).

Definition keccak_f (s : state) : state :=
  fold_left round round_constants s.

Definition rate : nat := 136.

(** Multi-rate padding [pad10*1] with Keccak's 0x01 domain byte. *)
Definition pad (msg : bytes) : bytes :=
  let q := (rate - (length msg mod rate))%nat in
  match q with
  | 1%nat => msg ++ [x81]
  | _ => msg ++ [x01] ++ zeros (q - 2) ++ [x80]
  end.

Fixpoint chunks (fuel : nat) (l : bytes) : list bytes :=
  match fuel with
  | O => []
  | S f =>
      match l with
      | [] => []
      | _ => firstn rate l :: chunks f (skipn rate l)
      end
  end.

(** Little-endian value of (up to) eight bytes. *)
Definition lane_of_bytes (bs : bytes) : N :=
  fold_right (fun b acc => Byte.to_N b + 256 * acc) 0 bs.

Definition bytes_of_lane (w : N) : bytes :=
  map (fun i => byte_of_Z (Z.of_N (N.shiftr w (8 * N.of_nat i)))) (seq 0 8).

Definition block_lane (blk : bytes) (i : nat) : N :=
  lane_of_bytes (firstn 8 (skipn (8 * i) blk)).

Definition absorb (s : state) (blk : bytes) : state :=
  keccak_f (map (fun i => N.lxor (nth i s 0) (block_lane blk i)) (seq 0 25)).

Definition initial : state := repeat 0 25.

Definition keccak256 (msg : bytes) : bytes :=
  let padded := pad msg in
  let s := fold_left absorb (chunks (length padded) padded) initial in
  bytes_of_lane (nth 0 s 0) ++ bytes_of_lane (nth 1 s 0) ++
  bytes_of_lane (nth 2 s 0) ++ bytes_of_lane (nth 3 s 0).

End Keccak.

Definition keccak256 := Keccak.keccak256.


(* ================================================================== *)
(** * JavaScript strings, hex strings and BigInt conversions *)
(* ================================================================== *)

(** Option as the exception monad: [None] is a thrown error. *)
Notation "x <- a ;; b" :=
  (match a with Some x => b | None => None end)
    (at level 61, a at next level, right associativity).

Module Js.

(** A string is held as the bytes of its UTF-8 encoding. *)

(** [s.slice(n)] for [0 <= n]. *)
Fixpoint slice (n : nat) (s : string) : string :=
  match n, s with
  | O, _ => s
  | S k, EmptyString => EmptyString
  | S k, String _ r => slice k r
  end.

Definition lower_ascii (c : ascii) : ascii :=
  let n := nat_of_ascii c in
  if ((65 <=? n) && (n <=? 90))%nat then ascii_of_nat (n + 32) else c.

(** [s.toLowerCase()] on the ASCII range. *)
Fixpoint toLowerCase (s : string) : string :=
  match s with
  | EmptyString => EmptyString
  | String c r => String (lower_ascii c) (toLowerCase r)
  end.

(** Digit of value [d] in radixes up to 16, lower case as
    [BigInt.prototype.toString] prints it. *)
Definition digit_char (d : N) : ascii :=
  if (d <? 10)%N then ascii_of_N (48 + d) else ascii_of_N (87 + N.min d 15).

(** Value of a digit character, from its code; both cases of a-f are
    accepted, as the BigInt and hex parsers do. *)
Definition digit_value (c : ascii) : option N :=
  let code := N_of_ascii c in
  if ((48 <=? code) && (code <=? 57))%N then Some (code - 48)%N
  else if ((65 <=? code) && (code <=? 70))%N then Some (code - 55)%N
  else if ((97 <=? code) && (code <=? 102))%N then Some (code - 87)%N
  else None.

Definition radix_ok (r : N) : bool := ((2 <=? r) && (r <=? 16))%N.

Definition inspect {A} (a : A) : {b | a = b} := exist _ a eq_refl.
Notation "x 'eqn:' p" := (exist _ x p) (only parsing, at level 20).

(** Digits of [n] in radix [r], most significant first, no leading
    zero ("0" for zero); the recursion is on the quotient by the radix. *)
Equations? digits (r n : N) : string by wf (N.to_nat (N.log2 n)) lt :=
  digits r n with inspect (radix_ok r) := {
    | false eqn: _ := EmptyString
    | true eqn: Hr with inspect (N.ltb n r) := {
        | true eqn: _ := String (digit_char n) EmptyString
        | false eqn: Hn :=
            digits r (n / r) ++ String (digit_char (n mod r)) EmptyString } }.
Proof.
  unfold radix_ok in Hr.
  apply andb_prop in Hr as [Hr _].
  apply N.leb_le in Hr. apply N.ltb_ge in Hn.
  assert (Hpos : (0 < n)%N) by lia.
  destruct (N.log2_spec n Hpos) as [Hlo Hhi].
  assert (Hlog : (0 < N.log2 n)%N) by (apply N.log2_pos; lia).
  assert (N.log2 (n / r) < N.log2 n)%N; [| lia].
  destruct (N.eq_dec (n / r) 0) as [E | E].
  - rewrite E. exact Hlog.
  - assert (Hq : (0 < n / r)%N) by (apply N.neq_0_lt_0; exact E).
    apply (proj1 (N.log2_lt_pow2 _ _ Hq)).
    apply N.Div0.div_lt_upper_bound.
    rewrite N.pow_succ_r' in Hhi.
    remember (2 ^ N.log2 n)%N as P. clear HeqP. nia.
Qed.

(** [BigInt.prototype.toString(radix)]. *)
Definition BigInt_toString (radix : N) (z : Z) : string :=
  if z <? 0 then String "-" (digits radix (Z.to_N (- z)))
  else digits radix (Z.to_N z).

(** Left-to-right accumulation of the digits of [s] in radix [r]. *)
Fixpoint parse_digits (r : N) (s : string) (acc : N) : option N :=
  match s with
  | EmptyString => Some acc
  | String c rest =>
      match digit_value c with
      | Some d => if (d <? r)%N then parse_digits r rest (r * acc + d) else None
      | None => None
      end
  end.

Definition parse_literal (r : N) (s : string) : option Z :=
  match s with
  | EmptyString => None
  | _ => n <- parse_digits r s 0;; Some (Z.of_N n)
  end.

(** White space as [trim] and the numeric string grammar see it (the
    WhiteSpace and LineTerminator code points), by UTF-8 encoding: one
    byte for TAB, LF, VT, FF, CR and SP; two for U+00A0; three for U+1680,
    U+2000 to U+200A, U+2028, U+2029, U+202F, U+205F, U+3000 and U+FEFF. *)
Definition ws1 (c1 : ascii) : bool :=
  let n1 := nat_of_ascii c1 in
  ((n1 =? 32) || ((9 <=? n1) && (n1 <=? 13)))%nat.

Definition ws2 (c1 c2 : ascii) : bool :=
  ((nat_of_ascii c1 =? 194) && (nat_of_ascii c2 =? 160))%nat.

Definition ws3 (c1 c2 c3 : ascii) : bool :=
  let n1 := nat_of_ascii c1 in
  let n2 := nat_of_ascii c2 in
  let n3 := nat_of_ascii c3 in
  (((n1 =? 225) && (n2 =? 154) && (n3 =? 128))
   || ((n1 =? 226) && (n2 =? 128)
       && (((128 <=? n3) && (n3 <=? 138))
           || (n3 =? 168) || (n3 =? 169) || (n3 =? 175)))
   || ((n1 =? 226) && (n2 =? 129) && (n3 =? 159))
   || ((n1 =? 227) && (n2 =? 128) && (n3 =? 128))
   || ((n1 =? 239) && (n2 =? 187) && (n3 =? 191)))%nat.

(** [s.trimStart()]. *)
Fixpoint trimStart (s : string) : string :=
  match s with
  | EmptyString => EmptyString
  | String c1 r1 =>
      if ws1 c1 then trimStart r1
      else
        match r1 with
        | EmptyString => s
        | String c2 r2 =>
            if ws2 c1 c2 then trimStart r2
            else
              match r2 with
              | EmptyString => s
              | String c3 r3 => if ws3 c1 c2 c3 then trimStart r3 else s
              end
        end
  end.

(** [s.trimEnd()]: the string is cut where only white space follows. *)
Fixpoint trimEnd (s : string) : string :=
  match s with
  | EmptyString => EmptyString
  | String c r =>
      match trimStart s with
      | EmptyString => EmptyString
      | String _ _ => String c (trimEnd r)
      end
  end.

(** [s.trim()]. *)
Definition trim (s : string) : string := trimEnd (trimStart s).

(** The numeric literal of StringToBigInt, white space removed: the
    empty string is zero; [0x], [0o] and [0b] prefixes (either case) select
    the radix and take no sign; otherwise an optionally signed decimal
    literal.  [None] is the thrown [SyntaxError]. *)
Definition BigInt_literal (s : string) : option Z :=
  match s with
  | EmptyString => Some 0
  | String "0" (String "x" rest) | String "0" (String "X" rest) =>
      parse_literal 16 rest
  | String "0" (String "o" rest) | String "0" (String "O" rest) =>
      parse_literal 8 rest
  | String "0" (String "b" rest) | String "0" (String "B" rest) =>
      parse_literal 2 rest
  | String "-" rest => z <- parse_literal 10 rest;; Some (- z)
  | String "+" rest => parse_literal 10 rest
  | _ => parse_literal 10 s
  end.

(** [BigInt(s)] for a string argument (StringToBigInt): white space
    around the literal is dropped first. *)
Definition BigInt (s : string) : option Z := BigInt_literal (trim s).

End Js.

(** The [Hex] strings of viem: [0x] followed by two hex digits per byte. *)
Module Hex.

Definition show_byte (b : byte) : string :=
  let n := Byte.to_N b in
  String (Js.digit_char (n / 16)) (String (Js.digit_char (n mod 16)) EmptyString).

Fixpoint show_digits (bs : bytes) : string :=
  match bs with
  | [] => EmptyString
  | b :: rest => show_byte b ++ show_digits rest
  end.

(** [bytesToHex]. *)
Definition show (bs : bytes) : string := "0x" ++ show_digits bs.

Fixpoint parse_pairs (s : string) : option bytes :=
  match s with
  | EmptyString => Some []
  | String _ EmptyString => None
  | String h (String l rest) =>
      hi <- Js.digit_value h;;
      lo <- Js.digit_value l;;
      bs <- parse_pairs rest;;
      Some (byte_of_Z (Z.of_N (16 * hi + lo)) :: bs)
  end.

(** [hexToBytes] on well-formed input: the [0x] prefix and an even number
    of hex digits of either case; anything else is rejected. *)
Definition parse (s : string) : option bytes :=
  match s with
  | String "0" (String "x" rest) => parse_pairs rest
  | _ => None
  end.

End Hex.

(* ================================================================== *)
(** * The viem functions the clients call *)
(* ================================================================== *)

Module Viem.

(** [keccak256(hex)]: hash of the bytes the hex string denotes. *)
Definition keccak256 (h : string) : option string :=
  b <- Hex.parse h;; Some (Hex.show (Keccak.keccak256 b)).

(** The shape test of [isAddress], [^0x[a-fA-F0-9]{40}$]. *)
Definition address_shape (s : string) : bool :=
  match Hex.parse s with
  | Some b => (length b =? 20)%nat
  | None => false
  end.

Definition upper_ascii (c : ascii) : ascii :=
  let n := nat_of_ascii c in
  if ((97 <=? n) && (n <=? 122))%nat then ascii_of_nat (n - 32) else c.

(** The loop of [checksumAddress]: the two digits of position [i] are
    put in upper case where the high, respectively low, half of byte [i]
    of the hash is 8 or more. *)
Fixpoint checksum_digits (hash : bytes) (digits : string) : string :=
  match digits, hash with
  | String h (String l rest), b :: hash' =>
      let n := Byte.to_N b in
      String (if (8 <=? n / 16)%N then upper_ascii h else h)
        (String (if (8 <=? n mod 16)%N then upper_ascii l else l)
           (checksum_digits hash' rest))
  | _, _ => digits
  end.

(** [checksumAddress] (EIP-55), on a string of the address shape: the
    hash is that of the 40 lower-case digits as text. *)
Definition checksumAddress (address : string) : string :=
  let hexAddress := Js.toLowerCase (Js.slice 2 address) in
  let hash := Keccak.keccak256 (utf8 hexAddress) in
  ("0x" ++ checksum_digits hash hexAddress)%string.

(** [isAddress] (strict, the default): the shape test, then an
    all-lower-case address passes and any other must carry its EIP-55
    checksum. *)
Definition isAddress (s : string) : bool :=
  if negb (address_shape s) then false
  else if String.eqb (Js.toLowerCase s) s then true
  else String.eqb (checksumAddress s) s.

(** The 20 bytes of an address argument; [encodePacked] and
    [encodeAbiParameters] throw [InvalidAddressError] unless [isAddress]. *)
Definition address_bytes (a : string) : option bytes :=
  if isAddress a then Hex.parse a else None.

Definition uint256_bytes (n : Z) : option bytes :=
  if (0 <=? n) && (n <? 2 ^ 256) then Some (be 32 n) else None.

Definition bytes32_bytes (h : string) : option bytes :=
  b <- Hex.parse h;; if (length b =? 32)%nat then Some b else None.

(** One (type, value) pair of [encodePacked]. *)
Inductive PackedArg :=
| PAddress (a : string)
| PUint256 (n : Z)
| PBytes32 (h : string)
| PBytes (h : string).

Definition packed_bytes (a : PackedArg) : option bytes :=
  match a with
  | PAddress a => address_bytes a
  | PUint256 n => uint256_bytes n
  | PBytes32 h => bytes32_bytes h
  | PBytes h => Hex.parse h
  end.

Fixpoint packed_concat (args : list PackedArg) : option bytes :=
  match args with
  | [] => Some []
  | a :: rest =>
      b <- packed_bytes a;; bs <- packed_concat rest;; Some (b ++ bs)
  end.

(** [encodePacked(types, values)]: each value at its own width, no
    padding between them; throws on an ill-formed address, an integer
    out of range or a [bytes32] of another size. *)
Definition encodePacked (args : list PackedArg) : option string :=
  bs <- packed_concat args;; Some (Hex.show bs).

(** ** ABI encoding ([encodeFunctionData]) *)

Inductive AbiValue :=
| AvAddress (a : string)
| AvUint256 (n : Z)
| AvBytes32 (h : string)
| AvBytes (h : string)
| AvString (s : string).

Definition type_name (v : AbiValue) : string :=
  match v with
  | AvAddress _ => "address"
  | AvUint256 _ => "uint256"
  | AvBytes32 _ => "bytes32"
  | AvBytes _ => "bytes"
  | AvString _ => "string"
  end.

Fixpoint type_list (vs : list AbiValue) : string :=
  match vs with
  | [] => EmptyString
  | [v] => type_name v
  | v :: rest => type_name v ++ "," ++ type_list rest
  end.

Definition signature (name : string) (args : list AbiValue) : string :=
  name ++ "(" ++ type_list args ++ ")".

(** The 4-byte function selector. *)
Definition selector (sig : string) : bytes :=
  firstn 4 (Keccak.keccak256 (utf8 sig)).

Definition pad_right32 (b : bytes) : bytes :=
  b ++ zeros ((32 - length b mod 32) mod 32).

Definition enc_dynamic (b : bytes) : bytes :=
  be 32 (Z.of_nat (length b)) ++ pad_right32 b.

(** Encoding of one parameter: [inl] a static 32-byte word, [inr] the
    tail of a dynamic one. *)
Definition enc_value (v : AbiValue) : option (bytes + bytes) :=
  match v with
  | AvAddress a => b <- address_bytes a;; Some (inl (zeros 12 ++ b))
  | AvUint256 n => b <- uint256_bytes n;; Some (inl b)
  | AvBytes32 h => b <- bytes32_bytes h;; Some (inl b)
  | AvBytes h => b <- Hex.parse h;; Some (inr (enc_dynamic b))
  | AvString s => Some (inr (enc_dynamic (utf8 s)))
  end.

(** Heads and tails: a static parameter is its own head; a dynamic one
    has the offset of its tail as head. *)
Fixpoint enc_params (static_size dynamic_size : nat) (vs : list AbiValue)
  : option (bytes * bytes) :=
  match vs with
  | [] => Some ([], [])
  | v :: rest =>
      e <- enc_value v;;
      match e with
      | inl w =>
          r <- enc_params static_size dynamic_size rest;;
          Some (w ++ fst r, snd r)
      | inr t =>
          r <- enc_params static_size (dynamic_size + length t) rest;;
          Some (be 32 (Z.of_nat (static_size + dynamic_size)) ++ fst r,
                t ++ snd r)
      end
  end.

Definition encodeAbiParameters (vs : list AbiValue) : option bytes :=
  r <- enc_params (32 * length vs) 0 vs;; Some (fst r ++ snd r).

Definition encodeFunctionData (name : string) (args : list AbiValue)
  : option string :=
  data <- encodeAbiParameters args;;
  Some (Hex.show (selector (signature name args) ++ data)).

(** ** Accounts and message signing *)

(** A local account: its address and its ECDSA signing function over a
    32-byte hash, returning the serialized signature (r, s, v). *)
Record Account := {
  address : string;
  sign : bytes -> bytes
}.

(** The EIP-191 personal-message prefix, [\x19Ethereum Signed Message:\n]. *)
Definition presignMessagePrefix : bytes :=
  x19 :: utf8 "Ethereum Signed Message:" ++ [x0a].

(** Modelled from the spec: viem's [hashMessage({ raw })] is library code
    outside the repository; section 4.5 of the design document and the
    NatSpec of the 03-social [DemoAccount.validateUserOp] give the wrapping:
    the prefix, the decimal byte length of the message, the message. *)
Definition hashMessage (raw : bytes) : bytes :=
  Keccak.keccak256
    (presignMessagePrefix
       ++ utf8 (Js.digits 10 (N.of_nat (length raw))) ++ raw).

(** [account.signMessage({ message: { raw } })]. *)
Definition signMessage (acc : Account) (raw : string) : option string :=
  m <- Hex.parse raw;; Some (Hex.show (sign acc (hashMessage m))).

End Viem.

(* ================================================================== *)
(** * The contracts *)
(* ================================================================== *)

Module Sol.

(** Outcome of an external call: a value, or a revert with its reason. *)
Inductive result (A : Type) :=
| Ok (a : A)
| Revert (reason : string).
Arguments Ok {A} a.
Arguments Revert {A} reason.

Definition require {A} (c : bool) (reason : string) (k : result A) : result A :=
  if c then k else Revert reason.

(** Values of the types that occur in the contracts' [abi.encodePacked]
    calls.  An [address] is a 160-bit and a [uint256] a 256-bit unsigned
    integer; [bytes32], [bytes] and string literals are byte strings. *)
Inductive Value :=
| VAddress (a : Z)
| VUint256 (n : Z)
| VBytes32 (b : bytes)
| VBytes (b : bytes)
| VBytes1 (b : byte)
| VString (s : bytes).

Definition packed (v : Value) : bytes :=
  match v with
  | VAddress a => be 20 a
  | VUint256 n => be 32 n
  | VBytes32 b => b
  | VBytes b => b
  | VBytes1 b => [b]
  | VString s => s
  end.

Definition abi_encodePacked (vs : list Value) : bytes :=
  concat (map packed vs).

(** [abi.encode(address)]: one left-padded 32-byte word. *)
Definition abi_encode_address (a : Z) : bytes := zeros 12 ++ be 20 a.

(** [address(uint160(uint256(h)))]. *)
Definition address_of_hash (h : bytes) : Z := from_be h mod 2 ^ 160.

(** The string literal ["\x19Ethereum Signed Message:\n32"]. *)
Definition eth_signed_message_32 : bytes :=
  x19 :: utf8 "Ethereum Signed Message:" ++ [x0a] ++ utf8 "32".

(** ERC-4337 v0.6 [UserOperation] ([SimpleUserOperation] in 03-social has
    the same layout). *)
Record UserOperation := {
  sender : Z;
  nonce : Z;
  initCode : bytes;
  callData : bytes;
  callGasLimit : Z;
  verificationGasLimit : Z;
  preVerificationGas : Z;
  maxFeePerGas : Z;
  maxPriorityFeePerGas : Z;
  paymasterAndData : bytes;
  signature : bytes
}.

Section Contracts.

(** The [ecrecover] precompile: hash, v, r, s to signer address. *)
Variable ecrecover : bytes -> Z -> bytes -> bytes -> Z.

(** [type(DemoAccount).creationCode], fixed at compile time. *)
Variable DemoAccount_creationCode : bytes.

(** *** 01-simple / 02-paymaster [DemoAccount] *)

Record DemoAccount := {
  owner : Z;
  entryPoint : Z
}.

(** [split]: r, s and v of a 65-byte signature. *)
Definition split (sig : bytes) : result (Z * bytes * bytes) :=
  require (length sig =? 65)%nat "bad sig"
    (Ok (Z_of_byte (nth 64 sig x00),
         firstn 32 sig,
         firstn 32 (skipn 32 sig))).

Definition recover (digest sig : bytes) : result Z :=
  let ethHash :=
    Keccak.keccak256
      (abi_encodePacked [VString eth_signed_message_32; VBytes32 digest]) in
  match split sig with
  | Ok (v, r, s) => Ok (ecrecover ethHash v r s)
  | Revert m => Revert m
  end.

(** The digest [validateUserOp] recomputes from the operation. *)
Definition validateUserOp_hash (userOp : UserOperation) : bytes :=
  Keccak.keccak256
    (abi_encodePacked
       [VAddress (sender userOp); VUint256 (nonce userOp);
        VBytes32 (Keccak.keccak256 (callData userOp))]).

(** [validateUserOp]: 0 on success together with the prefund paid to
    the EntryPoint ([_payPrefund] deposits only a non-zero amount). *)
Definition validateUserOp (self : DemoAccount) (msg_sender : Z)
    (userOp : UserOperation) (missingAccountFunds : Z)
  : result (Z * option Z) :=
  require (msg_sender =? entryPoint self) "not from entrypoint"
    (let hash := validateUserOp_hash userOp in
     match recover hash (signature userOp) with
     | Revert m => Revert m
     | Ok recovered =>
         require (recovered =? owner self) "invalid signature"
           (Ok (0, if missingAccountFunds =? 0 then None
                   else Some missingAccountFunds))
     end).

(** *** [DemoPaymaster] *)

Record DemoPaymaster := {
  pm_entryPoint : Z;
  pm_owner : Z;
  pm_signer : Z
}.

Definition _split (sig : bytes) : result (Z * bytes * bytes) :=
  require (length sig =? 65)%nat "invalid signature length"
    (Ok (Z_of_byte (nth 64 sig x00),
         firstn 32 sig,
         firstn 32 (skipn 32 sig))).

Definition _recover (digest sig : bytes) : result Z :=
  let ethHash :=
    Keccak.keccak256
      (abi_encodePacked [VString eth_signed_message_32; VBytes32 digest]) in
  match _split sig with
  | Ok (v, r, s) => Ok (ecrecover ethHash v r s)
  | Revert m => Revert m
  end.

(** The digest [validatePaymasterUserOp] recomputes. *)
Definition validatePaymasterUserOp_hash (userOp : UserOperation) : bytes :=
  Keccak.keccak256
    (abi_encodePacked
       [VAddress (sender userOp); VBytes (callData userOp);
        VUint256 (nonce userOp)]).

(** [validatePaymasterUserOp]: the empty context and validation data 0. *)
Definition validatePaymasterUserOp (self : DemoPaymaster) (msg_sender : Z)
    (userOp : UserOperation) : result (bytes * Z) :=
  require (msg_sender =? pm_entryPoint self) "only entrypoint"
    (let pnd := paymasterAndData userOp in
     require (length pnd =? 20 + 65)%nat "invalid paymasterAndData length"
       (let signature := firstn (85 - 20) (skipn 20 pnd) in
        let h := validatePaymasterUserOp_hash userOp in
        match _recover h signature with
        | Revert m => Revert m
        | Ok recovered =>
            require (recovered =? pm_signer self)
              "invalid paymaster signature" (Ok ([], 0))
        end)).

(** *** [AccountFactory] *)

(** What a [view] function can read: the code deployed at each address
    and the factory's own storage. *)
Record World := {
  code_at : Z -> bytes;
  admin : Z
}.

(** [getAddress], called on the factory deployed at [this]. *)
Definition getAddress (w : World) (this : Z)
    (uuidString : string) (backendSalt : bytes) (entryPoint : Z) : Z :=
  let salt :=
    Keccak.keccak256
      (abi_encodePacked [VString (utf8 uuidString); VBytes32 backendSalt]) in
  let bytecode :=
    abi_encodePacked
      [VBytes DemoAccount_creationCode;
       VBytes (abi_encode_address entryPoint)] in
  let hash :=
    Keccak.keccak256
      (abi_encodePacked
         [VBytes1 xff; VAddress this; VBytes32 salt;
          VBytes32 (Keccak.keccak256 bytecode)]) in
  address_of_hash hash.

End Contracts.

End Sol.

(* ================================================================== *)
(** * JSON values and the JavaScript tests made on them *)
(* ================================================================== *)

Module Json.

(** A value as [r.json()] yields it, plus [undefined] for a missing
    property.  Numbers are kept by their integer value: only whether a
    number is zero is ever observed. *)
#[warnings="-register-all"]
Inductive JsValue :=
| JUndefined
| JNull
| JBool (b : bool)
| JNumber (n : Z)
| JString (s : string)
| JArray (items : list JsValue)
| JObject (fields : list (string * JsValue)).

Definition has_key (k : string) (fields : list (string * JsValue)) : bool :=
  existsb (fun kv => String.eqb k (fst kv)) fields.

(** Property read [o.k]: [undefined] when [o] has no such property.  A
    later duplicate key wins, as in [JSON.parse]. *)
Fixpoint lookup (k : string) (fields : list (string * JsValue)) : JsValue :=
  match fields with
  | [] => JUndefined
  | (k', v) :: rest =>
      if has_key k rest then lookup k rest
      else if String.eqb k k' then v else JUndefined
  end.

Definition get (o : JsValue) (k : string) : JsValue :=
  match o with
  | JObject fields => lookup k fields
  | _ => JUndefined
  end.

(** The expression [o.k]: reading a property of [null] or [undefined]
    throws a [TypeError] ([None]); any other value without the property
    gives [undefined]. *)
Definition prop (o : JsValue) (k : string) : option JsValue :=
  match o with
  | JUndefined | JNull => None
  | _ => Some (get o k)
  end.

(** ToBoolean. *)
Definition truthy (v : JsValue) : bool :=
  match v with
  | JUndefined | JNull => false
  | JBool b => b
  | JNumber n => negb (n =? 0)
  | JString s => negb (String.eqb s "")
  | JArray _ | JObject _ => true
  end.

Definition typeof (v : JsValue) : string :=
  match v with
  | JUndefined => "undefined"
  | JNull => "object"
  | JBool _ => "boolean"
  | JNumber _ => "number"
  | JString _ => "string"
  | JArray _ | JObject _ => "object"
  end.

End Json.
Import Json.

(* ================================================================== *)
(** * Exceptions *)
(* ================================================================== *)

(** What a [throw] carries: an [Error] built by the client with its
    message, or an error raised inside a library call (viem, [BigInt],
    [fetch]). *)
Inductive Error :=
| ErrorMsg (msg : string)
| LibraryError.

Inductive Outcome (A : Type) :=
| Returned (a : A)
| Thrown (e : Error).
Arguments Returned {A} a.
Arguments Thrown {A} e.

Definition bindO {A B} (m : Outcome A) (k : A -> Outcome B) : Outcome B :=
  match m with
  | Returned a => k a
  | Thrown e => Thrown e
  end.

Notation "x <~ a ;; b" := (bindO a (fun x => b))
  (at level 61, a at next level, right associativity).

(** A library call that throws. *)
Definition lift {A} (o : option A) : Outcome A :=
  match o with
  | Some a => Returned a
  | None => Thrown LibraryError
  end.

(** [!v] for [v : string | undefined | null]. *)
Definition falsy (v : option string) : bool :=
  match v with
  | None => true
  | Some s => String.eqb s ""
  end.

(* ================================================================== *)
(** * 01-simple and 02-paymaster clients ([utils.ts] and the two [main]s) *)
(* ================================================================== *)

Module Utils.

(** [UserOperation] as sent to the bundler: every field a string. *)
Record UserOperation := {
  sender : string;
  nonce : string;
  initCode : string;
  callData : string;
  callGasLimit : string;
  verificationGasLimit : string;
  preVerificationGas : string;
  maxFeePerGas : string;
  maxPriorityFeePerGas : string;
  paymasterAndData : string;
  signature : string
}.

Definition set_signature (op : UserOperation) (sig : string) :=
  {| sender := sender op; nonce := nonce op; initCode := initCode op;
     callData := callData op; callGasLimit := callGasLimit op;
     verificationGasLimit := verificationGasLimit op;
     preVerificationGas := preVerificationGas op;
     maxFeePerGas := maxFeePerGas op;
     maxPriorityFeePerGas := maxPriorityFeePerGas op;
     paymasterAndData := paymasterAndData op; signature := sig |}.

Definition set_paymasterAndData (op : UserOperation) (pnd : string) :=
  {| sender := sender op; nonce := nonce op; initCode := initCode op;
     callData := callData op; callGasLimit := callGasLimit op;
     verificationGasLimit := verificationGasLimit op;
     preVerificationGas := preVerificationGas op;
     maxFeePerGas := maxFeePerGas op;
     maxPriorityFeePerGas := maxPriorityFeePerGas op;
     paymasterAndData := pnd; signature := signature op |}.

(** ** Env helpers *)

Definition envAddress (v : option string) (name : string) : Outcome string :=
  match v with
  | None => Thrown (ErrorMsg ("Missing env var: " ++ name))
  | Some s =>
      if falsy v then Thrown (ErrorMsg ("Missing env var: " ++ name))
      else if negb (Viem.isAddress s)
           then Thrown (ErrorMsg ("Invalid address in " ++ name ++ ": " ++ s))
           else Returned s
  end.

(** ** Encoding helpers *)

(** [toHex], on integers. *)
Definition toHex (v : Z) : string := "0x" ++ Js.BigInt_toString 16 v.

Definition encodeIncrementCall : option string :=
  Viem.encodeFunctionData "increment" [].

Definition encodeExecute (target : string) (value : Z) (data : string)
  : option string :=
  Viem.encodeFunctionData "execute"
    [Viem.AvAddress target; Viem.AvUint256 value; Viem.AvBytes data].

(** ** UserOp helpers *)

Record BuildParams := {
  p_sender : string;
  p_nonce : Z;
  p_callData : string;
  p_maxFeePerGas : Z;
  p_maxPriorityFeePerGas : Z
}.

Definition buildUserOperation (params : BuildParams) : UserOperation :=
  {| sender := p_sender params;
     nonce := toHex (p_nonce params);
     initCode := "0x";
     callData := p_callData params;
     callGasLimit := toHex 250000;
     verificationGasLimit := toHex 250000;
     preVerificationGas := toHex 50000;
     maxFeePerGas := toHex (p_maxFeePerGas params);
     maxPriorityFeePerGas := toHex (p_maxPriorityFeePerGas params);
     paymasterAndData := "0x";
     signature := "0x" |}.

Definition computeUserOpHash (sender : string) (nonce : Z) (callData : string)
  : option string :=
  h <- Viem.keccak256 callData;;
  packed <- Viem.encodePacked
              [Viem.PAddress sender; Viem.PUint256 nonce; Viem.PBytes32 h];;
  Viem.keccak256 packed.

(** ** Signature *)

Definition signUserOperationHash (owner : Viem.Account) (rawHash : string)
  : option string :=
  Viem.signMessage owner rawHash.

Section Paymaster.

(** [privateKeyToAccount] of viem. *)
Variable privateKeyToAccount : string -> Viem.Account.

Record SponsorParams := {
  s_sender : string;
  s_callData : string;
  s_nonce : Z
}.

(** The sponsor digest [pmHash] of [buildPaymasterAndData]. *)
Definition pmHash (params : SponsorParams) : option string :=
  packed <- Viem.encodePacked
              [Viem.PAddress (s_sender params);
               Viem.PBytes (s_callData params);
               Viem.PUint256 (s_nonce params)];;
  Viem.keccak256 packed.

Definition buildPaymasterAndData (paymasterAddress paymasterPk : string)
    (params : SponsorParams) : option string :=
  let account := privateKeyToAccount paymasterPk in
  h <- pmHash params;;
  signature <- Viem.signMessage account h;;
  Some (paymasterAddress ++ Js.slice 2 signature)%string.

End Paymaster.

End Utils.

(** ** Receipt polling ([waitForReceipt]) and the relay *)

Module Relay.

(** A JSON-RPC request as the clients post it. *)
Record Request := {
  url : string;
  method : string;
  params : list JsValue;
  id : Z
}.

(** What a [fetch(...).then(r => r.json())] yields: the parsed body, or a
    rejection (transport failure, body that is not JSON). *)
Inductive Reply :=
| Body (json : JsValue)
| Rejected.

(** The relay seen from one client run: the reply to the [k]-th request. *)
Definition Relay := nat -> Request -> Reply.

End Relay.
Import Relay.

Module Poller.

Inductive State :=
| Pending
| Settled (receipt : JsValue).

(** The loop's state together with what an observer of the run sees:
    the requests sent so far (latest first) and the time spent in
    [setTimeout], in milliseconds. *)
Record Run := {
  state : State;
  sent : list Request;
  waited : Z
}.

Definition start : Run := {| state := Pending; sent := []; waited := 0 |}.

Definition receiptRequest (bundlerUrl uoHash : string) : Request :=
  {| url := bundlerUrl;
     method := "eth_getUserOperationReceipt";
     params := [JString uoHash];
     id := 1 |}.

(** One iteration of the [while (true)] body. *)
Definition tick (relay : Relay) (bundlerUrl uoHash : string) (r : Run)
  : Outcome Run :=
  match state r with
  | Settled _ => Returned r
  | Pending =>
      let req := receiptRequest bundlerUrl uoHash in
      match relay (length (sent r)) req with
      | Rejected => Thrown LibraryError
      | Body res =>
          match prop res "result" with
          | None => Thrown LibraryError
          | Some result =>
              if truthy result
              then Returned {| state := Settled result;
                               sent := req :: sent r;
                               waited := waited r |}
              else Returned {| state := Pending;
                               sent := req :: sent r;
                               waited := waited r + 1000 |}
          end
      end
  end.

(** [n] iterations from a given run. *)
Fixpoint ticks (n : nat) (relay : Relay) (bundlerUrl uoHash : string)
    (r : Run) : Outcome Run :=
  match n with
  | O => Returned r
  | S k => r' <~ tick relay bundlerUrl uoHash r;; ticks k relay bundlerUrl uoHash r'
  end.

(** [waitForReceipt] run for at most [fuel] iterations: the receipt it
    returns, or [None] while the loop is still running. *)
Definition waitForReceipt (fuel : nat) (relay : Relay)
    (bundlerUrl uoHash : string) : Outcome (option JsValue) :=
  r <~ ticks fuel relay bundlerUrl uoHash start;;
  match state r with
  | Settled receipt => Returned (Some receipt)
  | Pending => Returned None
  end.

End Poller.

Module Main.

(** Step 6 of both [main]s: the digest signed by the owner. *)
Definition rawHash (SC_SMART_ACCOUNT_ADDRESS : string) (nonceBN : Z)
    (callData : string) : option string :=
  h <- Viem.keccak256 callData;;
  packed <- Viem.encodePacked
              [Viem.PAddress SC_SMART_ACCOUNT_ADDRESS;
               Viem.PUint256 nonceBN; Viem.PBytes32 h];;
  Viem.keccak256 packed.

Definition sendRequest (BUNDLER_URL : string) (userOp entryPoint : JsValue)
  : Request :=
  {| url := BUNDLER_URL;
     method := "eth_sendUserOperation";
     params := [userOp; entryPoint];
     id := 1 |}.

(** The test both [main]s make on the bundler's reply to
    [eth_sendUserOperation]; the tracking hash when it passes. *)
Definition checkSendResponse (sendRes : JsValue) : Outcome string :=
  match prop sendRes "result" with
  | None => Thrown LibraryError
  | Some result =>
      if negb (truthy result) || negb (String.eqb (typeof result) "string")
      then Thrown (ErrorMsg "Bundler did not return a valid operation hash")
      else match result with
           | JString h => Returned h
           | _ => Thrown LibraryError (* not reached: [typeof] is "string" *)
           end
  end.

(** What a run of the submission steps does: the requests it sends
    itself, the hash it calls [waitForReceipt] with ([None] when the call
    is never reached), and how the run ends. *)
Record Submission := {
  sent : list Request;
  polled : option string;
  outcome : Outcome (option JsValue)
}.

(** Steps 8 to 9 (01-simple) and 9 to 10 (02-paymaster): submit, check
    the reply, wait for the receipt. *)
Definition submitAndWait (fuel : nat) (relay : Relay) (BUNDLER_URL : string)
    (userOp entryPoint : JsValue) : Submission :=
  let sendReq := sendRequest BUNDLER_URL userOp entryPoint in
  match relay O sendReq with
  | Rejected =>
      {| sent := [sendReq]; polled := None; outcome := Thrown LibraryError |}
  | Body sendRes =>
      match checkSendResponse sendRes with
      | Thrown e => {| sent := [sendReq]; polled := None; outcome := Thrown e |}
      | Returned h =>
          {| sent := [sendReq];
             polled := Some h;
             outcome :=
               Poller.waitForReceipt fuel (fun k => relay (S k)) BUNDLER_URL h |}
      end
  end.

End Main.

(* ================================================================== *)
(** * 03-social client ([main.ts]) *)
(* ================================================================== *)

Module Social.

(** [SimpleUserOperation]: the bundler format, numeric values as hex. *)
Definition SimpleUserOperation := Utils.UserOperation.

(** [EntryPointUserOperation]: numeric values as bigint. *)
Record EntryPointUserOperation := {
  sender : string;
  nonce : Z;
  initCode : string;
  callData : string;
  callGasLimit : Z;
  verificationGasLimit : Z;
  preVerificationGas : Z;
  maxFeePerGas : Z;
  maxPriorityFeePerGas : Z;
  paymasterAndData : string;
  signature : string
}.

Definition toEntryPointUserOp (op : SimpleUserOperation)
  : option EntryPointUserOperation :=
  nonce' <- Js.BigInt (Utils.nonce op);;
  callGasLimit' <- Js.BigInt (Utils.callGasLimit op);;
  verificationGasLimit' <- Js.BigInt (Utils.verificationGasLimit op);;
  preVerificationGas' <- Js.BigInt (Utils.preVerificationGas op);;
  maxFeePerGas' <- Js.BigInt (Utils.maxFeePerGas op);;
  maxPriorityFeePerGas' <- Js.BigInt (Utils.maxPriorityFeePerGas op);;
  Some {| sender := Utils.sender op;
          nonce := nonce';
          initCode := Utils.initCode op;
          callData := Utils.callData op;
          callGasLimit := callGasLimit';
          verificationGasLimit := verificationGasLimit';
          preVerificationGas := preVerificationGas';
          maxFeePerGas := maxFeePerGas';
          maxPriorityFeePerGas := maxPriorityFeePerGas';
          paymasterAndData := Utils.paymasterAndData op;
          signature := Utils.signature op |}.

(** [smartAccountExists], on what [getCode] returned. *)
Definition smartAccountExists (code : option string) : bool :=
  match code with
  | None => false
  | Some c =>
      if falsy code then false
      else
        let normalized := Js.toLowerCase c in
        if String.eqb normalized "0x" || String.eqb normalized "0x0" then false
        else (2 <? String.length normalized)%nat
  end.

(** [getPaymasterSignerPk]. *)
Definition getPaymasterSignerPk (VITE_PAYMASTER_SIGNER_PK : option string)
  : option string :=
  match VITE_PAYMASTER_SIGNER_PK with
  | None => None
  | Some pk =>
      if falsy (Some pk) || String.eqb (Js.trim pk) EmptyString then None
      else Some pk
  end.

(** The build-time configuration ([import.meta.env]) and the values
    derived from it at module load. *)
Record Config := {
  entryPointAddress : string;
  logicAddress : string;
  factoryAddress : string;
  paymasterAddress : string;
  backendSalt : string;
  VITE_PAYMASTER_SIGNER_PK : option string;
  VITE_BUNDLER_URL : string
}.

(** [backendSalt = keccak256(stringToBytes(VITE_BACKEND_SALT))]. *)
Definition backendSalt_of (VITE_BACKEND_SALT : string) : string :=
  Hex.show (Keccak.keccak256 (utf8 VITE_BACKEND_SALT)).

(** Global state of the page. *)
Record Session := {
  ownerPk : option string;
  smartAccountAddress : option string;
  uuidString : option string;
  status : string
}.

Definition setStatus (msg : string) (s : Session) : Session :=
  {| ownerPk := ownerPk s; smartAccountAddress := smartAccountAddress s;
     uuidString := uuidString s; status := msg |}.

Definition setSmartAccountAddress (a : string) (s : Session) : Session :=
  {| ownerPk := ownerPk s; smartAccountAddress := Some a;
     uuidString := uuidString s; status := status s |}.

(** What one run of [sendUserOp] reads from the chain and the bundler,
    in the order it reads it. *)
Record Reads := {
  factory_getAddress : string;           (* AccountFactory.getAddress *)
  code_first : option string;            (* getCode in ensureSmartAccount *)
  code_second : option string;           (* getCode in sendUserOp *)
  entryPoint_getNonce : Z;               (* EntryPoint.getNonce(sender, 0) *)
  entryPoint_getUserOpHash : EntryPointUserOperation -> string;
  bundler : Request -> Reply
}.

Section Client.

Variable privateKeyToAccount : string -> Viem.Account.
Variable cfg : Config.

(** The sponsor digest of [signPaymaster]. *)
Definition paymasterDigest (userOp : SimpleUserOperation) : option string :=
  n <- Js.BigInt (Utils.nonce userOp);;
  packed <- Viem.encodePacked
              [Viem.PAddress (Utils.sender userOp);
               Viem.PBytes (Utils.callData userOp);
               Viem.PUint256 n];;
  Viem.keccak256 packed.

(** [signPaymaster]: [None] (null) when no signer key is configured. *)
Definition signPaymaster (userOp : SimpleUserOperation)
  : Outcome (option string) :=
  match getPaymasterSignerPk (VITE_PAYMASTER_SIGNER_PK cfg) with
  | None => Returned None
  | Some pk =>
      let acc := privateKeyToAccount pk in
      digest <~ lift (paymasterDigest userOp);;
      sig <~ lift (Viem.signMessage acc digest);;
      Returned (Some sig)
  end.

(** [ensureSmartAccount]. *)
Definition ensureSmartAccount (rd : Reads) (s : Session)
  : Outcome (string * Session) :=
  if falsy (ownerPk s) then Thrown (ErrorMsg "Missing owner PK")
  else if falsy (uuidString s) then Thrown (ErrorMsg "Missing uuidString")
  else
    let computed := factory_getAddress rd in
    let exists_ := smartAccountExists (code_first rd) in
    Returned (computed, setSmartAccountAddress computed s).

(** Step 5 of [sendUserOp]: the init payload. *)
Definition resolveInitCode (exists_ : bool) (uuid ownerAddress : string)
  : option string :=
  if exists_ then Some "0x"
  else
    initCallData <- Viem.encodeFunctionData "createAccount"
                      [Viem.AvString uuid;
                       Viem.AvBytes32 (backendSalt cfg);
                       Viem.AvAddress (entryPointAddress cfg);
                       Viem.AvAddress ownerAddress];;
    Some (factoryAddress cfg ++ Js.slice 2 initCallData)%string.

Definition userOpJson (op : SimpleUserOperation) : JsValue :=
  JObject
    [("sender", JString (Utils.sender op));
     ("nonce", JString (Utils.nonce op));
     ("initCode", JString (Utils.initCode op));
     ("callData", JString (Utils.callData op));
     ("callGasLimit", JString (Utils.callGasLimit op));
     ("verificationGasLimit", JString (Utils.verificationGasLimit op));
     ("preVerificationGas", JString (Utils.preVerificationGas op));
     ("maxFeePerGas", JString (Utils.maxFeePerGas op));
     ("maxPriorityFeePerGas", JString (Utils.maxPriorityFeePerGas op));
     ("paymasterAndData", JString (Utils.paymasterAndData op));
     ("signature", JString (Utils.signature op))].

(** Step 6 of [sendUserOp]: the operation before any signature. *)
Definition draftUserOp (sender : string) (epNonce : Z)
    (initCode callData : string) : SimpleUserOperation :=
  {| Utils.sender := sender;
     Utils.nonce := "0x" ++ Js.BigInt_toString 16 epNonce;
     Utils.initCode := initCode;
     Utils.callData := callData;
     Utils.callGasLimit := "0x350000";
     Utils.verificationGasLimit := "0x150000";
     Utils.preVerificationGas := "0x40000";
     Utils.maxFeePerGas := "0x2540be400";
     Utils.maxPriorityFeePerGas := "0x2540be400";
     Utils.paymasterAndData := "0x";
     Utils.signature := "0x" |}.

(** Step 7 of [sendUserOp]: [if (pmSig) userOp.paymasterAndData = ...]. *)
Definition attachPaymaster (userOp : SimpleUserOperation)
    (pmSig : option string) : SimpleUserOperation :=
  match pmSig with
  | Some sig =>
      if falsy pmSig then userOp
      else Utils.set_paymasterAndData userOp
             (paymasterAddress cfg ++ Js.slice 2 sig)%string
  | None => userOp
  end.

(** What a run of [sendUserOp] leaves behind: the operation it posted
    to the bundler (if it got that far) and the page state. *)
Record Sent := {
  posted : option SimpleUserOperation;
  after : Session
}.

Definition sendUserOp (rd : Reads) (s : Session) : Outcome Sent :=
  match ownerPk s with
  | None => Returned {| posted := None; after := s |}
  | Some pk =>
      if falsy (ownerPk s) then Returned {| posted := None; after := s |}
      else
        match uuidString s with
        | None =>
            Thrown (ErrorMsg
              "Missing uuidString (expected from Google sub / aa-uuid)")
        | Some uuid =>
            if falsy (uuidString s) then
              Thrown (ErrorMsg
                "Missing uuidString (expected from Google sub / aa-uuid)")
            else
              let s1 := setStatus "Preparing UserOperation..." s in
              let owner := privateKeyToAccount pk in
              (* 1) deterministic smart account address *)
              r <~ ensureSmartAccount rd s1;;
              let sender := fst r in
              let s2 := snd r in
              let exists_ := smartAccountExists (code_second rd) in
              (* 2) nonce *)
              let epNonce := entryPoint_getNonce rd in
              (* 3) DemoLogic.increment call, 4) wrapped in execute *)
              logicCall <~ lift (Viem.encodeFunctionData "increment" []);;
              callData <~ lift (Viem.encodeFunctionData "execute"
                                  [Viem.AvAddress (logicAddress cfg);
                                   Viem.AvUint256 0;
                                   Viem.AvBytes logicCall]);;
              (* 5) initCode *)
              initCode <~ lift (resolveInitCode exists_ uuid
                                  (Viem.address owner));;
              (* 6) the operation *)
              let userOp := draftUserOp sender epNonce initCode callData in
              (* 7) paymaster signing *)
              pmSig <~ signPaymaster userOp;;
              let userOp := attachPaymaster userOp pmSig in
              (* 8) userOpHash from the EntryPoint *)
              opForHash <~ lift (toEntryPointUserOp userOp);;
              let userOpHash := entryPoint_getUserOpHash rd opForHash in
              (* 9) owner signature *)
              ownerSig <~ lift (Viem.signMessage owner userOpHash);;
              let userOp := Utils.set_signature userOp ownerSig in
              (* 10) send to bundler; the reply is logged *)
              match bundler rd
                      (Main.sendRequest (VITE_BUNDLER_URL cfg)
                         (userOpJson userOp)
                         (JString (entryPointAddress cfg))) with
              | Rejected => Thrown LibraryError
              | Body json =>
                  Returned {| posted := Some userOp;
                              after := setStatus "UserOperation sent." s2 |}
              end
        end
  end.

(** The click handler installed by [init]: a rejection of [sendUserOp]
    is caught, logged and shown as status "Error".  The status line the
    page shows afterwards. *)
Definition onSendOpClick (rd : Reads) (s : Session) : string :=
  match sendUserOp rd s with
  | Returned r => status (after r)
  | Thrown _ => "Error"
  end.

End Client.

End Social.


(* ================================================================== *)
(** * 01-simple [DemoAccount]: owner rotation and execution *)
(* ================================================================== *)

Module Account01.

Section Contract.

(** The low-level [target.call{value}(data)]: whether it succeeded. *)
Variable call : Z -> Z -> bytes -> bool.

(** [setOwner]. *)
Definition setOwner (self : Sol.DemoAccount) (msg_sender newOwner : Z)
  : Sol.result Sol.DemoAccount :=
  Sol.require (msg_sender =? Sol.owner self) "not owner"
    (Sol.Ok {| Sol.owner := newOwner; Sol.entryPoint := Sol.entryPoint self |}).

(** [execute]. *)
Definition execute (self : Sol.DemoAccount) (msg_sender target value : Z)
    (data : bytes) : Sol.result unit :=
  Sol.require (msg_sender =? Sol.entryPoint self) "only EP"
    (Sol.require (call target value data) "exec failed" (Sol.Ok tt)).

End Contract.

End Account01.

(* ================================================================== *)
(** * 03-social contracts: [DemoAccount] and [AccountFactory] *)
(* ================================================================== *)

Module Factory.

Section Contracts.

(** OpenZeppelin's [SignatureChecker.isValidSignatureNow(signer, hash,
    signature)]. *)
Variable isValidSignatureNow : Z -> bytes -> bytes -> bool.

(** [type(DemoAccount).creationCode]. *)
Variable DemoAccount_creationCode : bytes.

(** Storage of the 03-social [DemoAccount] ([entryPoint] is immutable). *)
Record DemoAccount := {
  owner : Z;
  factoryAdmin : Z;
  entryPoint : Z;
  nonce : Z;
  initialized : bool
}.

(** The account as its constructor leaves it: only the EntryPoint set. *)
Definition constructed (_entryPoint : Z) : DemoAccount :=
  {| owner := 0; factoryAdmin := 0; entryPoint := _entryPoint;
     nonce := 0; initialized := false |}.

(** [init]. *)
Definition init (self : DemoAccount) (_owner _factoryAdmin : Z)
  : Sol.result DemoAccount :=
  Sol.require (negb (initialized self)) "Already initialized"
    (Sol.Ok {| owner := _owner; factoryAdmin := _factoryAdmin;
               entryPoint := entryPoint self; nonce := nonce self;
               initialized := true |}).

(** [setOwner]. *)
Definition setOwner (self : DemoAccount) (msg_sender newOwner : Z)
  : Sol.result DemoAccount :=
  Sol.require ((msg_sender =? owner self) || (msg_sender =? factoryAdmin self))
    "Not authorized"
    (Sol.Ok {| owner := newOwner; factoryAdmin := factoryAdmin self;
               entryPoint := entryPoint self; nonce := nonce self;
               initialized := initialized self |}).

(** [validateUserOp]: 0 and the account with its nonce advanced.  The
    checked increment [nonce++] panics on overflow; the panic is shown as
    the reason "Panic(0x11)". *)
Definition validateUserOp (self : DemoAccount) (msg_sender : Z)
    (userOp : Sol.UserOperation) (userOpHash : bytes)
  : Sol.result (Z * DemoAccount) :=
  Sol.require (msg_sender =? entryPoint self) "Only EntryPoint"
    (let ethSignedHash :=
       Keccak.keccak256
         (Sol.abi_encodePacked
            [Sol.VString Sol.eth_signed_message_32; Sol.VBytes32 userOpHash]) in
     let valid :=
       isValidSignatureNow (owner self) ethSignedHash (Sol.signature userOp) in
     Sol.require valid "Invalid signature"
       (Sol.require (Sol.nonce userOp =? nonce self) "Bad nonce"
          (if nonce self + 1 <? 2 ^ 256
           then Sol.Ok (0, {| owner := owner self;
                              factoryAdmin := factoryAdmin self;
                              entryPoint := entryPoint self;
                              nonce := nonce self + 1;
                              initialized := initialized self |})
           else Sol.Revert "Panic(0x11)"))).

(** [isValidSignature] (EIP-1271): [IERC1271.isValidSignature.selector]
    when valid, 0xffffffff otherwise. *)
Definition isValidSignature (self : DemoAccount) (hash signature : bytes)
  : bytes :=
  if isValidSignatureNow (owner self) hash signature
  then Viem.selector "isValidSignature(bytes32,bytes)"
  else [xff; xff; xff; xff].

(** ** [AccountFactory] *)

(** The chain as the factory sees it: the code at each address, the
    storage of the [DemoAccount] deployed at an address, and the factory's
    own [admin]. *)
Record Chain := {
  code_at : Z -> bytes;
  account_at : Z -> DemoAccount;
  admin : Z
}.

Inductive Event :=
| AccountDeployed (account : Z) (uuidString : string)
| SmartAccountOwnerChanged (account newOwner : Z).

(** The [create2(0, code, salt)] instruction executed by the contract at
    [this]: the address it returns (0 on failure) and the chain after it. *)
Variable create2 : Chain -> Z -> bytes -> bytes -> Z * Chain.

Definition world (c : Chain) : Sol.World :=
  {| Sol.code_at := code_at c; Sol.admin := admin c |}.

Definition set_account (c : Chain) (a : Z) (st : DemoAccount) : Chain :=
  {| code_at := code_at c;
     account_at := fun x => if x =? a then st else account_at c x;
     admin := admin c |}.

Definition getAddress (c : Chain) (this : Z) (uuidString : string)
    (backendSalt : bytes) (entryPoint : Z) : Z :=
  Sol.getAddress DemoAccount_creationCode (world c) this uuidString
    backendSalt entryPoint.

(** [createAccount], called on the factory at [this]. *)
Definition createAccount (c : Chain) (this : Z) (uuidString : string)
    (backendSalt : bytes) (entryPoint initialOwner : Z)
  : Sol.result (Z * Chain * list Event) :=
  let salt :=
    Keccak.keccak256
      (Sol.abi_encodePacked
         [Sol.VString (utf8 uuidString); Sol.VBytes32 backendSalt]) in
  let predicted := getAddress c this uuidString backendSalt entryPoint in
  if (0 <? length (code_at c predicted))%nat then Sol.Ok (predicted, c, [])
  else
    let bytecode :=
      Sol.abi_encodePacked
        [Sol.VBytes DemoAccount_creationCode;
         Sol.VBytes (Sol.abi_encode_address entryPoint)] in
    let created := create2 c this bytecode salt in
    let account := fst created in
    let c1 := snd created in
    Sol.require (negb (account =? 0)) "CREATE2 failed"
      (match init (account_at c1 account) initialOwner (admin c1) with
       | Sol.Revert m => Sol.Revert m
       | Sol.Ok st =>
           Sol.Ok (account, set_account c1 account st,
                   [AccountDeployed account uuidString])
       end).

(** [setSmartAccountOwner], called by [msg_sender] on the factory at
    [this]; the inner [setOwner] call is made by the factory. *)
Definition setSmartAccountOwner (c : Chain) (this msg_sender : Z)
    (uuidString : string) (backendSalt : bytes) (entryPoint newOwner : Z)
  : Sol.result (Chain * list Event) :=
  Sol.require (msg_sender =? admin c) "Only admin"
    (let account := getAddress c this uuidString backendSalt entryPoint in
     Sol.require (0 <? length (code_at c account))%nat "Account not deployed"
       (match setOwner (account_at c account) this newOwner with
        | Sol.Revert m => Sol.Revert m
        | Sol.Ok st =>
            Sol.Ok (set_account c account st,
                    [SmartAccountOwnerChanged account newOwner])
        end)).

End Contracts.

End Factory.

(* ================================================================== *)
(** * 01-simple and 02-paymaster clients: env, funding and gas quote *)
(* ================================================================== *)

Module Env.

(** [String.prototype.startsWith]. *)
Fixpoint startsWith (p s : string) : bool :=
  match p, s with
  | EmptyString, _ => true
  | String _ _, EmptyString => false
  | String a p', String b s' => Ascii.eqb a b && startsWith p' s'
  end.

Definition envHex (v : option string) (name : string) : Outcome string :=
  match v with
  | None => Thrown (ErrorMsg ("Missing env var: " ++ name))
  | Some s =>
      if falsy v then Thrown (ErrorMsg ("Missing env var: " ++ name))
      else if negb (startsWith "0x" s)
           then Thrown (ErrorMsg (name ++ " must start with 0x"))
           else Returned s
  end.

Definition envValue (v : option string) (name : string) : Outcome string :=
  match v with
  | None => Thrown (ErrorMsg ("Missing env var: " ++ name))
  | Some s =>
      if falsy v then Thrown (ErrorMsg ("Missing env var: " ++ name))
      else Returned s
  end.

End Env.

Module Funding.

(** [parseEther("0.005")], in wei. *)
Definition MIN_AA_BALANCE : Z := 5000000000000000.

(** What [ensureAaFunded] does. *)
Inductive Action :=
| NoTopUp                      (* enough funds: returns without a transfer *)
| Exit                         (* owner cannot fund: [process.exit(1)] *)
| TopUp (value : Z).           (* [sendTransaction({ to: smartAccount, value })] *)

(** [ensureAaFunded], on the two balances it reads; the owner's balance
    is read only when a top-up is needed. *)
Definition ensureAaFunded (aaBalance ownerBalance : Z) : Action :=
  if MIN_AA_BALANCE <=? aaBalance then NoTopUp
  else
    let needed := MIN_AA_BALANCE - aaBalance in
    if ownerBalance <=? needed then Exit
    else TopUp needed.

End Funding.

Module Gas.

Section Quote.

(** [BigInt(v)] on the values that are neither strings nor
    null/undefined (numbers, booleans, arrays, objects). *)
Variable BigInt_other : JsValue -> option Z.

(** [BigInt(v)]: a string is parsed, [undefined] and [null] throw a
    [TypeError]. *)
Definition BigInt_value (v : JsValue) : option Z :=
  match v with
  | JString s => Js.BigInt s
  | JUndefined | JNull => None
  | _ => BigInt_other v
  end.

(** [a ?? b]. *)
Definition coalesce (a b : JsValue) : JsValue :=
  match a with
  | JUndefined | JNull => b
  | _ => a
  end.

Record GasPrices := {
  maxFeePerGas : Z;
  maxPriorityFeePerGas : Z
}.

(** The tier [getBundlerGasPrices] reads the fees from. *)
Definition quote (result : JsValue) : JsValue :=
  coalesce (coalesce (coalesce (get result "standard") (get result "fast"))
              (get result "slow"))
    result.

(** [getBundlerGasPrices], on the bundler's reply to
    [pimlico_getUserOperationGasPrice]. *)
Definition getBundlerGasPrices (reply : Reply) : Outcome GasPrices :=
  match reply with
  | Rejected => Thrown LibraryError
  | Body res =>
      match prop res "result" with
      | None => Thrown LibraryError
      | Some result =>
          if negb (truthy result)
          then Thrown (ErrorMsg "Bundler did not return gas price result")
          else
            let gp := quote result in
            fee <~ lift (BigInt_value (get gp "maxFeePerGas"));;
            tip <~ lift (BigInt_value (get gp "maxPriorityFeePerGas"));;
            Returned {| maxFeePerGas := fee; maxPriorityFeePerGas := tip |}
      end
  end.

End Quote.

End Gas.

(* ================================================================== *)
(** * 03-social client: masking, session storage and the page *)
(* ================================================================== *)

Module Page.

(** [maskAfterFive], on the UTF-16 code units of its argument: these
    are what [length] counts, [slice] cuts and [repeat] appends (42 is the
    unit of the asterisk). *)
Definition maskAfterFive (input : list N) : list N :=
  if (length input <=? 5)%nat then input
  else
    let firstFive := firstn 5 input in
    let masked := repeat 42%N (length input - 5) in
    firstFive ++ masked.

(** [localStorage]: the string stored under each key. *)
Definition Storage := string -> option string.

Definition getItem (st : Storage) (k : string) : option string := st k.

Definition setItem (st : Storage) (k v : string) : Storage :=
  fun x => if String.eqb x k then Some v else st x.

Definition removeItem (st : Storage) (k : string) : Storage :=
  fun x => if String.eqb x k then None else st x.

(** The elements [ui.ts] writes to (all present in the page). *)
Record Ui := {
  googleLogin_display : string;
  logoutBtn_display : string;
  userInfo_display : string;
  sendOp_disabled : bool;
  refreshCount_disabled : bool;
  eoa : string;
  smartAccount : string;
  count : string
}.

Definition setCount (v : string) (u : Ui) : Ui :=
  {| googleLogin_display := googleLogin_display u;
     logoutBtn_display := logoutBtn_display u;
     userInfo_display := userInfo_display u;
     sendOp_disabled := sendOp_disabled u;
     refreshCount_disabled := refreshCount_disabled u;
     eoa := eoa u; smartAccount := smartAccount u; count := v |}.

Definition showLoggedOutUI (u : Ui) : Ui :=
  {| googleLogin_display := "inline-block";
     logoutBtn_display := "none";
     userInfo_display := "none";
     sendOp_disabled := true;
     refreshCount_disabled := true;
     eoa := ""; smartAccount := ""; count := count u |}.

Definition showLoggedInUI (owner smartAccount : string) (u : Ui) : Ui :=
  {| googleLogin_display := "none";
     logoutBtn_display := "inline-block";
     userInfo_display := "block";
     sendOp_disabled := false;
     refreshCount_disabled := false;
     eoa := owner; smartAccount := smartAccount; count := count u |}.

(** The page: the module's global variables (with the status line), the
    local storage and the other elements. *)
Record State := {
  globals : Social.Session;
  storage : Storage;
  ui : Ui
}.

Definition set_globals (g : Social.Session) (p : State) : State :=
  {| globals := g; storage := storage p; ui := ui p |}.

(** [logout]. *)
Definition logout (p : State) : State :=
  {| globals :=
       {| Social.ownerPk := None; Social.smartAccountAddress := None;
          Social.uuidString := None; Social.status := "Logged out." |};
     storage :=
       removeItem
         (removeItem (removeItem (storage p) "aa-owner-pk") "aa-smart-account")
         "aa-uuid";
     ui := setCount "-" (showLoggedOutUI (ui p)) |}.

Section Session.

Variable privateKeyToAccount : string -> Viem.Account.

(** [ensureSmartAccount] on the page: a throw leaves the page as it is. *)
Definition ensureSmartAccount (rd : Social.Reads) (p : State)
  : Outcome string * State :=
  match Social.ensureSmartAccount rd (globals p) with
  | Returned (computed, g) => (Returned computed, set_globals g p)
  | Thrown e => (Thrown e, p)
  end.

Definition with_session (pk uuid : string) (g : Social.Session)
  : Social.Session :=
  {| Social.ownerPk := Some pk;
     Social.smartAccountAddress := Social.smartAccountAddress g;
     Social.uuidString := Some uuid;
     Social.status := Social.status g |}.

Definition logged_in (ownerAddress : string) (msg : string) (p : State)
  : State :=
  {| globals := Social.setStatus msg (globals p);
     storage := storage p;
     ui := showLoggedInUI ownerAddress
             (match Social.smartAccountAddress (globals p) with
              | Some a => a
              | None => EmptyString
              end)
             (ui p) |}.

(** [restoreSession]: the value it resolves to (or the error) and the
    page afterwards. *)
Definition restoreSession (rd : Social.Reads) (p : State)
  : Outcome bool * State :=
  let savedPk := getItem (storage p) "aa-owner-pk" in
  let savedUuid := getItem (storage p) "aa-uuid" in
  match savedPk, savedUuid with
  | Some pk, Some uuid =>
      if falsy savedPk || falsy savedUuid then (Returned false, p)
      else
        let p1 := set_globals (with_session pk uuid (globals p)) p in
        let owner := privateKeyToAccount pk in
        let savedSa := getItem (storage p1) "aa-smart-account" in
        let restored :=
          match savedSa with
          | Some sa =>
              if falsy savedSa then ensureSmartAccount rd p1
              else (Returned sa,
                    set_globals
                      (Social.setSmartAccountAddress sa (globals p1)) p1)
          | None => ensureSmartAccount rd p1
          end in
        match restored with
        | (Returned _, p2) =>
            (Returned true,
             logged_in (Viem.address owner) "Session restored." p2)
        | (Thrown e, p2) => (Thrown e, p2)
        end
  | _, _ => (Returned false, p)
  end.

(** [handleGoogleRedirect], given what [extractPkFromGoogleRedirect]
    returned. *)
Definition handleGoogleRedirect (extracted : option string)
    (rd : Social.Reads) (p : State) : Outcome bool * State :=
  match extracted with
  | None => (Returned false, p)
  | Some pk =>
      if falsy extracted then (Returned false, p)
      else
        let g1 :=
          {| Social.ownerPk := Some pk;
             Social.smartAccountAddress := Social.smartAccountAddress (globals p);
             Social.uuidString := Social.uuidString (globals p);
             Social.status := Social.status (globals p) |} in
        let p1 :=
          {| globals := g1;
             storage := setItem (storage p) "aa-owner-pk" pk;
             ui := ui p |} in
        let storedUuid := getItem (storage p1) "aa-uuid" in
        match storedUuid with
        | None =>
            (Thrown (ErrorMsg "Missing aa-uuid from Google redirect"), p1)
        | Some u =>
            if falsy storedUuid
            then (Thrown (ErrorMsg "Missing aa-uuid from Google redirect"), p1)
            else
              let versionedUuid := (u ++ ":V2")%string in
              let p2 :=
                {| globals := with_session pk versionedUuid (globals p1);
                   storage := setItem (storage p1) "aa-uuid" versionedUuid;
                   ui := ui p1 |} in
              let owner := privateKeyToAccount pk in
              match ensureSmartAccount rd p2 with
              | (Thrown e, p3) => (Thrown e, p3)
              | (Returned sa, p3) =>
                  let p4 :=
                    {| globals := globals p3;
                       storage := setItem (storage p3) "aa-smart-account" sa;
                       ui := ui p3 |} in
                  (Returned true,
                   {| globals :=
                        Social.setStatus "Logged in with Google." (globals p4);
                      storage := storage p4;
                      ui := showLoggedInUI (Viem.address owner) sa (ui p4) |})
              end
        end
  end.

End Session.

End Page.


(* ================================================================== *)
(** * Notions used to state the properties *)
(* ================================================================== *)

(** The packed preimage of the principal digest: 20 bytes of sender, 32
    bytes of nonce, 32 bytes of the hashed call payload. *)
Definition principal_preimage (sender : bytes) (nonce : Z) (callData : bytes)
  : bytes :=
  sender ++ be 32 nonce ++ Keccak.keccak256 callData.

(** The packed preimage of the sponsor digest: sender, the raw call
    payload, then the nonce. *)
Definition sponsor_preimage (sender : bytes) (callData : bytes) (nonce : Z)
  : bytes :=
  sender ++ callData ++ be 32 nonce.

(** The hash that is actually signed and recovered from: the EIP-191
    wrapping of a 32-byte digest. *)
Definition eip191_wrap (digest : bytes) : bytes :=
  Keccak.keccak256
    (x19 :: utf8 "Ethereum Signed Message:" ++ [x0a] ++ utf8 "32" ++ digest).

(** The derivation as the design document words it: hash the one-byte tag
    0xff, the deployer address, the salt and the hash of (creation code ||
    constructor arguments); keep the low-order 160 bits. *)
Definition derive_address (deployer : Z) (salt creationCode constructorArgs : bytes)
  : Z :=
  from_be
    (Keccak.keccak256
       ([xff] ++ be 20 deployer ++ salt
          ++ Keccak.keccak256 (creationCode ++ constructorArgs)))
  mod 2 ^ 160.

(** Every character is a printable ASCII character other than the
    space. *)
Fixpoint solid (s : string) : bool :=
  match s with
  | EmptyString => true
  | String c r =>
      ((33 <=? nat_of_ascii c) && (nat_of_ascii c <=? 126))%nat && solid r
  end.

(** The reply carries no receipt: its [result] is missing, null or
    otherwise falsy. *)
Definition absent (rp : Reply) : Prop :=
  exists body result,
    rp = Body body /\ prop body "result" = Some result
    /\ truthy result = false.

(** The reply carries the receipt [receipt]. *)
Definition carries (rp : Reply) (receipt : JsValue) : Prop :=
  exists body,
    rp = Body body /\ prop body "result" = Some receipt
    /\ truthy receipt = true.

(** A relay that never has a receipt: it answers every request with a
    null [result], as a bundler does for an operation it has not mined. *)
Definition silent_relay : Relay :=
  fun _ _ => Body (JObject [("jsonrpc", JString "2.0"); ("id", JNumber 1);
                            ("result", JNull)]).

Definition sample_receipt : JsValue :=
  JObject [("userOpHash", JString "0xabc"); ("success", JBool true)].

(** The design document's scenario: three queries without a receipt, the
    fourth returns one. *)
Definition scenario_relay : Relay :=
  fun k _ =>
    if (k <? 3)%nat
    then Body (JObject [("jsonrpc", JString "2.0"); ("id", JNumber 1);
                        ("result", JNull)])
    else Body (JObject [("jsonrpc", JString "2.0"); ("id", JNumber 1);
                        ("result", sample_receipt)]).

(** The signature string viem derives from the [createAccount] ABI item. *)
Definition createAccount_signature : string :=
  "createAccount(string,bytes32,address,address)".

(** Layout of the [createAccount] call: selector, offset of the string,
    the salt, the two padded addresses, then length and padded bytes of the
    string. *)
Definition createAccount_call (uuid : string) (salt entryPoint owner : bytes)
  : bytes :=
  Viem.selector createAccount_signature
    ++ be 32 128 ++ salt ++ (zeros 12 ++ entryPoint) ++ (zeros 12 ++ owner)
    ++ be 32 (Z.of_nat (length (utf8 uuid))) ++ Viem.pad_right32 (utf8 uuid).

(** The run with the bundler's reply replaced. *)
Definition with_reply (rd : Social.Reads) (reply : JsValue) : Social.Reads :=
  {| Social.factory_getAddress := Social.factory_getAddress rd;
     Social.code_first := Social.code_first rd;
     Social.code_second := Social.code_second rd;
     Social.entryPoint_getNonce := Social.entryPoint_getNonce rd;
     Social.entryPoint_getUserOpHash := Social.entryPoint_getUserOpHash rd;
     Social.bundler := fun _ => Body reply |}.

(** [undefined] or [null]: the values [??] skips. *)
Definition nullish (v : JsValue) : bool :=
  match v with
  | JUndefined | JNull => true
  | _ => false
  end.

(** The reply is no usable body: the fetch was rejected, or the body is
    [null]. *)
Definition failed (rp : Reply) : Prop :=
  rp = Rejected \/ rp = Body JNull.

(* ================================================================== *)
(** * The demo's own operation as a running example *)
(* ================================================================== *)

Module Demo.

(** EntryPoint v0.6 on Scroll, used here as a sample 20-byte address. *)
Definition address_hex : string := "0x5FF137D4b0FDCD49DcA30c7CF57E578a026d2789".

Definition address_bytes : bytes :=
  [x5f; xf1; x37; xd4; xb0; xfd; xcd; x49; xdc; xa3;
   x0c; x7c; xf5; x7e; x57; x8a; x02; x6d; x27; x89].

(** Call data of [DemoLogic.increment()]. *)
Definition increment_hex : string := "0xd09de08a".
Definition increment_bytes : bytes := [xd0; x9d; xe0; x8a].

Definition onchain_op : Sol.UserOperation :=
  {| Sol.sender := from_be address_bytes;
     Sol.nonce := 5;
     Sol.initCode := [];
     Sol.callData := increment_bytes;
     Sol.callGasLimit := 250000;
     Sol.verificationGasLimit := 250000;
     Sol.preVerificationGas := 50000;
     Sol.maxFeePerGas := 10000000000;
     Sol.maxPriorityFeePerGas := 10000000000;
     Sol.paymasterAndData := [];
     Sol.signature := [] |}.

Definition wire_op : Utils.UserOperation :=
  Utils.buildUserOperation
    {| Utils.p_sender := address_hex; Utils.p_nonce := 5;
       Utils.p_callData := increment_hex;
       Utils.p_maxFeePerGas := 10000000000;
       Utils.p_maxPriorityFeePerGas := 10000000000 |}.

(** A stand-in signer for running the clients: its signature is the hash
    twice and a recovery byte, 65 bytes as ECDSA signatures are. *)
Definition test_sign (h : bytes) : bytes :=
  let word := map (fun i => nth i h x00) (seq 0 32) in
  word ++ word ++ [x1b].

Definition test_account : Viem.Account :=
  {| Viem.address := address_hex; Viem.sign := test_sign |}.

Definition test_ecrecover (h : bytes) (v : Z) (r s : bytes) : Z :=
  if (v =? 27) && (from_be r =? from_be h) then from_be address_bytes else 0.

End Demo.

(** ** A concrete run of the 03-social client *)

Module SocialDemo.

Definition config : Social.Config :=
  {| Social.entryPointAddress := Demo.address_hex;
     Social.logicAddress := "0x00000000000000000000000000000000000000c1";
     Social.factoryAddress := "0x00000000000000000000000000000000000000fa";
     Social.paymasterAddress := "0x00000000000000000000000000000000000000aa";
     Social.backendSalt := Social.backendSalt_of "backend-salt";
     Social.VITE_PAYMASTER_SIGNER_PK := Some "0x02";
     Social.VITE_BUNDLER_URL := "https://bundler" |}.

Definition privateKeyToAccount (pk : string) : Viem.Account := Demo.test_account.

Definition session : Social.Session :=
  {| Social.ownerPk := Some "0x01";
     Social.smartAccountAddress := None;
     Social.uuidString := Some "user-42:V2";
     Social.status := "Idle." |}.

(** The chain as one run sees it, given the code found at the account
    address and the bundler's reply. *)
Definition reads (code : option string) (reply : JsValue) : Social.Reads :=
  {| Social.factory_getAddress := "0x00000000000000000000000000000000000000ac";
     Social.code_first := code;
     Social.code_second := code;
     Social.entryPoint_getNonce := 5;
     Social.entryPoint_getUserOpHash :=
       fun op => Hex.show (Keccak.keccak256 (utf8 (Social.callData op)));
     Social.bundler := fun _ => Body reply |}.

Definition accepted_reply : JsValue :=
  JObject [("jsonrpc", JString "2.0"); ("id", JNumber 1);
           ("result", JString "0x5a1f")].

(** A relay-side validation failure, as bundlers report it. *)
Definition error_reply : JsValue :=
  JObject [("jsonrpc", JString "2.0"); ("id", JNumber 1);
           ("error", JObject [("code", JNumber (-32602));
                              ("message", JString "AA25 invalid account nonce")])].

Definition no_run : Social.Sent :=
  {| Social.posted := None; Social.after := session |}.

Definition run_of (o : Outcome Social.Sent) : Social.Sent :=
  match o with Returned r => r | Thrown _ => no_run end.

Definition op_of (r : Social.Sent) : Social.SimpleUserOperation :=
  match Social.posted r with
  | Some op => op
  | None => Social.draftUserOp "" 0 "" ""
  end.

(** First use: no code at the account address yet. *)
Definition first_use : Social.Sent :=
  Eval vm_compute in
    run_of (Social.sendUserOp privateKeyToAccount config
              (reads (Some "0x") accepted_reply) session).

(** Later use: the account is deployed. *)
Definition later_use : Social.Sent :=
  Eval vm_compute in
    run_of (Social.sendUserOp privateKeyToAccount config
              (reads (Some "0x6080604052") accepted_reply) session).

(** The bundler rejects the operation. *)
Definition rejected_use : Social.Sent :=
  Eval vm_compute in
    run_of (Social.sendUserOp privateKeyToAccount config
              (reads (Some "0x6080604052") error_reply) session).

End SocialDemo.

Definition sponsor_payload_example : string :=
  Eval vm_compute in
    match Utils.buildPaymasterAndData SocialDemo.privateKeyToAccount
            "0x00000000000000000000000000000000000000aa" "0x02"
            {| Utils.s_sender := Demo.address_hex;
               Utils.s_callData := Demo.increment_hex;
               Utils.s_nonce := 5 |} with
    | Some pnd => pnd
    | None => EmptyString
    end.

(** ** A concrete chain for the 03-social contracts *)

Module ChainDemo.


(** The demo operation carrying the stand-in owner's signature. *)
Definition signed_op : Sol.UserOperation :=
  {| Sol.sender := from_be Demo.address_bytes;
     Sol.nonce := 5;
     Sol.initCode := [];
     Sol.callData := Demo.increment_bytes;
     Sol.callGasLimit := 250000;
     Sol.verificationGasLimit := 250000;
     Sol.preVerificationGas := 50000;
     Sol.maxFeePerGas := 10000000000;
     Sol.maxPriorityFeePerGas := 10000000000;
     Sol.paymasterAndData := [];
     Sol.signature :=
       Demo.test_sign (eip191_wrap (Sol.validateUserOp_hash Demo.onchain_op)) |}.

(** The demo operation carrying the sponsor payload the 02-paymaster
    client built for it. *)
Definition sponsored_op : Sol.UserOperation :=
  {| Sol.sender := from_be Demo.address_bytes;
     Sol.nonce := 5;
     Sol.initCode := [];
     Sol.callData := Demo.increment_bytes;
     Sol.callGasLimit := 250000;
     Sol.verificationGasLimit := 250000;
     Sol.preVerificationGas := 50000;
     Sol.maxFeePerGas := 10000000000;
     Sol.maxPriorityFeePerGas := 10000000000;
     Sol.paymasterAndData :=
       match Hex.parse sponsor_payload_example with
       | Some b => b
       | None => []
       end;
     Sol.signature := [] |}.

Definition paymaster : Sol.DemoPaymaster :=
  {| Sol.pm_entryPoint := 1; Sol.pm_owner := 2;
     Sol.pm_signer := from_be Demo.address_bytes |}.

(** A stand-in signature checker: the owner numbered 7 signs with the
    stand-in signer. *)
Definition isValidSignatureNow (signer : Z) (hash signature : bytes) : bool :=
  (signer =? 7) && (from_be signature =? from_be (Demo.test_sign hash)).

Definition userOpHash : bytes := Keccak.keccak256 Demo.increment_bytes.

Definition account : Factory.DemoAccount :=
  {| Factory.owner := 7; Factory.factoryAdmin := 173;
     Factory.entryPoint := 1; Factory.nonce := 5;
     Factory.initialized := true |}.

Definition account_op : Sol.UserOperation :=
  {| Sol.sender := 172;
     Sol.nonce := 5;
     Sol.initCode := [];
     Sol.callData := Demo.increment_bytes;
     Sol.callGasLimit := 3473408;
     Sol.verificationGasLimit := 1376256;
     Sol.preVerificationGas := 262144;
     Sol.maxFeePerGas := 10000000000;
     Sol.maxPriorityFeePerGas := 10000000000;
     Sol.paymasterAndData := [];
     Sol.signature := Demo.test_sign (eip191_wrap userOpHash) |}.

Definition creationCode : bytes := [x60; x80; x60; x40; x52].

(** A stand-in for the CREATE2 instruction: the account appears at the
    address the EVM derives from the creator, the salt and the init code,
    with some runtime code and its constructor run on the EntryPoint that
    ends the init code. *)
Definition create2 (c : Factory.Chain) (this : Z) (code salt : bytes)
  : Z * Factory.Chain :=
  let created :=
    from_be (Keccak.keccak256
               ([xff] ++ be 20 this ++ salt ++ Keccak.keccak256 code))
    mod 2 ^ 160 in
  let entryPoint := from_be (skipn (length code - 32) code) in
  (created,
   {| Factory.code_at :=
        fun a => if a =? created then [x60; x80] else Factory.code_at c a;
      Factory.account_at :=
        fun a => if a =? created then Factory.constructed entryPoint
                 else Factory.account_at c a;
      Factory.admin := Factory.admin c |}).

Definition factory : Z := 250.
Definition entryPoint : Z := from_be Demo.address_bytes.
Definition salt : bytes := Keccak.keccak256 (utf8 "backend-salt").

(** A chain with the factory's admin numbered 173 and nothing deployed. *)
Definition empty : Factory.Chain :=
  {| Factory.code_at := fun _ => [];
     Factory.account_at := fun _ => Factory.constructed 0;
     Factory.admin := 173 |}.

(** The first [createAccount] for the demo user, naming owner 7. *)
Definition deployment : Sol.result (Z * Factory.Chain * list Factory.Event) :=
  Factory.createAccount creationCode create2 empty factory "user-42:V2" salt
    entryPoint 7.

Definition account_of (r : Sol.result (Z * Factory.Chain * list Factory.Event))
  : Z :=
  match r with Sol.Ok (a, _, _) => a | Sol.Revert _ => 0 end.

Definition chain_of (r : Sol.result (Z * Factory.Chain * list Factory.Event))
  : Factory.Chain :=
  match r with Sol.Ok (_, c, _) => c | Sol.Revert _ => empty end.

Definition events_of (r : Sol.result (Z * Factory.Chain * list Factory.Event))
  : list Factory.Event :=
  match r with Sol.Ok (_, _, e) => e | Sol.Revert _ => [] end.

Definition deployed_account : Z := account_of deployment.
Definition deployed_chain : Factory.Chain := chain_of deployment.
Definition deployed_events : list Factory.Event := events_of deployment.

End ChainDemo.

(** ** Concrete bundler replies and a concrete page *)

Module ClientDemo.

(** The no-break space U+00A0 and the ideographic space U+3000, in
    UTF-8. *)
Definition nbsp : string :=
  String (ascii_of_nat 194) (String (ascii_of_nat 160) EmptyString).

Definition ideographic_space : string :=
  String (ascii_of_nat 227)
    (String (ascii_of_nat 128) (String (ascii_of_nat 128) EmptyString)).

(** A gas quote with a [fast] tier and flat fields; one fee is padded
    with spaces, the other is a decimal. *)
Definition gas_result : JsValue :=
  JObject [("fast", JObject [("maxFeePerGas", JString " 0x10 ");
                             ("maxPriorityFeePerGas", JString "2")]);
           ("maxFeePerGas", JString "0x99");
           ("maxPriorityFeePerGas", JString "0x9")].

Definition gas_reply : JsValue :=
  JObject [("jsonrpc", JString "2.0"); ("id", JNumber 1);
           ("result", gas_result)].

Definition BigInt_other (v : JsValue) : option Z :=
  match v with
  | JNumber n => Some n
  | _ => None
  end.

(** A relay whose third fetch fails. *)
Definition failing_relay : Relay :=
  fun k _ =>
    if (k <? 2)%nat
    then Body (JObject [("jsonrpc", JString "2.0"); ("id", JNumber 1);
                        ("result", JNull)])
    else Rejected.

(** A relay that refuses the submission with an error object and would
    hand out a receipt to any later request. *)
Definition refusing_relay : Relay :=
  fun k _ =>
    match k with
    | O => Body SocialDemo.error_reply
    | S _ => Body (JObject [("jsonrpc", JString "2.0"); ("id", JNumber 1);
                            ("result", sample_receipt)])
    end.

Definition rd : Social.Reads :=
  SocialDemo.reads (Some "0x") SocialDemo.accepted_reply.

Definition logged_out_ui : Page.Ui :=
  {| Page.googleLogin_display := "inline-block";
     Page.logoutBtn_display := "none";
     Page.userInfo_display := "none";
     Page.sendOp_disabled := true;
     Page.refreshCount_disabled := true;
     Page.eoa := EmptyString;
     Page.smartAccount := EmptyString;
     Page.count := "-" |}.

Definition idle : Social.Session :=
  {| Social.ownerPk := None; Social.smartAccountAddress := None;
     Social.uuidString := None; Social.status := "Idle." |}.

(** The page as loaded after the redirect, the uuid stored before it. *)
Definition fresh : Page.State :=
  {| Page.globals := idle;
     Page.storage :=
       fun k => if String.eqb k "aa-uuid" then Some "user-42" else None;
     Page.ui := logged_out_ui |}.

(** The page as loaded with nothing stored. *)
Definition blank : Page.State :=
  {| Page.globals := idle;
     Page.storage := fun _ => None;
     Page.ui := logged_out_ui |}.

Definition after_login : Page.State :=
  snd (Page.handleGoogleRedirect SocialDemo.privateKeyToAccount (Some "0x01")
         rd fresh).

(** The page reloaded after the login. *)
Definition reloaded : Page.State :=
  {| Page.globals := idle;
     Page.storage := Page.storage after_login;
     Page.ui := logged_out_ui |}.

End ClientDemo.


(* ================================================================== *)
(** * Facts about bytes, hex strings and numerals *)
(* ================================================================== *)

Section BytesFacts.

Lemma Z_of_byte_range (b : byte) : 0 <= Z_of_byte b < 256.
Proof.
  unfold Z_of_byte. pose proof (Byte.to_N_bounded b). lia.
Qed.

Lemma byte_of_Z_of_byte (b : byte) : byte_of_Z (Z_of_byte b) = b.
Proof.
  unfold byte_of_Z. pose proof (Z_of_byte_range b) as H.
  rewrite Z.mod_small by exact H.
  unfold Z_of_byte. rewrite N2Z.id, Byte.of_to_N. reflexivity.
Qed.

Lemma Z_of_byte_of_Z (z : Z) : Z_of_byte (byte_of_Z z) = z mod 256.
Proof.
  unfold byte_of_Z.
  assert (H : 0 <= z mod 256 < 256) by (apply Z.mod_pos_bound; lia).
  destruct (Byte.of_N (Z.to_N (z mod 256))) as [b |] eqn:E.
  - apply Byte.to_of_N in E. unfold Z_of_byte. rewrite E. lia.
  - apply Byte.of_N_None_iff in E. lia.
Qed.

Lemma byte_of_Z_mod (z : Z) : byte_of_Z (z mod 256) = byte_of_Z z.
Proof. unfold byte_of_Z. rewrite Z.mod_mod by lia. reflexivity. Qed.

Lemma length_be (n : nat) (z : Z) : length (be n z) = n.
Proof.
  revert z. induction n as [| n IH]; intros z; simpl.
  - reflexivity.
  - rewrite length_app, IH. simpl. lia.
Qed.

Lemma from_be_snoc (bs : bytes) (b : byte) :
  from_be (bs ++ [b]) = from_be bs * 256 + Z_of_byte b.
Proof. unfold from_be. rewrite fold_left_app. reflexivity. Qed.

Lemma from_be_nonneg (bs : bytes) : 0 <= from_be bs.
Proof.
  induction bs as [| b bs IH] using rev_ind.
  - reflexivity.
  - rewrite from_be_snoc. pose proof (Z_of_byte_range b). lia.
Qed.

(** A byte string is the fixed-width encoding of its own value. *)
Lemma be_from_be (bs : bytes) : be (length bs) (from_be bs) = bs.
Proof.
  induction bs as [| b bs IH] using rev_ind.
  - reflexivity.
  - rewrite length_app, Nat.add_comm. simpl.
    rewrite from_be_snoc.
    pose proof (Z_of_byte_range b) as Hb.
    rewrite Z.div_add_l by lia.
    rewrite Z.div_small by exact Hb.
    rewrite Z.add_0_r, IH.
    f_equal. f_equal.
    rewrite <- byte_of_Z_mod.
    rewrite Z.add_comm, Z.mod_add by lia.
    rewrite Z.mod_small by exact Hb.
    apply byte_of_Z_of_byte.
Qed.

(** The fixed-width encoding keeps the [n] low-order bytes. *)
Lemma from_be_be (n : nat) (z : Z) :
  from_be (be n z) = z mod 256 ^ Z.of_nat n.
Proof.
  revert z. induction n as [| n IH]; intros z.
  - simpl. rewrite Z.mod_1_r. reflexivity.
  - cbn [be]. rewrite from_be_snoc, IH, Z_of_byte_of_Z.
    rewrite Nat2Z.inj_succ, Z.pow_succ_r by lia.
    rewrite Z.rem_mul_r by lia.
    lia.
Qed.

Lemma from_be_bound (bs : bytes) : from_be bs < 256 ^ Z.of_nat (length bs).
Proof.
  rewrite <- (be_from_be bs) at 1. rewrite from_be_be.
  apply Z.mod_pos_bound. apply Z.pow_pos_nonneg; lia.
Qed.

Lemma length_zeros (n : nat) : length (zeros n) = n.
Proof. apply repeat_length. Qed.

Lemma length_bytes_of_lane (w : N) : length (Keccak.bytes_of_lane w) = 8%nat.
Proof. unfold Keccak.bytes_of_lane. rewrite length_map, length_seq. reflexivity. Qed.

(** Keccak-256 always yields 32 bytes. *)
Lemma length_keccak256 (msg : bytes) : length (Keccak.keccak256 msg) = 32%nat.
Proof.
  unfold Keccak.keccak256. cbv zeta.
  rewrite !length_app, !length_bytes_of_lane. reflexivity.
Qed.

(** The hash on inputs whose digests are well known: the empty string,
    and the selectors of [increment()], [execute(address,uint256,bytes)] and
    the ERC-20 [transfer(address,uint256)]. *)
Example keccak256_empty :
  Hex.show (keccak256 [])
  = "0xc5d2460186f7233c927e7db2dcc703c0e500b653ca82273b7bfad8045d85a470".
Proof. vm_compute. reflexivity. Qed.

Example selector_known :
  Hex.show (Viem.selector "increment()") = "0xd09de08a"
  /\ Hex.show (Viem.selector "execute(address,uint256,bytes)") = "0xb61d27f6"
  /\ Hex.show (Viem.selector "transfer(address,uint256)") = "0xa9059cbb".
Proof. repeat (split; [vm_compute; reflexivity |]). vm_compute. reflexivity. Qed.

End BytesFacts.

Section HexFacts.

Lemma Some_inj {A} (a b : A) : Some a = Some b -> a = b.
Proof. intros H. injection H. trivial. Qed.

Lemma append_assoc (a b c : string) : ((a ++ b) ++ c = a ++ (b ++ c))%string.
Proof. induction a as [| x a IH]; simpl; [reflexivity | now rewrite IH]. Qed.

Lemma parse_pairs_show_byte (b : byte) (s : string) :
  Hex.parse_pairs (Hex.show_byte b ++ s)
  = match Hex.parse_pairs s with Some bs => Some (b :: bs) | None => None end.
Proof. destruct b; reflexivity. Qed.

Lemma parse_pairs_show_digits (bs : bytes) :
  Hex.parse_pairs (Hex.show_digits bs) = Some bs.
Proof.
  induction bs as [| b bs IH]; cbn [Hex.show_digits].
  - reflexivity.
  - rewrite parse_pairs_show_byte, IH. reflexivity.
Qed.

(** Decoding a rendered byte string gives the bytes back. *)
Lemma parse_show (bs : bytes) : Hex.parse (Hex.show bs) = Some bs.
Proof. unfold Hex.show. simpl. apply parse_pairs_show_digits. Qed.

Lemma parse_pairs_app :
  forall (a b : string) (x : bytes),
    Hex.parse_pairs a = Some x ->
    Hex.parse_pairs (a ++ b)
    = match Hex.parse_pairs b with Some y => Some (x ++ y) | None => None end.
Proof.
  fix IH 1.
  intros [| h [| l rest]] b x H.
  - simpl in *. inversion H. destruct (Hex.parse_pairs b); reflexivity.
  - discriminate.
  - simpl in *.
    destruct (Js.digit_value h); [| discriminate].
    destruct (Js.digit_value l); [| discriminate].
    destruct (Hex.parse_pairs rest) as [r |] eqn:E; [| discriminate].
    inversion H. rewrite (IH rest b r E).
    destruct (Hex.parse_pairs b); reflexivity.
Qed.

Lemma parse_inv (s : string) (x : bytes) :
  Hex.parse s = Some x ->
  exists d, s = String "0" (String "x" d) /\ Hex.parse_pairs d = Some x.
Proof.
  intros H.
  destruct s as [| c0 s]; [discriminate |].
  destruct s as [| c1 d].
  - destruct c0 as [[] [] [] [] [] [] [] []]; discriminate.
  - destruct c0 as [[] [] [] [] [] [] [] []]; try discriminate;
      destruct c1 as [[] [] [] [] [] [] [] []]; try discriminate.
    exists d. split; [reflexivity | exact H].
Qed.

(** The idiom [a + b.slice(2)] on two hex strings denotes the
    concatenation of their bytes. *)
Lemma parse_concat_slice (a b : string) (x y : bytes) :
  Hex.parse a = Some x -> Hex.parse b = Some y ->
  Hex.parse (a ++ Js.slice 2 b) = Some (x ++ y).
Proof.
  intros Ha Hb.
  apply parse_inv in Ha as (da & -> & Ha).
  apply parse_inv in Hb as (db & -> & Hb).
  simpl. rewrite (parse_pairs_app _ _ _ Ha), Hb. reflexivity.
Qed.

Lemma show_digits_app (a b : bytes) :
  Hex.show_digits (a ++ b) = (Hex.show_digits a ++ Hex.show_digits b)%string.
Proof.
  induction a as [| x a IH]; cbn [Hex.show_digits app].
  - reflexivity.
  - rewrite IH, append_assoc. reflexivity.
Qed.

Lemma show_concat_slice (a b : bytes) :
  (Hex.show a ++ Js.slice 2 (Hex.show b))%string = Hex.show (a ++ b).
Proof.
  unfold Hex.show. simpl. rewrite show_digits_app. reflexivity.
Qed.

End HexFacts.

Section NumeralFacts.

Lemma digit_value_char (d : N) :
  (d < 16)%N -> Js.digit_value (Js.digit_char d) = Some d.
Proof.
  intros H.
  assert (E : (d = 0 \/ d = 1 \/ d = 2 \/ d = 3 \/ d = 4 \/ d = 5 \/ d = 6
               \/ d = 7 \/ d = 8 \/ d = 9 \/ d = 10 \/ d = 11 \/ d = 12
               \/ d = 13 \/ d = 14 \/ d = 15)%N) by lia.
  repeat (destruct E as [-> | E]; [reflexivity |]).
  subst d. reflexivity.
Qed.

Lemma parse_digits_app (r : N) (s1 s2 : string) (acc : N) :
  Js.parse_digits r (s1 ++ s2) acc
  = match Js.parse_digits r s1 acc with
    | Some v => Js.parse_digits r s2 v
    | None => None
    end.
Proof.
  revert acc. induction s1 as [| c s1 IH]; intros acc; simpl.
  - reflexivity.
  - destruct (Js.digit_value c) as [d |]; [| reflexivity].
    destruct (d <? r)%N; [apply IH | reflexivity].
Qed.

Lemma radix_ok_bounds (r : N) : Js.radix_ok r = true -> (2 <= r <= 16)%N.
Proof.
  unfold Js.radix_ok. intros H. apply andb_prop in H as [H1 H2].
  apply N.leb_le in H1. apply N.leb_le in H2. lia.
Qed.

(** Reading back the digits of [n] gives [n]. *)
Lemma parse_digits_digits (r n : N) :
  Js.radix_ok r = true -> Js.parse_digits r (Js.digits r n) 0 = Some n.
Proof.
  funelim (Js.digits r n); intros Hok; try congruence;
    pose proof (radix_ok_bounds r Hok) as Hb.
  - (* one digit *)
    match goal with
    | e : (n <? r)%N = true |- _ => pose proof e as Hlt; apply N.ltb_lt in Hlt
    end.
    simpl. rewrite digit_value_char by lia.
    apply N.ltb_lt in Hlt. rewrite Hlt. f_equal. lia.
  - (* quotient, then last digit *)
    match goal with
    | e : (n <? r)%N = false |- _ => pose proof e as Hge; apply N.ltb_ge in Hge
    end.
    match goal with
    | IH : _ -> Js.parse_digits _ (Js.digits _ _) 0 = _ |- _ =>
        rewrite parse_digits_app, IH by assumption
    end.
    simpl.
    assert (Hm : (n mod r < r)%N) by (apply N.mod_lt; lia).
    rewrite digit_value_char by lia.
    apply N.ltb_lt in Hm. rewrite Hm. f_equal.
    rewrite (N.div_mod n r) at 3 by lia. reflexivity.
Qed.

Lemma digits_nonempty (r n : N) :
  Js.radix_ok r = true -> Js.digits r n <> EmptyString.
Proof.
  funelim (Js.digits r n); intros Hok; try congruence.
  intros E. destruct (Js.digits r (n / r)); discriminate E.
Qed.

Lemma length_append (a b : string) :
  String.length (a ++ b) = (String.length a + String.length b)%nat.
Proof. induction a as [| c a IH]; simpl; [reflexivity | now rewrite IH]. Qed.

(** A numeral of [k] digits is below [r ^ k]. *)
Lemma parse_digits_bound (r : N) (s : string) :
  forall acc v, (2 <= r)%N -> Js.parse_digits r s acc = Some v ->
    (v < (acc + 1) * r ^ N.of_nat (String.length s))%N.
Proof.
  induction s as [| c s IH]; intros acc v Hr H.
  - simpl in *. inversion H. lia.
  - cbn [Js.parse_digits] in H.
    destruct (Js.digit_value c) as [d |]; [| discriminate].
    destruct (d <? r)%N eqn:Hd; [| discriminate].
    apply N.ltb_lt in Hd. apply IH in H; [| exact Hr].
    cbn [String.length]. rewrite Nat2N.inj_succ, N.pow_succ_r'.
    remember (r ^ N.of_nat (String.length s))%N as P. nia.
Qed.

(** The digits of a non-zero [n] start at its leading power of the radix. *)
Lemma digits_lower (r n : N) :
  Js.radix_ok r = true -> n <> 0%N ->
  (r ^ (N.of_nat (String.length (Js.digits r n)) - 1) <= n)%N.
Proof.
  funelim (Js.digits r n); intros Hok Hn0; try congruence;
    pose proof (radix_ok_bounds r Hok) as Hb.
  - simpl. lia.
  - match goal with
    | e : (n <? r)%N = false |- _ => pose proof e as Hge; apply N.ltb_ge in Hge
    end.
    assert (Hq : (n / r <> 0)%N).
    { intros E. apply N.div_small_iff in E; lia. }
    match goal with
    | IH : _ -> _ -> (_ <= n / r)%N |- _ => specialize (IH Hok Hq)
    end.
    pose proof (digits_nonempty r (n / r) Hok) as Hne.
    rewrite length_append. cbn [String.length].
    destruct (Js.digits r (n / r)) as [| c d]; [congruence |].
    cbn [String.length] in *.
    replace (N.of_nat (S (String.length d) + 1) - 1)%N
      with (N.succ (N.of_nat (S (String.length d)) - 1))%N by lia.
    rewrite N.pow_succ_r'.
    pose proof (N.Div0.mul_div_le n r). nia.
Qed.

End NumeralFacts.

(* ================================================================== *)
(** * Hex serialization of integers *)
(* ================================================================== *)

Section Serialization.

Lemma toHex_nonneg (n : Z) :
  0 <= n -> Utils.toHex n = ("0x" ++ Js.digits 16 (Z.to_N n))%string.
Proof.
  intros H. unfold Utils.toHex, Js.BigInt_toString.
  destruct (n <? 0) eqn:E; [apply Z.ltb_lt in E; lia | reflexivity].
Qed.

Lemma solid_app (a b : string) :
  solid (a ++ b) = solid a && solid b.
Proof.
  induction a as [| c a IH]; cbn [append solid]; [reflexivity |].
  rewrite IH, andb_assoc. reflexivity.
Qed.

Lemma solid_digit_char (d : N) :
  (d < 16)%N -> solid (String (Js.digit_char d) EmptyString) = true.
Proof.
  intros H.
  assert (E : (d = 0 \/ d = 1 \/ d = 2 \/ d = 3 \/ d = 4 \/ d = 5 \/ d = 6
               \/ d = 7 \/ d = 8 \/ d = 9 \/ d = 10 \/ d = 11 \/ d = 12
               \/ d = 13 \/ d = 14 \/ d = 15)%N) by lia.
  repeat (destruct E as [-> | E]; [reflexivity |]).
  subst d. reflexivity.
Qed.

Lemma solid_digits (r n : N) :
  Js.radix_ok r = true -> solid (Js.digits r n) = true.
Proof.
  funelim (Js.digits r n); intros Hok; try congruence;
    pose proof (radix_ok_bounds r Hok) as Hb.
  - match goal with
    | e : (n <? r)%N = true |- _ => pose proof e as Hlt; apply N.ltb_lt in Hlt
    end.
    apply solid_digit_char. lia.
  - match goal with
    | IH : _ -> solid (Js.digits _ _) = true |- _ =>
        rewrite solid_app, IH by assumption
    end.
    apply solid_digit_char.
    assert ((n mod r < r)%N) by (apply N.mod_lt; lia). lia.
Qed.

(** A string that starts with a printable character other than the
    space has no white space to drop at its start. *)
Lemma trimStart_solid (c : ascii) (r : string) :
  ((33 <=? nat_of_ascii c) && (nat_of_ascii c <=? 126))%nat = true ->
  Js.trimStart (String c r) = String c r.
Proof.
  intros H. apply andb_prop in H as [H1 H2].
  apply Nat.leb_le in H1. apply Nat.leb_le in H2.
  assert (W1 : Js.ws1 c = false).
  { unfold Js.ws1. cbv zeta.
    destruct (Nat.eqb_spec (nat_of_ascii c) 32); [lia |].
    destruct (Nat.leb_spec (nat_of_ascii c) 13); [lia |].
    rewrite andb_false_r. reflexivity. }
  assert (N194 : (nat_of_ascii c =? 194)%nat = false)
    by (apply Nat.eqb_neq; lia).
  assert (N225 : (nat_of_ascii c =? 225)%nat = false)
    by (apply Nat.eqb_neq; lia).
  assert (N226 : (nat_of_ascii c =? 226)%nat = false)
    by (apply Nat.eqb_neq; lia).
  assert (N227 : (nat_of_ascii c =? 227)%nat = false)
    by (apply Nat.eqb_neq; lia).
  assert (N239 : (nat_of_ascii c =? 239)%nat = false)
    by (apply Nat.eqb_neq; lia).
  cbn [Js.trimStart]. rewrite W1.
  destruct r as [| c2 r2]; [reflexivity |].
  unfold Js.ws2. rewrite N194. cbn [andb].
  destruct r2 as [| c3 r3]; [reflexivity |].
  unfold Js.ws3. cbv zeta. rewrite N225, N226, N227, N239. reflexivity.
Qed.

Lemma trim_solid (s : string) : solid s = true -> Js.trim s = s.
Proof.
  intros H. unfold Js.trim.
  assert (Hs : Js.trimStart s = s).
  { destruct s as [| c r]; [reflexivity |].
    cbn [solid] in H. apply andb_prop in H as [H _].
    apply trimStart_solid. exact H. }
  rewrite Hs. clear Hs.
  induction s as [| c r IH]; [reflexivity |].
  cbn [solid] in H. apply andb_prop in H as [Hc Hr].
  cbn [Js.trimEnd]. rewrite (trimStart_solid c r Hc), IH by exact Hr.
  reflexivity.
Qed.

Lemma parse_literal_digits (n : N) :
  Js.parse_literal 16 (Js.digits 16 n) = Some (Z.of_N n).
Proof.
  unfold Js.parse_literal.
  pose proof (digits_nonempty 16 n eq_refl) as Hne.
  destruct (Js.digits 16 n) as [| c d] eqn:E; [congruence |].
  rewrite <- E, parse_digits_digits by reflexivity. reflexivity.
Qed.

Lemma BigInt_toHex (n : Z) : 0 <= n -> Js.BigInt (Utils.toHex n) = Some n.
Proof.
  intros H. rewrite toHex_nonneg by exact H.
  unfold Js.BigInt. rewrite trim_solid.
  - cbn [append Js.BigInt_literal].
    rewrite parse_literal_digits, Z2N.id by exact H. reflexivity.
  - rewrite solid_app, solid_digits by reflexivity. reflexivity.
Qed.

(** No hex numeral of the same value is shorter than the one [toHex]
    prints. *)
Lemma digits_minimal (n : N) (s : string) :
  Js.parse_literal 16 s = Some (Z.of_N n) ->
  (String.length (Js.digits 16 n) <= String.length s)%nat.
Proof.
  intros H. unfold Js.parse_literal in H.
  destruct s as [| c s]; [discriminate |].
  destruct (Js.parse_digits 16 (String c s) 0) as [v |] eqn:E; [| discriminate].
  inversion H as [Hv]. apply N2Z.inj in Hv. subst v.
  destruct (N.eq_dec n 0) as [-> | Hn].
  - assert (E0 : Js.digits 16 0 = "0") by reflexivity.
    rewrite E0. cbn [String.length]. lia.
  - pose proof (digits_lower 16 n eq_refl Hn) as Hlo.
    apply parse_digits_bound in E; [| lia].
    rewrite N.add_0_l, N.mul_1_l in E.
    assert (Hlt : (16 ^ (N.of_nat (String.length (Js.digits 16 n)) - 1)
                   < 16 ^ N.of_nat (String.length (String c s)))%N) by lia.
    apply N.pow_lt_mono_r_iff in Hlt; lia.
Qed.

(** C10. Integer-to-hex serialization round-trips: for every non-negative
    [n], [BigInt(toHex(n))] is [n]; [toHex(n)] is [0x] followed by a
    non-empty digit string, most significant digit first, than which no
    hex numeral of the same value is shorter; and [toEntryPointUserOp]
    applied to an operation whose numeric fields were serialized with
    [toHex] returns exactly the nonce, the three gas limits and the two
    fee values it was built from, the other fields unchanged. *)
Theorem toHex_BigInt_roundtrip
    (n : Z) (sender initCode callData paymasterAndData signature : string)
    (callGasLimit verificationGasLimit preVerificationGas
     maxFeePerGas maxPriorityFeePerGas : Z) :
  0 <= n ->
  0 <= callGasLimit -> 0 <= verificationGasLimit -> 0 <= preVerificationGas ->
  0 <= maxFeePerGas -> 0 <= maxPriorityFeePerGas ->
  Js.BigInt (Utils.toHex n) = Some n
  /\ (exists d,
        Utils.toHex n = ("0x" ++ d)%string
        /\ d <> EmptyString
        /\ forall s, Js.parse_literal 16 s = Some n ->
                     (String.length d <= String.length s)%nat)
  /\ Social.toEntryPointUserOp
       {| Utils.sender := sender;
          Utils.nonce := Utils.toHex n;
          Utils.initCode := initCode;
          Utils.callData := callData;
          Utils.callGasLimit := Utils.toHex callGasLimit;
          Utils.verificationGasLimit := Utils.toHex verificationGasLimit;
          Utils.preVerificationGas := Utils.toHex preVerificationGas;
          Utils.maxFeePerGas := Utils.toHex maxFeePerGas;
          Utils.maxPriorityFeePerGas := Utils.toHex maxPriorityFeePerGas;
          Utils.paymasterAndData := paymasterAndData;
          Utils.signature := signature |}
     = Some {| Social.sender := sender;
               Social.nonce := n;
               Social.initCode := initCode;
               Social.callData := callData;
               Social.callGasLimit := callGasLimit;
               Social.verificationGasLimit := verificationGasLimit;
               Social.preVerificationGas := preVerificationGas;
               Social.maxFeePerGas := maxFeePerGas;
               Social.maxPriorityFeePerGas := maxPriorityFeePerGas;
               Social.paymasterAndData := paymasterAndData;
               Social.signature := signature |}.
Proof.
  intros Hn H1 H2 H3 H4 H5. split; [| split].
  - apply BigInt_toHex. exact Hn.
  - exists (Js.digits 16 (Z.to_N n)). split; [| split].
    + apply toHex_nonneg. exact Hn.
    + apply digits_nonempty. reflexivity.
    + intros s Hs. apply digits_minimal. rewrite Z2N.id by exact Hn. exact Hs.
  - unfold Social.toEntryPointUserOp. cbn [Utils.nonce Utils.callGasLimit
      Utils.verificationGasLimit Utils.preVerificationGas Utils.maxFeePerGas
      Utils.maxPriorityFeePerGas Utils.sender Utils.initCode Utils.callData
      Utils.paymasterAndData Utils.signature].
    rewrite !BigInt_toHex by assumption. reflexivity.
Qed.

(** The round trip at 255, printed as [0xff]. *)
Lemma toHex_BigInt_roundtrip_witness :
  Js.BigInt (Utils.toHex 255) = Some 255.
Proof.
  exact (proj1 (toHex_BigInt_roundtrip 255 "0x00" "0x" "0x" "0x" "0x"
                  250000 250000 50000 10000000000 10000000000
                  ltac:(lia) ltac:(lia) ltac:(lia) ltac:(lia)
                  ltac:(lia) ltac:(lia))).
Defined.

(** X28. The operation [buildUserOperation] makes decodes to the values it was
    given and the three fixed gas limits. *)
Lemma toEntryPointUserOp_buildUserOperation (p : Utils.BuildParams) :
  0 <= Utils.p_nonce p -> 0 <= Utils.p_maxFeePerGas p ->
  0 <= Utils.p_maxPriorityFeePerGas p ->
  Social.toEntryPointUserOp (Utils.buildUserOperation p)
  = Some {| Social.sender := Utils.p_sender p;
            Social.nonce := Utils.p_nonce p;
            Social.initCode := "0x";
            Social.callData := Utils.p_callData p;
            Social.callGasLimit := 250000;
            Social.verificationGasLimit := 250000;
            Social.preVerificationGas := 50000;
            Social.maxFeePerGas := Utils.p_maxFeePerGas p;
            Social.maxPriorityFeePerGas := Utils.p_maxPriorityFeePerGas p;
            Social.paymasterAndData := "0x";
            Social.signature := "0x" |}.
Proof.
  intros H1 H2 H3. unfold Utils.buildUserOperation.
  unfold Social.toEntryPointUserOp. cbn [Utils.nonce Utils.callGasLimit
      Utils.verificationGasLimit Utils.preVerificationGas Utils.maxFeePerGas
      Utils.maxPriorityFeePerGas Utils.sender Utils.initCode Utils.callData
      Utils.paymasterAndData Utils.signature].
  rewrite !BigInt_toHex by lia. reflexivity.
Qed.

(** Outside the claim's range the round trip fails: a negative value
    prints with its sign after the prefix, which [BigInt] rejects. *)
Example toHex_negative : Utils.toHex (-5) = "0x-5" /\ Js.BigInt "0x-5" = None.
Proof. split; reflexivity. Qed.

(** [BigInt] on strings: white space around the literal is dropped (a
    no-break space too), the empty and the all-blank string are zero, a
    prefix without digits, a sign before a prefix and white space inside
    the literal are errors. *)
Example BigInt_string_cases :
  Js.BigInt " 0x10 " = Some 16
  /\ Js.BigInt (ClientDemo.nbsp ++ "7" ++ ClientDemo.nbsp)%string = Some 7
  /\ Js.BigInt EmptyString = Some 0
  /\ Js.BigInt "   " = Some 0
  /\ Js.BigInt "-5" = Some (-5)
  /\ Js.BigInt "0XfF" = Some 255
  /\ Js.BigInt "0x" = None
  /\ Js.BigInt "-0x5" = None
  /\ Js.BigInt "1 2" = None.
Proof. repeat split. Qed.

End Serialization.

(* ================================================================== *)
(** * Digests: client and validator *)
(* ================================================================== *)

Section ViemFacts.

Lemma viem_keccak256_parse (h : string) (b : bytes) :
  Hex.parse h = Some b ->
  Viem.keccak256 h = Some (Hex.show (Keccak.keccak256 b)).
Proof. intros H. unfold Viem.keccak256. rewrite H. reflexivity. Qed.

Lemma viem_keccak256_show (b : bytes) :
  Viem.keccak256 (Hex.show b) = Some (Hex.show (Keccak.keccak256 b)).
Proof. apply viem_keccak256_parse, parse_show. Qed.

(** What [isAddress] accepts has the address shape: 20 bytes. *)
Lemma isAddress_shape (a : string) :
  Viem.isAddress a = true ->
  exists b, Hex.parse a = Some b /\ length b = 20%nat.
Proof.
  unfold Viem.isAddress, Viem.address_shape.
  destruct (Hex.parse a) as [b |]; cbn [negb]; [| discriminate].
  destruct (length b =? 20)%nat eqn:L; cbn [negb]; [| discriminate].
  intros _. exists b. apply Nat.eqb_eq in L. auto.
Qed.

Lemma isAddress_length (a : string) (b : bytes) :
  Viem.isAddress a = true -> Hex.parse a = Some b -> length b = 20%nat.
Proof.
  intros H Hp. destruct (isAddress_shape a H) as (b' & Hb & L).
  rewrite Hp in Hb. apply Some_inj in Hb. subst b'. exact L.
Qed.

Lemma address_bytes_ok (a : string) (b : bytes) :
  Viem.isAddress a = true -> Hex.parse a = Some b ->
  Viem.address_bytes a = Some b.
Proof.
  intros H Hp. unfold Viem.address_bytes. rewrite H. exact Hp.
Qed.

Lemma address_bytes_bad (a : string) :
  Viem.isAddress a = false -> Viem.address_bytes a = None.
Proof. intros H. unfold Viem.address_bytes. rewrite H. reflexivity. Qed.

Lemma address_bytes_isAddress (a : string) (b : bytes) :
  Viem.address_bytes a = Some b -> Viem.isAddress a = true.
Proof.
  unfold Viem.address_bytes. destruct (Viem.isAddress a); [reflexivity |].
  discriminate.
Qed.

Lemma uint256_bytes_ok (n : Z) :
  0 <= n < 2 ^ 256 -> Viem.uint256_bytes n = Some (be 32 n).
Proof.
  intros [H1 H2]. unfold Viem.uint256_bytes.
  apply Z.leb_le in H1. apply Z.ltb_lt in H2. rewrite H1, H2. reflexivity.
Qed.

Lemma bytes32_bytes_ok (h : string) (b : bytes) :
  Hex.parse h = Some b -> length b = 32%nat -> Viem.bytes32_bytes h = Some b.
Proof.
  intros H L. unfold Viem.bytes32_bytes. rewrite H, L. reflexivity.
Qed.

Lemma bytes32_bytes_keccak (b : bytes) :
  Viem.bytes32_bytes (Hex.show (Keccak.keccak256 b)) = Some (Keccak.keccak256 b).
Proof. apply bytes32_bytes_ok; [apply parse_show | apply length_keccak256]. Qed.

(** [be 20] of an address value given by its 20 bytes is those bytes. *)
Lemma be20_from_be (a : bytes) : length a = 20%nat -> be 20 (from_be a) = a.
Proof. intros L. rewrite <- L. apply be_from_be. Qed.

(** [isAddress] on the EIP-55 test addresses: mixed case with the right
    checksum, all upper case that is its own checksum, all lower case;
    then one digit in the wrong case, an upper-case prefix, and the
    EntryPoint address in upper case, which is not its checksum. *)
Example isAddress_checksum_cases :
  Viem.isAddress "0x5aAeb6053F3E94C9b9A09f33669435E7Ef1BeAed" = true
  /\ Viem.isAddress "0x52908400098527886E0F7030069857D2E4169EE7" = true
  /\ Viem.isAddress "0xde709f2102306220921060314715629080e2fb77" = true
  /\ Viem.isAddress "0x5FF137D4b0FDCD49DcA30c7CF57E578a026d2789" = true
  /\ Viem.isAddress "0x5aaeb6053F3E94C9b9A09f33669435E7Ef1BeAed" = false
  /\ Viem.isAddress "0X5aAeb6053F3E94C9b9A09f33669435E7Ef1BeAed" = false
  /\ Viem.isAddress "0x5FF137D4B0FDCD49DCA30C7CF57E578A026D2789" = false.
Proof. repeat (split; [vm_compute; reflexivity |]). vm_compute. reflexivity. Qed.

(** An address accepted by [envAddress] denotes 20 bytes. *)
Lemma envAddress_wf (v : option string) (name a : string) :
  Utils.envAddress v name = Returned a ->
  v = Some a /\ exists b, Hex.parse a = Some b /\ length b = 20%nat.
Proof.
  unfold Utils.envAddress. destruct v as [s |]; [| discriminate].
  destruct (falsy (Some s)); [discriminate |].
  destruct (Viem.isAddress s) eqn:E; cbn [negb]; [| discriminate].
  intros H. inversion H. subst a. split; [reflexivity |].
  apply isAddress_shape. exact E.
Qed.

End ViemFacts.

Create Rewrite HintDb digest.
#[local] Hint Rewrite viem_keccak256_show bytes32_bytes_keccak parse_show
  app_nil_r : digest.

Section Digests.

Lemma computeUserOpHash_bytes (sender callData : string) (a cd : bytes) (n : Z) :
  Viem.isAddress sender = true -> Hex.parse sender = Some a ->
  0 <= n < 2 ^ 256 ->
  Hex.parse callData = Some cd ->
  Utils.computeUserOpHash sender n callData
  = Some (Hex.show (Keccak.keccak256 (principal_preimage a n cd))).
Proof.
  intros Ia Ha Hn Hcd. unfold Utils.computeUserOpHash.
  rewrite (viem_keccak256_parse _ _ Hcd).
  unfold Viem.encodePacked. cbn [Viem.packed_concat Viem.packed_bytes].
  rewrite (address_bytes_ok _ _ Ia Ha), (uint256_bytes_ok _ Hn).
  autorewrite with digest. reflexivity.
Qed.

(** The client computes a principal digest only for an address
    [isAddress] accepts. *)
Lemma computeUserOpHash_isAddress (sender callData h : string) (n : Z) :
  Utils.computeUserOpHash sender n callData = Some h ->
  Viem.isAddress sender = true.
Proof.
  unfold Utils.computeUserOpHash.
  destruct (Viem.keccak256 callData) as [k |]; [| discriminate].
  unfold Viem.encodePacked. cbn [Viem.packed_concat Viem.packed_bytes].
  destruct (Viem.address_bytes sender) as [b |] eqn:E; [| discriminate].
  intros _. exact (address_bytes_isAddress _ _ E).
Qed.


Lemma validateUserOp_hash_bytes (op : Sol.UserOperation) (a : bytes) :
  length a = 20%nat -> Sol.sender op = from_be a ->
  Sol.validateUserOp_hash op
  = Keccak.keccak256 (principal_preimage a (Sol.nonce op) (Sol.callData op)).
Proof.
  intros La Hs. unfold Sol.validateUserOp_hash, Sol.abi_encodePacked.
  cbn [map concat Sol.packed]. rewrite Hs, be20_from_be by exact La.
  autorewrite with digest. reflexivity.
Qed.

Lemma pmHash_bytes (sender callData : string) (a cd : bytes) (n : Z) :
  Viem.isAddress sender = true -> Hex.parse sender = Some a ->
  0 <= n < 2 ^ 256 ->
  Hex.parse callData = Some cd ->
  Utils.pmHash {| Utils.s_sender := sender; Utils.s_callData := callData;
                  Utils.s_nonce := n |}
  = Some (Hex.show (Keccak.keccak256 (sponsor_preimage a cd n))).
Proof.
  intros Ia Ha Hn Hcd. unfold Utils.pmHash, Viem.encodePacked.
  cbn [Viem.packed_concat Viem.packed_bytes Utils.s_sender Utils.s_callData
       Utils.s_nonce].
  rewrite (address_bytes_ok _ _ Ia Ha), (uint256_bytes_ok _ Hn), Hcd.
  autorewrite with digest. reflexivity.
Qed.

(** [pmHash] succeeds only on well-formed input, and is then the hash of
    the sponsor preimage. *)
Lemma pmHash_inv (params : Utils.SponsorParams) (h : string) :
  Utils.pmHash params = Some h ->
  exists a cd,
    Viem.isAddress (Utils.s_sender params) = true
    /\ Hex.parse (Utils.s_sender params) = Some a
    /\ Hex.parse (Utils.s_callData params) = Some cd
    /\ 0 <= Utils.s_nonce params < 2 ^ 256
    /\ h = Hex.show (Keccak.keccak256
                       (sponsor_preimage a cd (Utils.s_nonce params))).
Proof.
  intros H.
  assert (Ia : Viem.isAddress (Utils.s_sender params) = true).
  { unfold Utils.pmHash, Viem.encodePacked in H.
    cbn [Viem.packed_concat Viem.packed_bytes] in H.
    destruct (Viem.address_bytes (Utils.s_sender params)) as [b |] eqn:E;
      [| discriminate].
    exact (address_bytes_isAddress _ _ E). }
  destruct (isAddress_shape _ Ia) as (a & Ha & _).
  assert (Hcd : exists cd, Hex.parse (Utils.s_callData params) = Some cd).
  { unfold Utils.pmHash, Viem.encodePacked in H.
    cbn [Viem.packed_concat Viem.packed_bytes] in H.
    destruct (Viem.address_bytes (Utils.s_sender params)); [| discriminate].
    destruct (Hex.parse (Utils.s_callData params)) as [cd |];
      [eauto | discriminate]. }
  destruct Hcd as [cd Hcd].
  assert (Hn : 0 <= Utils.s_nonce params < 2 ^ 256).
  { unfold Utils.pmHash, Viem.encodePacked in H.
    cbn [Viem.packed_concat Viem.packed_bytes] in H.
    destruct (Viem.address_bytes (Utils.s_sender params)); [| discriminate].
    destruct (Hex.parse (Utils.s_callData params)); [| discriminate].
    unfold Viem.uint256_bytes in H.
    destruct (0 <=? Utils.s_nonce params) eqn:E1; [| discriminate].
    destruct (Utils.s_nonce params <? 2 ^ 256) eqn:E2; [| discriminate].
    apply Z.leb_le in E1. apply Z.ltb_lt in E2. split; assumption. }
  exists a, cd. repeat (split; [assumption |]).
  destruct params as [sender callData n].
  cbn [Utils.s_sender Utils.s_callData Utils.s_nonce] in *.
  rewrite (pmHash_bytes sender callData a cd n Ia Ha Hn Hcd) in H.
  apply Some_inj in H. symmetry. exact H.
Qed.

Lemma pmHash_bad (params : Utils.SponsorParams) :
  Viem.isAddress (Utils.s_sender params) = false -> Utils.pmHash params = None.
Proof.
  intros H. unfold Utils.pmHash, Viem.encodePacked.
  cbn [Viem.packed_concat Viem.packed_bytes].
  rewrite (address_bytes_bad _ H). reflexivity.
Qed.

Lemma paymasterDigest_bytes (userOp : Social.SimpleUserOperation)
    (a cd : bytes) (n : Z) :
  Viem.isAddress (Utils.sender userOp) = true ->
  Hex.parse (Utils.sender userOp) = Some a ->
  0 <= n < 2 ^ 256 ->
  Hex.parse (Utils.callData userOp) = Some cd ->
  Utils.nonce userOp = Utils.toHex n ->
  Social.paymasterDigest userOp
  = Some (Hex.show (Keccak.keccak256 (sponsor_preimage a cd n))).
Proof.
  intros Ia Ha Hn Hcd Hnonce. unfold Social.paymasterDigest.
  rewrite Hnonce, BigInt_toHex by lia.
  unfold Viem.encodePacked. cbn [Viem.packed_concat Viem.packed_bytes].
  rewrite (address_bytes_ok _ _ Ia Ha), (uint256_bytes_ok _ Hn), Hcd.
  autorewrite with digest. reflexivity.
Qed.

Lemma paymasterDigest_bad (userOp : Social.SimpleUserOperation) :
  Viem.isAddress (Utils.sender userOp) = false ->
  Social.paymasterDigest userOp = None.
Proof.
  intros H. unfold Social.paymasterDigest.
  destruct (Js.BigInt (Utils.nonce userOp)) as [n |]; [| reflexivity].
  unfold Viem.encodePacked. cbn [Viem.packed_concat Viem.packed_bytes].
  rewrite (address_bytes_bad _ H). reflexivity.
Qed.

Lemma validatePaymasterUserOp_hash_bytes (op : Sol.UserOperation) (a : bytes) :
  length a = 20%nat -> Sol.sender op = from_be a ->
  Sol.validatePaymasterUserOp_hash op
  = Keccak.keccak256 (sponsor_preimage a (Sol.callData op) (Sol.nonce op)).
Proof.
  intros La Hs. unfold Sol.validatePaymasterUserOp_hash, Sol.abi_encodePacked.
  cbn [map concat Sol.packed]. rewrite Hs, be20_from_be by exact La.
  autorewrite with digest. reflexivity.
Qed.

(** The two preimages have different lengths unless the call payload
    happens to be 32 bytes long. *)
Lemma preimages_differ (a cd : bytes) (n : Z) :
  length cd <> 32%nat -> sponsor_preimage a cd n <> principal_preimage a n cd.
Proof.
  intros Hlen E. apply (f_equal (@length byte)) in E.
  unfold sponsor_preimage, principal_preimage in E.
  rewrite !length_app, !length_be, length_keccak256 in E. lia.
Qed.

End Digests.

(* ================================================================== *)
(** * Signing and recovery *)
(* ================================================================== *)

Section Signing.

Variable ecrecover : bytes -> Z -> bytes -> bytes -> Z.

Lemma hashMessage_32 (digest : bytes) :
  length digest = 32%nat -> Viem.hashMessage digest = eip191_wrap digest.
Proof.
  intros L. unfold Viem.hashMessage, eip191_wrap, Viem.presignMessagePrefix.
  rewrite L.
  assert (E : Js.digits 10 (N.of_nat 32) = "32") by reflexivity.
  rewrite E. reflexivity.
Qed.

Lemma recover_wrap (digest sig : bytes) :
  Sol.recover ecrecover digest sig
  = match Sol.split sig with
    | Sol.Ok (v, r, s) => Sol.Ok (ecrecover (eip191_wrap digest) v r s)
    | Sol.Revert m => Sol.Revert m
    end.
Proof.
  unfold Sol.recover, Sol.abi_encodePacked.
  cbn [map concat Sol.packed]. rewrite app_nil_r. reflexivity.
Qed.

Lemma _recover_wrap (digest sig : bytes) :
  Sol._recover ecrecover digest sig
  = match Sol._split sig with
    | Sol.Ok (v, r, s) => Sol.Ok (ecrecover (eip191_wrap digest) v r s)
    | Sol.Revert m => Sol.Revert m
    end.
Proof.
  unfold Sol._recover, Sol.abi_encodePacked.
  cbn [map concat Sol.packed]. rewrite app_nil_r. reflexivity.
Qed.

(** C4. For every 32-byte digest handed to the signer (principal or
    sponsor), the signature is the account's ECDSA signature over
    keccak256("\x19Ethereum Signed Message:\n32" || digest), the prefix
    carrying the literal decimal length 32, not over the digest itself;
    and both validators' recovery routines ([DemoAccount.recover],
    [DemoPaymaster._recover]) hash the digest with the identical prefix
    before calling [ecrecover]. *)
Theorem signature_is_over_wrapped_digest
    (acc : Viem.Account) (rawHash : string) (digest sig : bytes) :
  Hex.parse rawHash = Some digest -> length digest = 32%nat ->
  let wrapped :=
    Keccak.keccak256
      (x19 :: utf8 "Ethereum Signed Message:" ++ [x0a] ++ utf8 "32" ++ digest) in
  Utils.signUserOperationHash acc rawHash
    = Some (Hex.show (Viem.sign acc wrapped))
  /\ Viem.signMessage acc rawHash = Some (Hex.show (Viem.sign acc wrapped))
  /\ Sol.recover ecrecover digest sig
     = match Sol.split sig with
       | Sol.Ok (v, r, s) => Sol.Ok (ecrecover wrapped v r s)
       | Sol.Revert m => Sol.Revert m
       end
  /\ Sol._recover ecrecover digest sig
     = match Sol._split sig with
       | Sol.Ok (v, r, s) => Sol.Ok (ecrecover wrapped v r s)
       | Sol.Revert m => Sol.Revert m
       end.
Proof.
  intros Hp L wrapped.
  assert (Hsign : Viem.signMessage acc rawHash
                  = Some (Hex.show (Viem.sign acc wrapped))).
  { unfold Viem.signMessage. rewrite Hp, (hashMessage_32 _ L). reflexivity. }
  split; [exact Hsign | split; [exact Hsign | split]].
  - apply recover_wrap.
  - apply _recover_wrap.
Qed.

(** What [validateUserOp] decides, called by the EntryPoint: it recovers
    the signer of the wrapped recomputed digest and compares it with the
    owner. *)
Lemma validateUserOp_unfold (self : Sol.DemoAccount) (op : Sol.UserOperation)
    (missingAccountFunds : Z) :
  Sol.validateUserOp ecrecover self (Sol.entryPoint self) op missingAccountFunds
  = match Sol.split (Sol.signature op) with
    | Sol.Ok (v, r, s) =>
        if ecrecover (eip191_wrap (Sol.validateUserOp_hash op)) v r s
           =? Sol.owner self
        then Sol.Ok (0, if missingAccountFunds =? 0 then None
                        else Some missingAccountFunds)
        else Sol.Revert "invalid signature"
    | Sol.Revert m => Sol.Revert m
    end.
Proof.
  unfold Sol.validateUserOp, Sol.require. rewrite Z.eqb_refl, recover_wrap.
  destruct (Sol.split (Sol.signature op)) as [[[v r] s] | m]; reflexivity.
Qed.

(** X26. Signing and validation fit together: an operation carrying the
    owner's signature of the client-side digest passes [validateUserOp]
    as soon as [ecrecover] recovers the owner from that signature. *)
Lemma validateUserOp_accepts_client_signature
    (self : Sol.DemoAccount) (acc : Viem.Account)
    (sender callData rawHash sigHex : string) (a cd : bytes) (n : Z)
    (op : Sol.UserOperation) :
  Hex.parse sender = Some a -> length a = 20%nat ->
  0 <= n < 2 ^ 256 ->
  Hex.parse callData = Some cd ->
  Sol.sender op = from_be a -> Sol.nonce op = n -> Sol.callData op = cd ->
  Utils.computeUserOpHash sender n callData = Some rawHash ->
  Utils.signUserOperationHash acc rawHash = Some sigHex ->
  Hex.parse sigHex = Some (Sol.signature op) ->
  length (Sol.signature op) = 65%nat ->
  ecrecover (eip191_wrap (Sol.validateUserOp_hash op))
    (Z_of_byte (nth 64 (Sol.signature op) x00))
    (firstn 32 (Sol.signature op))
    (firstn 32 (skipn 32 (Sol.signature op))) = Sol.owner self ->
  Sol.signature op
    = Viem.sign acc (eip191_wrap (Sol.validateUserOp_hash op))
  /\ Sol.validateUserOp ecrecover self (Sol.entryPoint self) op 0
     = Sol.Ok (0, None).
Proof.
  intros Ha La Hn Hcd Hs Hnonce Hdata Hhash Hsign Hsig Lsig Hrec.
  pose proof (computeUserOpHash_isAddress _ _ _ _ Hhash) as Ia.
  rewrite (computeUserOpHash_bytes sender callData a cd n Ia Ha Hn Hcd)
    in Hhash.
  apply Some_inj in Hhash. subst rawHash.
  assert (Hd : Sol.validateUserOp_hash op
               = Keccak.keccak256 (principal_preimage a n cd)).
  { rewrite (validateUserOp_hash_bytes op a La Hs), Hnonce, Hdata.
    reflexivity. }
  split.
  - unfold Utils.signUserOperationHash, Viem.signMessage in Hsign.
    rewrite parse_show, hashMessage_32 in Hsign by apply length_keccak256.
    apply Some_inj in Hsign. subst sigHex.
    rewrite parse_show in Hsig. apply Some_inj in Hsig.
    rewrite Hd. symmetry. exact Hsig.
  - rewrite validateUserOp_unfold. unfold Sol.split, Sol.require.
    apply Nat.eqb_eq in Lsig. rewrite Lsig, Hrec, Z.eqb_refl. reflexivity.
Qed.

(** What [validatePaymasterUserOp] decides on a payload of 85 bytes,
    called by the EntryPoint: it recovers the signer of the wrapped
    recomputed digest from the 65 bytes after the first 20 and compares
    it with its [signer]. *)
Lemma validatePaymasterUserOp_unfold (self : Sol.DemoPaymaster)
    (op : Sol.UserOperation) :
  length (Sol.paymasterAndData op) = 85%nat ->
  Sol.validatePaymasterUserOp ecrecover self (Sol.pm_entryPoint self) op
  = let sig := skipn 20 (Sol.paymasterAndData op) in
    if ecrecover (eip191_wrap (Sol.validatePaymasterUserOp_hash op))
         (Z_of_byte (nth 64 sig x00)) (firstn 32 sig)
         (firstn 32 (skipn 32 sig))
       =? Sol.pm_signer self
    then Sol.Ok ([], 0)
    else Sol.Revert "invalid paymaster signature".
Proof.
  intros L. unfold Sol.validatePaymasterUserOp, Sol.require.
  rewrite Z.eqb_refl. cbv zeta.
  assert (L85 : (length (Sol.paymasterAndData op) =? 20 + 65)%nat = true)
    by (apply Nat.eqb_eq; exact L).
  rewrite L85.
  assert (Hfirst : firstn (85 - 20) (skipn 20 (Sol.paymasterAndData op))
                   = skipn 20 (Sol.paymasterAndData op)).
  { apply firstn_all2. rewrite length_skipn, L. cbn. lia. }
  rewrite Hfirst, _recover_wrap. unfold Sol._split, Sol.require.
  assert (L65 : (length (skipn 20 (Sol.paymasterAndData op)) =? 65)%nat = true)
    by (apply Nat.eqb_eq; rewrite length_skipn, L; reflexivity).
  rewrite L65. reflexivity.
Qed.


(** C3. For every sender address, call payload and nonce, the sponsor
    digest ([pmHash] of [buildPaymasterAndData], and the digest of
    [signPaymaster] in the 03-social client) is the Keccak-256 hash of the
    packed concatenation sender (20 bytes), the raw call payload, nonce (32
    bytes) in that order; [validatePaymasterUserOp] recomputes the same
    value, and on a payload of 85 bytes its verdict is that of recovering
    its signer from the signature over the wrapping of exactly this
    digest; and it is not the principal digest: the two preimages differ
    whenever the payload is not 32 bytes long, and the digests themselves
    differ on the demo's own call, [increment()] at nonce 5.  For a sender
    [isAddress] does not accept the clients throw instead. *)
Theorem sponsor_digest_matches_paymaster
    (sender callData : string) (a cd : bytes) (n : Z)
    (userOp : Social.SimpleUserOperation) (op : Sol.UserOperation) :
  Viem.isAddress sender = true -> Hex.parse sender = Some a ->
  0 <= n < 2 ^ 256 ->
  Hex.parse callData = Some cd ->
  Utils.sender userOp = sender -> Utils.callData userOp = callData ->
  Utils.nonce userOp = Utils.toHex n ->
  Sol.sender op = from_be a -> Sol.nonce op = n -> Sol.callData op = cd ->
  let digest := Keccak.keccak256 (a ++ cd ++ be 32 n) in
  Utils.pmHash {| Utils.s_sender := sender; Utils.s_callData := callData;
                  Utils.s_nonce := n |} = Some (Hex.show digest)
  /\ Social.paymasterDigest userOp = Some (Hex.show digest)
  /\ Sol.validatePaymasterUserOp_hash op = digest
  /\ (forall self : Sol.DemoPaymaster,
        length (Sol.paymasterAndData op) = 85%nat ->
        Sol.validatePaymasterUserOp ecrecover self (Sol.pm_entryPoint self) op
        = let sig := skipn 20 (Sol.paymasterAndData op) in
          if ecrecover
               (Keccak.keccak256
                  (x19 :: utf8 "Ethereum Signed Message:" ++ [x0a]
                     ++ utf8 "32" ++ digest))
               (Z_of_byte (nth 64 sig x00)) (firstn 32 sig)
               (firstn 32 (skipn 32 sig))
             =? Sol.pm_signer self
          then Sol.Ok ([], 0)
          else Sol.Revert "invalid paymaster signature")
  /\ (forall (self : Sol.DemoPaymaster) (caller : Z),
        caller <> Sol.pm_entryPoint self ->
        Sol.validatePaymasterUserOp ecrecover self caller op
        = Sol.Revert "only entrypoint")
  /\ (length cd <> 32%nat ->
      a ++ cd ++ be 32 n <> a ++ be 32 n ++ Keccak.keccak256 cd)
  /\ Utils.pmHash
       {| Utils.s_sender := "0x5ff137d4b0fdcd49dca30c7cf57e578a026d2789";
          Utils.s_callData := "0xd09de08a"; Utils.s_nonce := 5 |}
     <> Utils.computeUserOpHash
          "0x5ff137d4b0fdcd49dca30c7cf57e578a026d2789" 5 "0xd09de08a"
  /\ (forall other : Social.SimpleUserOperation,
        Viem.isAddress (Utils.sender other) = false ->
        Utils.pmHash {| Utils.s_sender := Utils.sender other;
                        Utils.s_callData := Utils.callData other;
                        Utils.s_nonce := n |} = None
        /\ Social.paymasterDigest other = None).
Proof.
  intros Ia Ha Hn Hcd Us Uc Un Hs Hnonce Hdata digest.
  pose proof (isAddress_length _ _ Ia Ha) as La.
  assert (Hh : Sol.validatePaymasterUserOp_hash op = digest).
  { rewrite (validatePaymasterUserOp_hash_bytes op a La Hs), Hnonce, Hdata.
    reflexivity. }
  split; [| split; [| split; [| split; [| split; [| split; [| split]]]]]].
  - apply pmHash_bytes; assumption.
  - apply paymasterDigest_bytes; try assumption; congruence.
  - exact Hh.
  - intros self L. rewrite (validatePaymasterUserOp_unfold self op L), Hh.
    reflexivity.
  - intros self caller Hc. unfold Sol.validatePaymasterUserOp, Sol.require.
    apply Z.eqb_neq in Hc. rewrite Hc. reflexivity.
  - apply preimages_differ.
  - vm_compute. discriminate.
  - intros other Hbad. split.
    + apply pmHash_bad. exact Hbad.
    + apply paymasterDigest_bad. exact Hbad.
Qed.

End Signing.


(** The sponsor digest of the demo operation: client and paymaster agree. *)
Lemma sponsor_digest_matches_paymaster_witness :
  Utils.pmHash {| Utils.s_sender := Demo.address_hex;
                  Utils.s_callData := Demo.increment_hex;
                  Utils.s_nonce := 5 |}
  = Some (Hex.show (Sol.validatePaymasterUserOp_hash Demo.onchain_op)).
Proof.
  destruct (sponsor_digest_matches_paymaster Demo.test_ecrecover
              Demo.address_hex Demo.increment_hex
              Demo.address_bytes Demo.increment_bytes 5
              Demo.wire_op Demo.onchain_op
              ltac:(vm_compute; reflexivity) ltac:(reflexivity)
              ltac:(split; [lia | reflexivity]) ltac:(reflexivity)
              ltac:(reflexivity) ltac:(reflexivity) ltac:(reflexivity)
              ltac:(reflexivity) ltac:(reflexivity) ltac:(reflexivity))
    as (H1 & _ & H2 & _).
  rewrite H1, H2. reflexivity.
Defined.

(** Signing a concrete 32-byte digest with the stand-in account. *)
Lemma signature_is_over_wrapped_digest_witness :
  Utils.signUserOperationHash Demo.test_account
    (Hex.show (Keccak.keccak256 Demo.increment_bytes))
  = Some (Hex.show
            (Viem.sign Demo.test_account
               (eip191_wrap (Keccak.keccak256 Demo.increment_bytes)))).
Proof.
  exact (proj1 (signature_is_over_wrapped_digest
                  Demo.test_ecrecover Demo.test_account
                  (Hex.show (Keccak.keccak256 Demo.increment_bytes))
                  (Keccak.keccak256 Demo.increment_bytes) []
                  ltac:(vm_compute; reflexivity)
                  ltac:(vm_compute; reflexivity))).
Defined.

(** The whole path on the demo operation, with the stand-in signer: the
    client's digest, its signature, and [validateUserOp] accepting the
    operation that carries it. *)
Example validateUserOp_accepts_demo :
  Sol.validateUserOp Demo.test_ecrecover
    {| Sol.owner := from_be Demo.address_bytes; Sol.entryPoint := 1 |} 1
    {| Sol.sender := from_be Demo.address_bytes;
       Sol.nonce := 5;
       Sol.initCode := [];
       Sol.callData := Demo.increment_bytes;
       Sol.callGasLimit := 250000;
       Sol.verificationGasLimit := 250000;
       Sol.preVerificationGas := 50000;
       Sol.maxFeePerGas := 10000000000;
       Sol.maxPriorityFeePerGas := 10000000000;
       Sol.paymasterAndData := [];
       Sol.signature :=
         Demo.test_sign (eip191_wrap (Sol.validateUserOp_hash Demo.onchain_op)) |}
    0
  = Sol.Ok (0, None).
Proof. vm_compute. reflexivity. Qed.

(* ================================================================== *)
(** * Counterfactual address derivation *)
(* ================================================================== *)

Section AddressDerivation.

Lemma from_be_app (x y : bytes) :
  from_be (x ++ y) = from_be x * 256 ^ Z.of_nat (length y) + from_be y.
Proof.
  induction y as [| b y IH] using rev_ind.
  - rewrite app_nil_r. cbn [length]. change (from_be []) with 0.
    change (Z.of_nat 0) with 0. rewrite Z.pow_0_r. lia.
  - rewrite app_assoc, !from_be_snoc, IH, length_app. cbn [length].
    rewrite Nat2Z.inj_add, Z.pow_add_r by lia.
    change (256 ^ Z.of_nat 1) with 256. lia.
Qed.

(** The low-order 160 bits of a 32-byte hash are its last 20 bytes. *)
Lemma low160_last20 (h : bytes) :
  length h = 32%nat -> from_be h mod 2 ^ 160 = from_be (skipn 12 h).
Proof.
  intros L.
  rewrite <- (firstn_skipn 12 h) at 1. rewrite from_be_app.
  assert (L20 : length (skipn 12 h) = 20%nat) by (rewrite length_skipn; lia).
  rewrite L20.
  pose proof (from_be_bound (skipn 12 h)) as Hb. rewrite L20 in Hb.
  pose proof (from_be_nonneg (skipn 12 h)) as Hn.
  assert (E : 256 ^ Z.of_nat 20 = 2 ^ 160) by reflexivity.
  rewrite E in *.
  remember (2 ^ 160) as M.
  assert (0 < M) by (subst M; reflexivity).
  rewrite Z.add_comm, Z.mod_add by lia.
  apply Z.mod_small. lia.
Qed.

(** C2. For every factory address, identity (uuid, backend salt) and
    constructor argument, and whatever the creation code is,
    [AccountFactory.getAddress] returns the low-order 160 bits (the last 20
    bytes) of keccak256(0xff || factory || salt || keccak256(creation code
    || abi.encode(entryPoint))) with salt = keccak256(uuid || backendSalt),
    and the result is the same in every world state: it does not depend on
    whether code is deployed at that address or anywhere else. *)
Theorem getAddress_is_derived_address
    (creationCode : bytes) (w w' : Sol.World) (this : Z)
    (uuidString : string) (backendSalt : bytes) (entryPoint : Z) :
  let salt := Keccak.keccak256 (utf8 uuidString ++ backendSalt) in
  let hash :=
    Keccak.keccak256
      ([xff] ++ be 20 this ++ salt
         ++ Keccak.keccak256 (creationCode ++ Sol.abi_encode_address entryPoint)) in
  Sol.getAddress creationCode w this uuidString backendSalt entryPoint
    = derive_address this salt creationCode (Sol.abi_encode_address entryPoint)
  /\ Sol.getAddress creationCode w this uuidString backendSalt entryPoint
     = from_be hash mod 2 ^ 160
  /\ Sol.getAddress creationCode w this uuidString backendSalt entryPoint
     = from_be (skipn 12 hash)
  /\ Sol.getAddress creationCode w' this uuidString backendSalt entryPoint
     = Sol.getAddress creationCode w this uuidString backendSalt entryPoint.
Proof.
  intros salt hash.
  assert (E : Sol.getAddress creationCode w this uuidString backendSalt entryPoint
              = from_be hash mod 2 ^ 160).
  { unfold Sol.getAddress, Sol.address_of_hash, Sol.abi_encodePacked.
    cbn [map concat Sol.packed]. rewrite !app_nil_r. reflexivity. }
  split; [| split; [| split]].
  - unfold derive_address. exact E.
  - exact E.
  - rewrite E. apply low160_last20, length_keccak256.
  - unfold Sol.getAddress. reflexivity.
Qed.

End AddressDerivation.

(* ================================================================== *)
(** * Receipt polling *)
(* ================================================================== *)

Section Polling.

Variable relay : Relay.
Variables bundlerUrl uoHash : string.

Let req := Poller.receiptRequest bundlerUrl uoHash.

Lemma ticks_add (a b : nat) (r : Poller.Run) :
  Poller.ticks (a + b) relay bundlerUrl uoHash r
  = bindO (Poller.ticks a relay bundlerUrl uoHash r)
          (Poller.ticks b relay bundlerUrl uoHash).
Proof.
  revert r. induction a as [| a IH]; intros r; simpl.
  - reflexivity.
  - destruct (Poller.tick relay bundlerUrl uoHash r) as [r' | e]; simpl.
    + apply IH.
    + reflexivity.
Qed.

Lemma ticks_settled (m : nat) (r : Poller.Run) (receipt : JsValue) :
  Poller.state r = Poller.Settled receipt ->
  Poller.ticks m relay bundlerUrl uoHash r = Returned r.
Proof.
  intros H. induction m as [| m IH]; simpl.
  - reflexivity.
  - unfold Poller.tick. rewrite H. simpl. exact IH.
Qed.

(** While the relay has no receipt the loop stays pending, one request
    and one second per iteration. *)
Lemma ticks_pending (m : nat) :
  forall r : Poller.Run,
    Poller.state r = Poller.Pending ->
    (forall i, (i < m)%nat ->
       absent (relay (length (Poller.sent r) + i)%nat req)) ->
    Poller.ticks m relay bundlerUrl uoHash r
    = Returned {| Poller.state := Poller.Pending;
                  Poller.sent := repeat req m ++ Poller.sent r;
                  Poller.waited := Poller.waited r + 1000 * Z.of_nat m |}.
Proof.
  induction m as [| m IH]; intros r Hst Habs.
  - simpl. destruct r; simpl in *. subst. f_equal. f_equal. lia.
  - cbn [Poller.ticks]. unfold Poller.tick. rewrite Hst.
    destruct (Habs O ltac:(lia)) as (body & result & Hb & Hp & Hf).
    rewrite Nat.add_0_r in Hb. fold req. rewrite Hb, Hp, Hf.
    cbn [bindO]. rewrite IH.
    + cbn [Poller.sent Poller.waited]. f_equal. f_equal.
      * change (req :: Poller.sent r) with ([req] ++ Poller.sent r).
        rewrite app_assoc. f_equal.
        change [req] with (repeat req 1). rewrite <- repeat_app.
        f_equal. lia.
      * lia.
    + reflexivity.
    + intros i Hi. cbn [Poller.sent length].
      replace (S (length (Poller.sent r)) + i)%nat
        with (length (Poller.sent r) + S i)%nat by lia.
      apply Habs. lia.
Qed.

Lemma tick_receipt (r : Poller.Run) (receipt : JsValue) :
  Poller.state r = Poller.Pending ->
  carries (relay (length (Poller.sent r)) req) receipt ->
  Poller.tick relay bundlerUrl uoHash r
  = Returned {| Poller.state := Poller.Settled receipt;
                Poller.sent := req :: Poller.sent r;
                Poller.waited := Poller.waited r |}.
Proof.
  intros Hst (body & Hb & Hp & Ht). unfold Poller.tick.
  rewrite Hst. fold req. rewrite Hb, Hp, Ht. reflexivity.
Qed.

(** A run can only settle on a receipt that some query returned. *)
Lemma ticks_settle_inv (m : nat) :
  forall (r r' : Poller.Run) (receipt : JsValue),
    Poller.state r = Poller.Pending ->
    Poller.ticks m relay bundlerUrl uoHash r = Returned r' ->
    Poller.state r' = Poller.Settled receipt ->
    exists k, (length (Poller.sent r) <= k < length (Poller.sent r) + m)%nat
              /\ carries (relay k req) receipt.
Proof.
  induction m as [| m IH]; intros r r' receipt Hst Hrun Hset.
  - simpl in Hrun. inversion Hrun. subst. congruence.
  - cbn [Poller.ticks] in Hrun. unfold Poller.tick in Hrun.
    rewrite Hst in Hrun. fold req in Hrun.
    destruct (relay (length (Poller.sent r)) req) as [body |] eqn:Hb;
      [| discriminate].
    destruct (prop body "result") as [result |] eqn:Hp; [| discriminate].
    destruct (truthy result) eqn:Ht; cbn [bindO] in Hrun.
    + rewrite ticks_settled with (receipt := result) in Hrun
        by reflexivity.
      inversion Hrun. subst r'. cbn [Poller.state] in Hset.
      inversion Hset. subst receipt.
      exists (length (Poller.sent r)). split; [lia |].
      exists body. auto.
    + apply IH with (receipt := receipt) in Hrun; [| reflexivity | exact Hset].
      destruct Hrun as (k & Hk & Hc).
      cbn [Poller.sent length] in Hk.
      exists k. split; [lia | exact Hc].
Qed.

End Polling.

(** C8. The receipt poller has the two states pending and settled.  Each
    iteration sends one [eth_getUserOperationReceipt] request keyed by the
    tracking hash; while the replies carry no receipt the run stays
    pending and waits 1000 ms per iteration; on the first reply with a
    receipt it settles and returns that receipt.  So [n] replies without a
    receipt followed by one with a receipt make exactly [n + 1] requests
    and [n] waits; and nothing bounds the retries: against a relay that
    never has a receipt the loop is still pending after any number of
    iterations. *)
Theorem poller_settles_on_first_receipt
    (relay : Relay) (bundlerUrl uoHash : string) (n : nat) (receipt : JsValue) :
  let req := {| url := bundlerUrl; method := "eth_getUserOperationReceipt";
                params := [JString uoHash]; id := 1 |} in
  (forall k, (k < n)%nat -> absent (relay k req)) ->
  carries (relay n req) receipt ->
  (forall m, (m <= n)%nat ->
     Poller.ticks m relay bundlerUrl uoHash Poller.start
     = Returned {| Poller.state := Poller.Pending;
                   Poller.sent := repeat req m;
                   Poller.waited := 1000 * Z.of_nat m |})
  /\ Poller.ticks (S n) relay bundlerUrl uoHash Poller.start
     = Returned {| Poller.state := Poller.Settled receipt;
                   Poller.sent := repeat req (S n);
                   Poller.waited := 1000 * Z.of_nat n |}
  /\ (forall fuel, (fuel <= n)%nat ->
        Poller.waitForReceipt fuel relay bundlerUrl uoHash = Returned None)
  /\ (forall fuel, (n < fuel)%nat ->
        Poller.waitForReceipt fuel relay bundlerUrl uoHash
        = Returned (Some receipt))
  /\ (forall fuel,
        Poller.waitForReceipt fuel silent_relay bundlerUrl uoHash
        = Returned None).
Proof.
  intros req Habs Hrec.
  assert (Hpend : forall m, (m <= n)%nat ->
            Poller.ticks m relay bundlerUrl uoHash Poller.start
            = Returned {| Poller.state := Poller.Pending;
                          Poller.sent := repeat req m;
                          Poller.waited := 1000 * Z.of_nat m |}).
  { intros m Hm. rewrite ticks_pending.
    - cbn [Poller.start Poller.sent Poller.waited].
      rewrite app_nil_r. reflexivity.
    - reflexivity.
    - intros i Hi. cbn [Poller.start Poller.sent length Nat.add].
      apply Habs. lia. }
  assert (Hset : Poller.ticks (S n) relay bundlerUrl uoHash Poller.start
            = Returned {| Poller.state := Poller.Settled receipt;
                          Poller.sent := repeat req (S n);
                          Poller.waited := 1000 * Z.of_nat n |}).
  { replace (S n) with (n + 1)%nat by lia.
    rewrite ticks_add, (Hpend n (le_n n)). cbn [bindO Poller.ticks].
    rewrite tick_receipt with (receipt := receipt).
    - cbn [bindO Poller.sent Poller.waited].
      rewrite Nat.add_1_r. reflexivity.
    - reflexivity.
    - cbn [Poller.sent]. rewrite repeat_length. exact Hrec. }
  split; [exact Hpend | split; [exact Hset | split; [| split]]].
  - intros fuel Hf. unfold Poller.waitForReceipt.
    rewrite (Hpend fuel Hf). reflexivity.
  - intros fuel Hf. unfold Poller.waitForReceipt.
    replace fuel with (S n + (fuel - S n))%nat by lia.
    rewrite ticks_add, Hset. cbn [bindO].
    rewrite ticks_settled with (receipt := receipt) by reflexivity.
    reflexivity.
  - intros fuel. unfold Poller.waitForReceipt.
    rewrite ticks_pending.
    + reflexivity.
    + reflexivity.
    + intros i _. do 2 eexists. repeat split; reflexivity.
Qed.

(** The scenario run: absent three times, settled by the fourth query. *)
Lemma poller_settles_on_first_receipt_witness :
  Poller.waitForReceipt 4 scenario_relay "https://bundler" "0x1234"
  = Returned (Some sample_receipt).
Proof.
  refine (proj1 (proj2 (proj2 (proj2
            (poller_settles_on_first_receipt scenario_relay
               "https://bundler" "0x1234" 3 sample_receipt _ _)))) 4%nat _).
  - intros k Hk.
    exists (JObject [("jsonrpc", JString "2.0"); ("id", JNumber 1);
                     ("result", JNull)]), JNull.
    unfold scenario_relay. apply Nat.ltb_lt in Hk. rewrite Hk.
    repeat split; reflexivity.
  - eexists. repeat split; reflexivity.
  - lia.
Defined.

(** C9 (as stated, refuted). The loop offers the caller no stop signal:
    [waitForReceipt] takes the relay URL and the tracking hash and nothing
    else, and against a relay that never has a receipt no choice of those
    two arguments makes a run of any length end. *)
Lemma poller_has_no_stop_signal :
  ~ (exists (bundlerUrl uoHash : string) (fuel : nat),
       Poller.waitForReceipt fuel silent_relay bundlerUrl uoHash
       <> Returned None).
Proof.
  intros (bundlerUrl & uoHash & fuel & H). apply H.
  unfold Poller.waitForReceipt. rewrite ticks_pending.
  - reflexivity.
  - reflexivity.
  - intros i _. do 2 eexists. repeat split; reflexivity.
Qed.

(** C9 (amended). The polling loop has neither a timeout nor a
    cancellation input: a run ends only by returning a receipt that one of
    its queries delivered (or by a failed fetch), so as long as the relay's
    replies carry no receipt the loop is still running, whatever URL and
    tracking hash the caller passed. *)
Theorem poller_ends_only_on_receipt
    (relay : Relay) (bundlerUrl uoHash : string) (fuel : nat) :
  let req := Poller.receiptRequest bundlerUrl uoHash in
  (forall receipt,
     Poller.waitForReceipt fuel relay bundlerUrl uoHash
     = Returned (Some receipt) ->
     exists k, (k < fuel)%nat /\ carries (relay k req) receipt)
  /\ ((forall k, (k < fuel)%nat -> absent (relay k req)) ->
      Poller.waitForReceipt fuel relay bundlerUrl uoHash = Returned None).
Proof.
  intros req. split.
  - intros receipt H. unfold Poller.waitForReceipt in H.
    destruct (Poller.ticks fuel relay bundlerUrl uoHash Poller.start)
      as [r |] eqn:Hrun; [| discriminate].
    cbn [bindO] in H.
    destruct (Poller.state r) as [| rc] eqn:Hst; [discriminate |].
    inversion H. subst rc.
    destruct (ticks_settle_inv relay bundlerUrl uoHash fuel
                Poller.start r receipt eq_refl Hrun Hst) as (k & Hk & Hc).
    exists k. split; [cbn in Hk; lia | exact Hc].
  - intros Habs. unfold Poller.waitForReceipt.
    rewrite ticks_pending.
    + reflexivity.
    + reflexivity.
    + intros i Hi. apply Habs. exact Hi.
Qed.

(** The scenario run is still pending after its three empty replies. *)
Lemma poller_ends_only_on_receipt_witness :
  Poller.waitForReceipt 3 scenario_relay "https://bundler" "0x1234"
  = Returned None.
Proof.
  refine (proj2 (poller_ends_only_on_receipt scenario_relay
                   "https://bundler" "0x1234" 3) _).
  intros k Hk.
  exists (JObject [("jsonrpc", JString "2.0"); ("id", JNumber 1);
                   ("result", JNull)]), JNull.
  unfold scenario_relay. apply Nat.ltb_lt in Hk. rewrite Hk.
  repeat split; reflexivity.
Defined.

(* ================================================================== *)
(** * The 03-social submission pipeline *)
(* ================================================================== *)

Section Pipeline.

Variable privateKeyToAccount : string -> Viem.Account.
Variable cfg : Social.Config.

Lemma bindO_inv {A B} (m : Outcome A) (k : A -> Outcome B) (b : B) :
  bindO m k = Returned b -> exists a, m = Returned a /\ k a = Returned b.
Proof. destruct m as [a | e]; simpl; [eauto | discriminate]. Qed.

Lemma lift_inv {A} (o : option A) (a : A) : lift o = Returned a -> o = Some a.
Proof. destruct o; simpl; congruence. Qed.

(** Every run of [sendUserOp] that posts an operation went through the
    ten steps: what each produced, and the state it leaves. *)
Lemma sendUserOp_inv (rd : Social.Reads) (s : Social.Session)
    (r : Social.Sent) (op : Social.SimpleUserOperation) :
  Social.sendUserOp privateKeyToAccount cfg rd s = Returned r ->
  Social.posted r = Some op ->
  exists pk uuid callData initCode pmSig ownerSig,
    Social.ownerPk s = Some pk
    /\ Social.uuidString s = Some uuid
    /\ Social.resolveInitCode cfg
         (Social.smartAccountExists (Social.code_second rd)) uuid
         (Viem.address (privateKeyToAccount pk)) = Some initCode
    /\ Social.signPaymaster privateKeyToAccount cfg
         (Social.draftUserOp (Social.factory_getAddress rd)
            (Social.entryPoint_getNonce rd) initCode callData)
       = Returned pmSig
    /\ op = Utils.set_signature
              (Social.attachPaymaster cfg
                 (Social.draftUserOp (Social.factory_getAddress rd)
                    (Social.entryPoint_getNonce rd) initCode callData)
                 pmSig)
              ownerSig
    /\ Social.status (Social.after r) = "UserOperation sent.".
Proof.
  intros Hrun Hposted. unfold Social.sendUserOp in Hrun.
  destruct (Social.ownerPk s) as [pk |] eqn:Hpk.
  2: { inversion Hrun. subst r. discriminate. }
  destruct (falsy (Some pk)).
  { inversion Hrun. subst r. discriminate. }
  destruct (Social.uuidString s) as [uuid |] eqn:Huuid; [| discriminate].
  destruct (falsy (Some uuid)); [discriminate |].
  apply bindO_inv in Hrun as (r1 & Hens & Hrun).
  unfold Social.ensureSmartAccount in Hens.
  cbn [Social.setStatus Social.ownerPk Social.uuidString] in Hens.
  destruct (falsy (Social.ownerPk s)); [discriminate |].
  destruct (falsy (Social.uuidString s)); [discriminate |].
  inversion Hens. subst r1. clear Hens. cbn [fst snd] in Hrun.
  apply bindO_inv in Hrun as (logicCall & _ & Hrun).
  apply bindO_inv in Hrun as (callData & _ & Hrun).
  apply bindO_inv in Hrun as (initCode & Hinit & Hrun).
  apply lift_inv in Hinit.
  apply bindO_inv in Hrun as (pmSig & Hpm & Hrun).
  apply bindO_inv in Hrun as (opForHash & _ & Hrun).
  apply bindO_inv in Hrun as (ownerSig & _ & Hrun).
  match type of Hrun with
  | match ?b with _ => _ end = _ => destruct b as [json |]; [| discriminate]
  end.
  inversion Hrun. subst r. cbn [Social.posted Social.after] in *.
  inversion Hposted.
  exists pk, uuid, callData, initCode, pmSig, ownerSig.
  repeat split; assumption || reflexivity.
Qed.

End Pipeline.

(* ================================================================== *)
(** * The init payload *)
(* ================================================================== *)

Section InitPayload.

Variable privateKeyToAccount : string -> Viem.Account.
Variable cfg : Social.Config.

Lemma address_bytes_inv (a : string) (b : bytes) :
  Viem.address_bytes a = Some b -> Hex.parse a = Some b /\ length b = 20%nat.
Proof.
  intros H. pose proof (address_bytes_isAddress _ _ H) as Ia.
  unfold Viem.address_bytes in H. rewrite Ia in H.
  split; [exact H | exact (isAddress_length _ _ Ia H)].
Qed.

Lemma bytes32_bytes_inv (h : string) (b : bytes) :
  Viem.bytes32_bytes h = Some b -> Hex.parse h = Some b /\ length b = 32%nat.
Proof.
  unfold Viem.bytes32_bytes. destruct (Hex.parse h) as [x |]; [| discriminate].
  destruct (length x =? 32)%nat eqn:E; [| discriminate].
  intros H. inversion H. subst. apply Nat.eqb_eq in E. auto.
Qed.

Lemma length_show_byte (b : byte) : String.length (Hex.show_byte b) = 2%nat.
Proof. reflexivity. Qed.

Lemma length_show_digits (bs : bytes) :
  String.length (Hex.show_digits bs) = (2 * length bs)%nat.
Proof.
  induction bs as [| b bs IH]; cbn [Hex.show_digits length].
  - reflexivity.
  - rewrite length_append, length_show_byte, IH. lia.
Qed.

Lemma length_selector (sig : string) : length (Viem.selector sig) = 4%nat.
Proof.
  unfold Viem.selector. rewrite length_firstn, length_keccak256. reflexivity.
Qed.

Lemma createAccount_call_inv (uuid salt entryPoint owner call : string) :
  Viem.encodeFunctionData "createAccount"
    [Viem.AvString uuid; Viem.AvBytes32 salt; Viem.AvAddress entryPoint;
     Viem.AvAddress owner] = Some call ->
  exists bs ep o,
    (Hex.parse salt = Some bs /\ length bs = 32%nat)
    /\ (Hex.parse entryPoint = Some ep /\ length ep = 20%nat)
    /\ (Hex.parse owner = Some o /\ length o = 20%nat)
    /\ call = Hex.show (createAccount_call uuid bs ep o).
Proof.
  unfold Viem.encodeFunctionData, Viem.encodeAbiParameters.
  cbn [Viem.enc_params Viem.enc_value length Nat.mul Nat.add].
  destruct (Viem.bytes32_bytes salt) as [bs |] eqn:Hs; [| discriminate].
  destruct (Viem.address_bytes entryPoint) as [ep |] eqn:He; [| discriminate].
  destruct (Viem.address_bytes owner) as [o |] eqn:Ho; [| discriminate].
  cbn [fst snd]. intros H. apply Some_inj in H. subst call.
  exists bs, ep, o.
  apply bytes32_bytes_inv in Hs. apply address_bytes_inv in He, Ho.
  split; [exact Hs | split; [exact He | split; [exact Ho |]]].
  unfold createAccount_call, Viem.enc_dynamic.
  rewrite !app_nil_r, <- !app_assoc.
  change (Viem.signature "createAccount"
            [Viem.AvString uuid; Viem.AvBytes32 salt;
             Viem.AvAddress entryPoint; Viem.AvAddress owner])
    with createAccount_signature.
  reflexivity.
Qed.

Lemma resolveInitCode_empty_iff (exists_ : bool) (uuid owner h : string) :
  Social.resolveInitCode cfg exists_ uuid owner = Some h ->
  (h = "0x" <-> exists_ = true).
Proof.
  unfold Social.resolveInitCode. destruct exists_.
  - intros H. inversion H. tauto.
  - destruct (Viem.encodeFunctionData _ _) as [call |] eqn:E; [| discriminate].
    intros H. apply Some_inj in H. subst h.
    apply createAccount_call_inv in E as (bs & ep & o & _ & _ & _ & ->).
    split; [| discriminate].
    intros Habs. apply (f_equal String.length) in Habs.
    unfold Hex.show in Habs. cbn [append Js.slice] in Habs.
    rewrite length_append, length_show_digits in Habs.
    unfold createAccount_call in Habs.
    rewrite length_app, length_selector in Habs.
    cbn [String.length] in Habs. lia.
Qed.

Lemma posted_initCode (sender : string) (epNonce : Z)
    (initCode callData ownerSig : string) (pmSig : option string) :
  Utils.initCode
    (Utils.set_signature
       (Social.attachPaymaster cfg
          (Social.draftUserOp sender epNonce initCode callData) pmSig)
       ownerSig) = initCode.
Proof.
  unfold Social.attachPaymaster.
  destruct pmSig as [sig |]; [destruct (falsy (Some sig)) |]; reflexivity.
Qed.

(** The call the client encodes for a well-formed configuration. *)
Lemma createAccount_call_ok (uuid salt entryPoint owner : string)
    (bs ep o : bytes) :
  Hex.parse salt = Some bs -> length bs = 32%nat ->
  Viem.isAddress entryPoint = true -> Hex.parse entryPoint = Some ep ->
  Viem.isAddress owner = true -> Hex.parse owner = Some o ->
  Viem.encodeFunctionData "createAccount"
    [Viem.AvString uuid; Viem.AvBytes32 salt; Viem.AvAddress entryPoint;
     Viem.AvAddress owner]
  = Some (Hex.show (createAccount_call uuid bs ep o)).
Proof.
  intros Hs Ls Ie He Io Ho.
  unfold Viem.encodeFunctionData, Viem.encodeAbiParameters.
  cbn [Viem.enc_params Viem.enc_value length Nat.mul Nat.add].
  rewrite (bytes32_bytes_ok _ _ Hs Ls), (address_bytes_ok _ _ Ie He),
    (address_bytes_ok _ _ Io Ho).
  cbn [fst snd].
  unfold createAccount_call, Viem.enc_dynamic.
  rewrite !app_nil_r, <- !app_assoc.
  change (Viem.signature "createAccount"
            [Viem.AvString uuid; Viem.AvBytes32 salt;
             Viem.AvAddress entryPoint; Viem.AvAddress owner])
    with createAccount_signature.
  reflexivity.
Qed.

Lemma increment_call :
  Viem.encodeFunctionData "increment" [] = Some "0xd09de08a".
Proof. vm_compute. reflexivity. Qed.

Lemma execute_call_ok (target data : string) (d : bytes) :
  Viem.isAddress target = true -> Hex.parse data = Some d ->
  exists cd,
    Viem.encodeFunctionData "execute"
      [Viem.AvAddress target; Viem.AvUint256 0; Viem.AvBytes data]
    = Some (Hex.show cd).
Proof.
  intros It Hd. destruct (isAddress_shape _ It) as (t & Ht & _).
  unfold Viem.encodeFunctionData, Viem.encodeAbiParameters.
  cbn [Viem.enc_params Viem.enc_value length Nat.mul Nat.add].
  rewrite (address_bytes_ok _ _ It Ht), Hd.
  rewrite (uint256_bytes_ok 0) by (split; [lia | reflexivity]).
  cbn [fst snd]. eexists. reflexivity.
Qed.

(** [signPaymaster] returns on the operation [sendUserOp] drafts. *)
Lemma signPaymaster_draft (sender initCode : string) (cd : bytes) (n : Z) :
  Viem.isAddress sender = true -> 0 <= n < 2 ^ 256 ->
  exists pmSig,
    Social.signPaymaster privateKeyToAccount cfg
      (Social.draftUserOp sender n initCode (Hex.show cd))
    = Returned pmSig.
Proof.
  intros Is Hn. destruct (isAddress_shape _ Is) as (a & Ha & _).
  unfold Social.signPaymaster.
  destruct (Social.getPaymasterSignerPk _) as [pk |]; [| eauto].
  assert (Hd : Social.paymasterDigest
                 (Social.draftUserOp sender n initCode (Hex.show cd))
               = Some (Hex.show (Keccak.keccak256 (sponsor_preimage a cd n)))).
  { apply paymasterDigest_bytes.
    - exact Is.
    - exact Ha.
    - exact Hn.
    - apply parse_show.
    - unfold Social.draftUserOp, Utils.toHex. reflexivity. }
  rewrite Hd. cbn [lift bindO]. unfold Viem.signMessage. rewrite parse_show.
  cbn [lift bindO]. eexists. reflexivity.
Qed.

(** The drafted operation, sponsored or not, converts for the
    EntryPoint. *)
Lemma toEntryPointUserOp_draft (sender initCode callData : string) (n : Z)
    (pmSig : option string) :
  0 <= n ->
  exists e,
    Social.toEntryPointUserOp
      (Social.attachPaymaster cfg
         (Social.draftUserOp sender n initCode callData) pmSig)
    = Some e.
Proof.
  intros Hn. unfold Social.toEntryPointUserOp.
  assert (Hfields :
    forall o,
      o = Social.attachPaymaster cfg
            (Social.draftUserOp sender n initCode callData) pmSig ->
      Utils.nonce o = Utils.toHex n
      /\ Utils.callGasLimit o = "0x350000"
      /\ Utils.verificationGasLimit o = "0x150000"
      /\ Utils.preVerificationGas o = "0x40000"
      /\ Utils.maxFeePerGas o = "0x2540be400"
      /\ Utils.maxPriorityFeePerGas o = "0x2540be400").
  { intros o ->. destruct pmSig as [sig |]; cbn [Social.attachPaymaster];
      [destruct (falsy (Some sig)) |]; repeat split; reflexivity. }
  destruct (Hfields _ eq_refl) as (H1 & H2 & H3 & H4 & H5 & H6).
  rewrite H1, H2, H3, H4, H5, H6, (BigInt_toHex _ Hn).
  eexists. vm_compute Js.BigInt. reflexivity.
Qed.

(** A logged-in session with a well-formed configuration posts, and the
    init payload is the one step 5 resolves. *)
Lemma sendUserOp_posts (rd : Social.Reads) (s : Social.Session)
    (pk uuid : string) (bs ep o : bytes) :
  Social.ownerPk s = Some pk -> pk <> EmptyString ->
  Social.uuidString s = Some uuid -> uuid <> EmptyString ->
  Viem.isAddress (Social.logicAddress cfg) = true ->
  Hex.parse (Social.backendSalt cfg) = Some bs -> length bs = 32%nat ->
  Viem.isAddress (Social.entryPointAddress cfg) = true ->
  Hex.parse (Social.entryPointAddress cfg) = Some ep ->
  Viem.isAddress (Viem.address (privateKeyToAccount pk)) = true ->
  Hex.parse (Viem.address (privateKeyToAccount pk)) = Some o ->
  Viem.isAddress (Social.factory_getAddress rd) = true ->
  0 <= Social.entryPoint_getNonce rd < 2 ^ 256 ->
  (forall e, exists h, Hex.parse (Social.entryPoint_getUserOpHash rd e) = Some h) ->
  (forall rq, exists json, Social.bundler rd rq = Body json) ->
  exists r op,
    Social.sendUserOp privateKeyToAccount cfg rd s = Returned r
    /\ Social.posted r = Some op
    /\ Utils.initCode op
       = if Social.smartAccountExists (Social.code_second rd) then "0x"
         else (Social.factoryAddress cfg
                 ++ Hex.show_digits (createAccount_call uuid bs ep o))%string.
Proof.
  intros Hpk Npk Hu Nu Il Hs Ls Ie He Io Ho If Hn Hhash Hbundler.
  assert (Fpk : falsy (Some pk) = false).
  { unfold falsy. apply String.eqb_neq. exact Npk. }
  assert (Fu : falsy (Some uuid) = false).
  { unfold falsy. apply String.eqb_neq. exact Nu. }
  unfold Social.sendUserOp. rewrite Hpk, Fpk, Hu, Fu.
  unfold Social.ensureSmartAccount.
  cbn [Social.setStatus Social.ownerPk Social.uuidString].
  rewrite Hpk, Fpk, Hu, Fu. cbn [bindO fst snd].
  rewrite increment_call. cbn [lift bindO].
  destruct (execute_call_ok (Social.logicAddress cfg) "0xd09de08a"
              [xd0; x9d; xe0; x8a] Il eq_refl) as [cd Hcall].
  rewrite Hcall. cbn [lift bindO].
  assert (Hinit :
    Social.resolveInitCode cfg
      (Social.smartAccountExists (Social.code_second rd)) uuid
      (Viem.address (privateKeyToAccount pk))
    = Some (if Social.smartAccountExists (Social.code_second rd) then "0x"
            else (Social.factoryAddress cfg
                    ++ Hex.show_digits
                         (createAccount_call uuid bs ep o))%string)).
  { unfold Social.resolveInitCode.
    destruct (Social.smartAccountExists (Social.code_second rd));
      [reflexivity |].
    rewrite (createAccount_call_ok uuid _ _ _ bs ep o Hs Ls Ie He Io Ho).
    reflexivity. }
  rewrite Hinit. cbn [lift bindO].
  match goal with
  | |- context [Social.draftUserOp ?sd ?n ?ic (Hex.show cd)] =>
      destruct (signPaymaster_draft sd ic cd n If Hn) as [pmSig Hpm];
      destruct (toEntryPointUserOp_draft sd ic (Hex.show cd) n pmSig
                  (proj1 Hn)) as [e Hop]
  end.
  rewrite Hpm. cbn [bindO]. rewrite Hop. cbn [lift bindO].
  destruct (Hhash e) as [h Hh].
  unfold Viem.signMessage at 1. rewrite Hh. cbn [lift bindO].
  match goal with
  | |- context [Social.bundler rd ?rq] =>
      destruct (Hbundler rq) as [json Hb]; rewrite Hb
  end.
  do 2 eexists. split; [reflexivity |].
  cbn [Social.posted]. split; [reflexivity |].
  apply posted_initCode.
Qed.

(** C5. For every submission attempt of the 03-social client, the
    operation's [initCode] is the empty byte string "0x" exactly when the
    existence check made for that attempt ([smartAccountExists] on the
    code read in [sendUserOp]) reports true, and is non-empty exactly when
    it reports false; when non-empty it is the factory address followed by
    the ABI-encoded call
    [createAccount(uuidString, backendSalt, entryPoint, owner)]: selector,
    then the identity inputs and the initial owner's address.  This holds
    of every operation a run posts, and a logged-in session with a
    well-formed configuration does post one. *)
Theorem initCode_nonempty_iff_not_deployed
    (rd : Social.Reads) (s : Social.Session) :
  let exists_ := Social.smartAccountExists (Social.code_second rd) in
  (forall (r : Social.Sent) (op : Social.SimpleUserOperation),
     Social.sendUserOp privateKeyToAccount cfg rd s = Returned r ->
     Social.posted r = Some op ->
     (exists_ = true <-> Utils.initCode op = "0x")
     /\ (exists_ = false <-> Utils.initCode op <> "0x")
     /\ (exists_ = false ->
         exists pk uuid bs ep o,
           Social.ownerPk s = Some pk
           /\ Social.uuidString s = Some uuid
           /\ Hex.parse (Social.backendSalt cfg) = Some bs
           /\ Hex.parse (Social.entryPointAddress cfg) = Some ep
           /\ Hex.parse (Viem.address (privateKeyToAccount pk)) = Some o
           /\ Utils.initCode op
              = (Social.factoryAddress cfg
                   ++ Js.slice 2
                        (Hex.show (createAccount_call uuid bs ep o)))%string
           /\ forall f, Hex.parse (Social.factoryAddress cfg) = Some f ->
                Hex.parse (Utils.initCode op)
                = Some (f ++ createAccount_call uuid bs ep o)))
  /\ (forall (pk uuid : string) (bs ep o : bytes),
        Social.ownerPk s = Some pk -> pk <> EmptyString ->
        Social.uuidString s = Some uuid -> uuid <> EmptyString ->
        Viem.isAddress (Social.logicAddress cfg) = true ->
        Hex.parse (Social.backendSalt cfg) = Some bs -> length bs = 32%nat ->
        Viem.isAddress (Social.entryPointAddress cfg) = true ->
        Hex.parse (Social.entryPointAddress cfg) = Some ep ->
        Viem.isAddress (Viem.address (privateKeyToAccount pk)) = true ->
        Hex.parse (Viem.address (privateKeyToAccount pk)) = Some o ->
        Viem.isAddress (Social.factory_getAddress rd) = true ->
        0 <= Social.entryPoint_getNonce rd < 2 ^ 256 ->
        (forall e, exists h,
           Hex.parse (Social.entryPoint_getUserOpHash rd e) = Some h) ->
        (forall rq, exists json, Social.bundler rd rq = Body json) ->
        exists r op,
          Social.sendUserOp privateKeyToAccount cfg rd s = Returned r
          /\ Social.posted r = Some op
          /\ Utils.initCode op
             = (if exists_ then "0x"
                else (Social.factoryAddress cfg
                        ++ Hex.show_digits
                             (createAccount_call uuid bs ep o))%string)
          /\ (exists_ = false ->
              forall f, Hex.parse (Social.factoryAddress cfg) = Some f ->
                Hex.parse (Utils.initCode op)
                = Some (f ++ createAccount_call uuid bs ep o))).
Proof.
  intros exists_. split.
  - intros r op Hrun Hposted.
    destruct (sendUserOp_inv privateKeyToAccount cfg rd s r op Hrun Hposted)
      as (pk & uuid & callData & initCode & pmSig & ownerSig
          & Hpk & Huuid & Hinit & _ & Hop & _).
    assert (Hic : Utils.initCode op = initCode)
      by (rewrite Hop; apply posted_initCode).
    fold exists_ in Hinit.
    pose proof (resolveInitCode_empty_iff _ _ _ _ Hinit) as Hiff.
    rewrite Hic.
    split; [tauto | split].
    + destruct exists_; split; intros H; try congruence.
      * exfalso. apply H. tauto.
      * intros E. apply Hiff in E. discriminate.
    + intros Hfalse. rewrite Hfalse in Hinit.
      unfold Social.resolveInitCode in Hinit.
      destruct (Viem.encodeFunctionData _ _) as [call |] eqn:E;
        [| discriminate].
      apply Some_inj in Hinit. subst initCode.
      apply createAccount_call_inv in E
        as (bs & ep & o & [Hbs _] & [Hep _] & [Ho _] & ->).
      exists pk, uuid, bs, ep, o.
      repeat (split; [assumption |]).
      split; [reflexivity |].
      intros f Hf. apply parse_concat_slice; [exact Hf | apply parse_show].
  - intros pk uuid bs ep o Hpk Npk Hu Nu Il Hs Ls Ie He Io Ho If Hn Hhash Hb.
    destruct (sendUserOp_posts rd s pk uuid bs ep o Hpk Npk Hu Nu Il Hs Ls Ie
                He Io Ho If Hn Hhash Hb) as (r & op & Hrun & Hposted & Hic).
    exists r, op. fold exists_ in Hic.
    split; [exact Hrun | split; [exact Hposted | split; [exact Hic |]]].
    intros Hfalse f Hf. rewrite Hic, Hfalse.
    apply (parse_concat_slice _ (Hex.show _)); [exact Hf | apply parse_show].
Qed.

(** The existence check on typical answers of [getCode]. *)
Example smartAccountExists_cases :
  Social.smartAccountExists None = false
  /\ Social.smartAccountExists (Some "") = false
  /\ Social.smartAccountExists (Some "0x") = false
  /\ Social.smartAccountExists (Some "0X0") = false
  /\ Social.smartAccountExists (Some "0x6080604052") = true.
Proof. repeat split. Qed.

End InitPayload.

(** First use: the demo session posts an operation whose init payload
    is the factory address followed by the [createAccount] call for the
    demo user and owner. *)
Lemma initCode_nonempty_iff_not_deployed_witness :
  exists r op,
    Social.sendUserOp SocialDemo.privateKeyToAccount SocialDemo.config
      (SocialDemo.reads (Some "0x") SocialDemo.accepted_reply)
      SocialDemo.session = Returned r
    /\ Social.posted r = Some op
    /\ Utils.initCode op
       = ("0x00000000000000000000000000000000000000fa"
            ++ Hex.show_digits
                 (createAccount_call "user-42:V2"
                    (Keccak.keccak256 (utf8 "backend-salt"))
                    Demo.address_bytes Demo.address_bytes))%string.
Proof.
  destruct (proj2 (initCode_nonempty_iff_not_deployed
                     SocialDemo.privateKeyToAccount SocialDemo.config
                     (SocialDemo.reads (Some "0x") SocialDemo.accepted_reply)
                     SocialDemo.session)
              "0x01" "user-42:V2" (Keccak.keccak256 (utf8 "backend-salt"))
              Demo.address_bytes Demo.address_bytes
              ltac:(reflexivity) ltac:(discriminate)
              ltac:(reflexivity) ltac:(discriminate)
              ltac:(vm_compute; reflexivity)
              ltac:(vm_compute; reflexivity) ltac:(vm_compute; reflexivity)
              ltac:(vm_compute; reflexivity) ltac:(vm_compute; reflexivity)
              ltac:(vm_compute; reflexivity) ltac:(vm_compute; reflexivity)
              ltac:(vm_compute; reflexivity)
              ltac:(vm_compute; split; [discriminate | reflexivity])
              ltac:(intros e; eexists; apply parse_show)
              ltac:(intros rq; eexists; reflexivity))
    as (r & op & H1 & H2 & H3 & _).
  exists r, op. split; [exact H1 | split; [exact H2 | exact H3]].
Defined.

(* ================================================================== *)
(** * The sponsor payload *)
(* ================================================================== *)

Section SponsorPayload.

Variable privateKeyToAccount : string -> Viem.Account.
Variable ecrecover : bytes -> Z -> bytes -> bytes -> Z.

Lemma signMessage_inv (acc : Viem.Account) (raw sigHex : string) :
  Viem.signMessage acc raw = Some sigHex ->
  exists m, Hex.parse raw = Some m
            /\ sigHex = Hex.show (Viem.sign acc (Viem.hashMessage m)).
Proof.
  unfold Viem.signMessage. destruct (Hex.parse raw) as [m |]; [| discriminate].
  intros H. apply Some_inj in H. eauto.
Qed.

(** [buildPaymasterAndData] returns the address string followed by the
    hex digits of the signature over the wrapped sponsor digest. *)
Lemma buildPaymasterAndData_inv (paymasterAddress paymasterPk pnd : string)
    (params : Utils.SponsorParams) :
  Utils.buildPaymasterAndData privateKeyToAccount paymasterAddress paymasterPk
    params = Some pnd ->
  exists digest,
    Utils.pmHash params = Some (Hex.show digest)
    /\ pnd = (paymasterAddress
               ++ Js.slice 2
                    (Hex.show (Viem.sign (privateKeyToAccount paymasterPk)
                                 (Viem.hashMessage digest))))%string.
Proof.
  unfold Utils.buildPaymasterAndData.
  destruct (Utils.pmHash params) as [h |] eqn:Hh; [| discriminate].
  destruct (Viem.signMessage _ h) as [sigHex |] eqn:Hs; [| discriminate].
  intros H. apply Some_inj in H. subst pnd.
  apply signMessage_inv in Hs as (m & Hm & ->).
  exists m. split; [| reflexivity].
  unfold Utils.pmHash in Hh.
  destruct (Viem.encodePacked _) as [packed |]; [| discriminate].
  unfold Viem.keccak256 in Hh.
  destruct (Hex.parse packed) as [b |]; [| discriminate].
  apply Some_inj in Hh. subst h.
  rewrite parse_show in Hm. apply Some_inj in Hm. subst m. reflexivity.
Qed.

Lemma validatePaymasterUserOp_wrong_length
    (self : Sol.DemoPaymaster) (msg_sender : Z) (op : Sol.UserOperation) :
  length (Sol.paymasterAndData op) <> 85%nat ->
  Sol.validatePaymasterUserOp ecrecover self msg_sender op
  = if msg_sender =? Sol.pm_entryPoint self
    then Sol.Revert "invalid paymasterAndData length"
    else Sol.Revert "only entrypoint".
Proof.
  intros H. unfold Sol.validatePaymasterUserOp, Sol.require.
  destruct (msg_sender =? Sol.pm_entryPoint self); [| reflexivity].
  apply Nat.eqb_neq in H. cbn [Nat.add] in *. rewrite H. reflexivity.
Qed.

(** C6. The sponsor payload of an operation is either empty
    ([buildUserOperation] sets "0x") or, once [buildPaymasterAndData] has
    filled it, exactly 20 + 65 = 85 bytes: the sponsor's 20-byte address
    immediately followed by the 65-byte signature, nothing between or
    before them, the signature being the sponsor key's signature over the
    wrapped sponsor digest of the operation's sender, call payload and
    nonce; and [validatePaymasterUserOp] reverts on a payload of any
    other length. *)
Theorem sponsor_payload_is_address_then_signature
    (paymasterAddress paymasterPk pnd : string) (pa : bytes)
    (params : Utils.SponsorParams) (p : Utils.BuildParams)
    (self : Sol.DemoPaymaster) (msg_sender : Z) (op : Sol.UserOperation) :
  Hex.parse paymasterAddress = Some pa -> length pa = 20%nat ->
  (forall h, length (Viem.sign (privateKeyToAccount paymasterPk) h) = 65%nat) ->
  Utils.buildPaymasterAndData privateKeyToAccount paymasterAddress paymasterPk
    params = Some pnd ->
  (Utils.paymasterAndData (Utils.buildUserOperation p) = "0x"
   /\ Hex.parse "0x" = Some [])
  /\ (exists a cd,
        Hex.parse (Utils.s_sender params) = Some a
        /\ Hex.parse (Utils.s_callData params) = Some cd
        /\ let sig :=
             Viem.sign (privateKeyToAccount paymasterPk)
               (Keccak.keccak256
                  (x19 :: utf8 "Ethereum Signed Message:" ++ [x0a]
                     ++ utf8 "32"
                     ++ Keccak.keccak256
                          (a ++ cd ++ be 32 (Utils.s_nonce params)))) in
           pnd = (paymasterAddress ++ Hex.show_digits sig)%string
           /\ Hex.parse pnd = Some (pa ++ sig)
           /\ length sig = 65%nat
           /\ length (pa ++ sig) = (20 + 65)%nat
           /\ firstn 20 (pa ++ sig) = pa
           /\ skipn 20 (pa ++ sig) = sig)
  /\ (length (Sol.paymasterAndData op) <> 85%nat ->
      exists reason,
        Sol.validatePaymasterUserOp ecrecover self msg_sender op
        = Sol.Revert reason).
Proof.
  intros Hpa Lpa Hsig Hbuild. split; [split; reflexivity | split].
  - apply buildPaymasterAndData_inv in Hbuild as (digest & Hd & ->).
    destruct (pmHash_inv _ _ Hd) as (a & cd & _ & Ha & Hcd & _ & Hshow).
    assert (Hdig : digest
                   = Keccak.keccak256
                       (sponsor_preimage a cd (Utils.s_nonce params))).
    { apply (f_equal Hex.parse) in Hshow. rewrite !parse_show in Hshow.
      apply Some_inj in Hshow. exact Hshow. }
    assert (Hwrap : Viem.hashMessage digest
                    = Keccak.keccak256
                        (x19 :: utf8 "Ethereum Signed Message:" ++ [x0a]
                           ++ utf8 "32"
                           ++ Keccak.keccak256
                                (a ++ cd ++ be 32 (Utils.s_nonce params)))).
    { rewrite hashMessage_32 by (rewrite Hdig; apply length_keccak256).
      rewrite Hdig. reflexivity. }
    rewrite Hwrap. exists a, cd.
    split; [exact Ha | split; [exact Hcd |]]. cbv zeta.
    split; [reflexivity | split; [| split; [| split; [| split]]]].
    + apply parse_concat_slice; [exact Hpa | apply parse_show].
    + apply Hsig.
    + rewrite length_app, Lpa, Hsig. reflexivity.
    + rewrite <- Lpa, firstn_app, firstn_all, Nat.sub_diag.
      cbn [firstn]. apply app_nil_r.
    + rewrite <- Lpa, skipn_app, skipn_all, Nat.sub_diag. reflexivity.
  - intros Hlen. rewrite validatePaymasterUserOp_wrong_length by exact Hlen.
    destruct (msg_sender =? Sol.pm_entryPoint self); eauto.
Qed.

End SponsorPayload.

(** In the 03-social client too the payload is "0x" or address followed
    by signature, provided the configured paymaster address is a 20-byte
    address. *)
Lemma attachPaymaster_payload
    (privateKeyToAccount : string -> Viem.Account) (cfg : Social.Config)
    (userOp : Social.SimpleUserOperation) (pmSig : option string) (pa : bytes) :
  Hex.parse (Social.paymasterAddress cfg) = Some pa ->
  (forall pk h, length (Viem.sign (privateKeyToAccount pk) h) = 65%nat) ->
  Social.signPaymaster privateKeyToAccount cfg userOp = Returned pmSig ->
  Utils.paymasterAndData (Social.attachPaymaster cfg userOp pmSig)
    = Utils.paymasterAndData userOp
  \/ exists sig,
       Hex.parse (Utils.paymasterAndData (Social.attachPaymaster cfg userOp pmSig))
       = Some (pa ++ sig)
       /\ length sig = 65%nat.
Proof.
  intros Hpa Hsig Hsp. unfold Social.signPaymaster in Hsp.
  destruct (Social.getPaymasterSignerPk _) as [pk |].
  - apply bindO_inv in Hsp as (digest & _ & Hsp).
    apply bindO_inv in Hsp as (sigHex & Hs & Hsp).
    apply lift_inv in Hs. inversion Hsp. subst pmSig.
    apply signMessage_inv in Hs as (m & _ & ->).
    right. exists (Viem.sign (privateKeyToAccount pk) (Viem.hashMessage m)).
    split; [| apply Hsig].
    unfold Social.attachPaymaster. cbn [falsy Hex.show append String.eqb].
    cbn [Utils.set_paymasterAndData Utils.paymasterAndData].
    apply (parse_concat_slice _ (Hex.show _)); [exact Hpa | apply parse_show].
  - inversion Hsp. left. reflexivity.
Qed.

(** The payload built for the demo operation: the 20 address bytes,
    then the stand-in signer's 65-byte signature over the wrapped sponsor
    digest. *)
Lemma sponsor_payload_is_address_then_signature_witness :
  Hex.parse sponsor_payload_example
  = Some ((zeros 19 ++ [xaa])
            ++ Demo.test_sign
                 (eip191_wrap
                    (Keccak.keccak256
                       (Demo.address_bytes ++ Demo.increment_bytes
                          ++ be 32 5))))
  /\ length
       (Demo.test_sign
          (eip191_wrap
             (Keccak.keccak256
                (Demo.address_bytes ++ Demo.increment_bytes ++ be 32 5))))
     = 65%nat.
Proof.
  destruct (sponsor_payload_is_address_then_signature
              SocialDemo.privateKeyToAccount Demo.test_ecrecover
              "0x00000000000000000000000000000000000000aa" "0x02"
              sponsor_payload_example (zeros 19 ++ [xaa])
              {| Utils.s_sender := Demo.address_hex;
                 Utils.s_callData := Demo.increment_hex;
                 Utils.s_nonce := 5 |}
              {| Utils.p_sender := Demo.address_hex; Utils.p_nonce := 5;
                 Utils.p_callData := Demo.increment_hex;
                 Utils.p_maxFeePerGas := 1; Utils.p_maxPriorityFeePerGas := 1 |}
              {| Sol.pm_entryPoint := 1; Sol.pm_owner := 2; Sol.pm_signer := 3 |}
              1 Demo.onchain_op
              ltac:(reflexivity) ltac:(reflexivity)
              ltac:(intros h; reflexivity)
              ltac:(vm_compute; reflexivity))
    as (_ & (a & cd & Ha & Hcd & _ & H1 & H2 & _) & _).
  apply Some_inj in Ha. apply Some_inj in Hcd. subst a cd.
  split; [exact H1 | exact H2].
Defined.

(* ================================================================== *)
(** * The relay's reply to a submission *)
(* ================================================================== *)

Section RelayReply.

(** 01-simple and 02-paymaster: the reply is accepted exactly when its
    [result] is a non-empty string, which is then the tracking hash; every
    other reply raises the error. *)
Lemma checkSendResponse_accepts (sendRes : JsValue) (h : string) :
  Main.checkSendResponse sendRes = Returned h
  <-> prop sendRes "result" = Some (JString h) /\ h <> "".
Proof.
  unfold Main.checkSendResponse.
  destruct (prop sendRes "result") as [result |];
    [| split; [discriminate | intros [H _]; discriminate]].
  destruct result as [| | b | n | s | items | fields];
    cbn [truthy typeof negb orb String.eqb];
    try (split; [discriminate | intros [H _]; discriminate]).
  - destruct b; cbn; split; try discriminate; intros [H _]; discriminate.
  - destruct (n =? 0); cbn; split; try discriminate; intros [H _]; discriminate.
  - destruct (String.eqb s "") eqn:E; cbn [negb orb].
    + apply String.eqb_eq in E. subst s. split; [discriminate |].
      intros [H Hne]. inversion H. congruence.
    + apply String.eqb_neq in E. cbn. split.
      * intros H. inversion H. subst. auto.
      * intros [H _]. inversion H. reflexivity.
Qed.

(** Every other reply raises an error: the client's own, or the
    [TypeError] of reading [result] off a [null] body. *)
Lemma checkSendResponse_rejects (sendRes : JsValue) :
  (forall h, prop sendRes "result" = Some (JString h) -> h = "") ->
  exists e, Main.checkSendResponse sendRes = Thrown e.
Proof.
  intros H. unfold Main.checkSendResponse.
  destruct (prop sendRes "result") as [result |]; [| eauto].
  destruct result as [| | b | n | s | items | fields]; try (cbn; eauto; fail).
  - destruct b; cbn; eauto.
  - cbn [truthy typeof]. destruct (n =? 0); cbn; eauto.
  - rewrite (H s eq_refl). cbn. eauto.
Qed.

(** The error a refused reply raises: the client's own, or the
    [TypeError] of reading [result] off a [null] body. *)
Lemma checkSendResponse_error (sendRes : JsValue) :
  (forall h, prop sendRes "result" = Some (JString h) -> h = EmptyString) ->
  Main.checkSendResponse sendRes
  = Thrown (match prop sendRes "result" with
            | Some _ =>
                ErrorMsg "Bundler did not return a valid operation hash"
            | None => LibraryError
            end).
Proof.
  intros H. unfold Main.checkSendResponse.
  destruct (prop sendRes "result") as [result |]; [| reflexivity].
  destruct result as [| | b | n | s | items | fields]; try reflexivity.
  - destruct b; reflexivity.
  - cbn [truthy typeof]. destruct (n =? 0); reflexivity.
  - rewrite (H s eq_refl). reflexivity.
Qed.

(** X27. In both [main]s an accepted submission is polled with the hash
    the bundler returned.  After a refused one nothing is polled: the run
    has sent the submission and nothing else, [waitForReceipt] is never
    called, the client's error is thrown (a [TypeError] on a [null] body),
    and the run is the same whatever the relay would answer to any later
    request. *)
Lemma submitAndWait_checks_reply (fuel : nat) (relay : Relay)
    (BUNDLER_URL : string) (userOp entryPoint sendRes : JsValue) :
  relay O (Main.sendRequest BUNDLER_URL userOp entryPoint) = Body sendRes ->
  (forall h, prop sendRes "result" = Some (JString h) -> h <> EmptyString ->
     Main.submitAndWait fuel relay BUNDLER_URL userOp entryPoint
     = {| Main.sent := [Main.sendRequest BUNDLER_URL userOp entryPoint];
          Main.polled := Some h;
          Main.outcome :=
            Poller.waitForReceipt fuel (fun k => relay (S k)) BUNDLER_URL h |})
  /\ ((forall h, prop sendRes "result" = Some (JString h) -> h = EmptyString) ->
      Main.submitAndWait fuel relay BUNDLER_URL userOp entryPoint
      = {| Main.sent := [Main.sendRequest BUNDLER_URL userOp entryPoint];
           Main.polled := None;
           Main.outcome :=
             Thrown (match prop sendRes "result" with
                     | Some _ =>
                         ErrorMsg
                           "Bundler did not return a valid operation hash"
                     | None => LibraryError
                     end) |}
      /\ forall (later : Relay) (fuel' : nat),
           later O (Main.sendRequest BUNDLER_URL userOp entryPoint)
           = Body sendRes ->
           Main.submitAndWait fuel' later BUNDLER_URL userOp entryPoint
           = Main.submitAndWait fuel relay BUNDLER_URL userOp entryPoint).
Proof.
  intros Hr. split.
  - intros h Hp Hne. unfold Main.submitAndWait. cbv zeta. rewrite Hr.
    rewrite (proj2 (checkSendResponse_accepts sendRes h) (conj Hp Hne)).
    reflexivity.
  - intros H.
    assert (Hrun : forall rl fl,
              rl O (Main.sendRequest BUNDLER_URL userOp entryPoint)
              = Body sendRes ->
              Main.submitAndWait fl rl BUNDLER_URL userOp entryPoint
              = {| Main.sent :=
                     [Main.sendRequest BUNDLER_URL userOp entryPoint];
                   Main.polled := None;
                   Main.outcome :=
                     Thrown (match prop sendRes "result" with
                             | Some _ =>
                                 ErrorMsg
                                   "Bundler did not return a valid operation hash"
                             | None => LibraryError
                             end) |}).
    { intros rl fl Hrl. unfold Main.submitAndWait. cbv zeta.
      rewrite Hrl, (checkSendResponse_error sendRes H). reflexivity. }
    split; [apply Hrun; exact Hr |].
    intros later fuel' Hl. rewrite (Hrun later fuel' Hl), (Hrun relay fuel Hr).
    reflexivity.
Qed.

(** 03-social: the outcome of [sendUserOp] does not depend on what the
    bundler replied. *)
Lemma sendUserOp_ignores_reply
    (privateKeyToAccount : string -> Viem.Account) (cfg : Social.Config)
    (rd : Social.Reads) (s : Social.Session) (reply reply' : JsValue) :
  Social.sendUserOp privateKeyToAccount cfg (with_reply rd reply) s
  = Social.sendUserOp privateKeyToAccount cfg (with_reply rd reply') s.
Proof.
  unfold Social.sendUserOp, Social.ensureSmartAccount, with_reply.
  cbn [Social.factory_getAddress Social.code_first Social.code_second
       Social.entryPoint_getNonce Social.entryPoint_getUserOpHash
       Social.bundler].
  reflexivity.
Qed.

(** C7, at the failing input.  The bundler rejects the operation with an
    error object and no [result].  The 01-simple and 02-paymaster clients
    raise "Bundler did not return a valid operation hash" on this reply;
    the 03-social client returns normally and shows "UserOperation sent.",
    exactly as it does for an accepted operation. *)
Theorem sendUserOp_accepts_error_reply :
  prop SocialDemo.error_reply "result" = Some JUndefined
  /\ Main.checkSendResponse SocialDemo.error_reply
     = Thrown (ErrorMsg "Bundler did not return a valid operation hash")
  /\ Social.sendUserOp SocialDemo.privateKeyToAccount SocialDemo.config
       (SocialDemo.reads (Some "0x6080604052") SocialDemo.error_reply)
       SocialDemo.session
     = Returned SocialDemo.rejected_use
  /\ SocialDemo.rejected_use = SocialDemo.later_use
  /\ Social.status (Social.after SocialDemo.rejected_use) = "UserOperation sent."
  /\ Social.onSendOpClick SocialDemo.privateKeyToAccount SocialDemo.config
       (SocialDemo.reads (Some "0x6080604052") SocialDemo.error_reply)
       SocialDemo.session
     = "UserOperation sent.".
Proof.
  repeat (split; [vm_compute; reflexivity |]).
  vm_compute. reflexivity.
Qed.

End RelayReply.

(* ================================================================== *)
(** * Further properties of the contracts *)
(* ================================================================== *)

Section ContractProperties.

Variable ecrecover : bytes -> Z -> bytes -> bytes -> Z.

Lemma split_layout (r s : bytes) (v : byte) :
  length r = 32%nat -> length s = 32%nat ->
  nth 64 (r ++ s ++ [v]) x00 = v
  /\ firstn 32 (r ++ s ++ [v]) = r
  /\ firstn 32 (skipn 32 (r ++ s ++ [v])) = s
  /\ length (r ++ s ++ [v]) = 65%nat.
Proof.
  intros Lr Ls.
  assert (Hskip : skipn 32 (r ++ s ++ [v]) = s ++ [v]).
  { rewrite skipn_app, Lr, Nat.sub_diag, skipn_all2 by lia. reflexivity. }
  repeat split.
  - rewrite app_nth2 by lia. rewrite Lr. rewrite app_nth2 by lia.
    rewrite Ls. reflexivity.
  - rewrite firstn_app, Lr, Nat.sub_diag, firstn_all2 by lia.
    cbn [firstn]. apply app_nil_r.
  - rewrite Hskip, firstn_app, Ls, Nat.sub_diag, firstn_all2 by lia.
    cbn [firstn]. apply app_nil_r.
  - rewrite !length_app, Lr, Ls. reflexivity.
Qed.

(** X1. [split] and [_split] read a signature laid out as r (32 bytes),
    s (32 bytes), v (1 byte), the layout viem serializes, and give back
    exactly those three parts; a signature of any other length than 65
    is refused. *)
Theorem split_reads_r_s_v (r s : bytes) (v : byte) :
  length r = 32%nat -> length s = 32%nat ->
  Sol.split (r ++ s ++ [v]) = Sol.Ok (Z_of_byte v, r, s)
  /\ Sol._split (r ++ s ++ [v]) = Sol.Ok (Z_of_byte v, r, s)
  /\ (forall sig, length sig <> 65%nat ->
        Sol.split sig = Sol.Revert "bad sig"
        /\ Sol._split sig = Sol.Revert "invalid signature length").
Proof.
  intros Lr Ls.
  destruct (split_layout r s v Lr Ls) as (Hv & Hr & Hs & Hl).
  split; [| split].
  - unfold Sol.split, Sol.require. rewrite Hl, Hv, Hr, Hs. reflexivity.
  - unfold Sol._split, Sol.require. rewrite Hl, Hv, Hr, Hs. reflexivity.
  - intros sig Hsig. apply Nat.eqb_neq in Hsig.
    unfold Sol.split, Sol._split, Sol.require. rewrite Hsig. split; reflexivity.
Qed.



(** X4. What the 02-paymaster client builds is what the paymaster accepts:
    for the payload [buildPaymasterAndData] returns, carried on chain with
    the same sender, call data and nonce, [validatePaymasterUserOp] called
    by the EntryPoint returns the empty context and validation data 0 as
    soon as [ecrecover] recovers the paymaster's signer from the
    signature. *)
Theorem validatePaymasterUserOp_accepts_client_payload
    (privateKeyToAccount : string -> Viem.Account)
    (self : Sol.DemoPaymaster)
    (paymasterAddress paymasterPk pnd sender callData : string)
    (pa a cd : bytes) (n : Z) (op : Sol.UserOperation) :
  Hex.parse paymasterAddress = Some pa -> length pa = 20%nat ->
  Hex.parse sender = Some a -> length a = 20%nat ->
  0 <= n < 2 ^ 256 ->
  Hex.parse callData = Some cd ->
  Sol.sender op = from_be a -> Sol.nonce op = n -> Sol.callData op = cd ->
  Utils.buildPaymasterAndData privateKeyToAccount paymasterAddress paymasterPk
    {| Utils.s_sender := sender; Utils.s_callData := callData;
       Utils.s_nonce := n |} = Some pnd ->
  Hex.parse pnd = Some (Sol.paymasterAndData op) ->
  (forall h, length (Viem.sign (privateKeyToAccount paymasterPk) h) = 65%nat) ->
  (let sig := skipn 20 (Sol.paymasterAndData op) in
   ecrecover (eip191_wrap (Sol.validatePaymasterUserOp_hash op))
     (Z_of_byte (nth 64 sig x00)) (firstn 32 sig) (firstn 32 (skipn 32 sig))
   = Sol.pm_signer self) ->
  skipn 20 (Sol.paymasterAndData op)
    = Viem.sign (privateKeyToAccount paymasterPk)
        (eip191_wrap (Sol.validatePaymasterUserOp_hash op))
  /\ Sol.validatePaymasterUserOp ecrecover self (Sol.pm_entryPoint self) op
     = Sol.Ok ([], 0).
Proof.
  intros Hpa Lpa Ha La Hn Hcd Hs Hnonce Hdata Hbuild Hpnd Hlen Hrec.
  apply buildPaymasterAndData_inv in Hbuild as (digest & Hd & ->).
  destruct (pmHash_inv _ _ Hd) as (a' & cd' & Ia & _).
  cbn [Utils.s_sender] in Ia.
  rewrite (pmHash_bytes sender callData a cd n Ia Ha Hn Hcd) in Hd.
  apply Some_inj in Hd.
  assert (Hdig : digest = Keccak.keccak256 (sponsor_preimage a cd n)).
  { apply (f_equal Hex.parse) in Hd. rewrite !parse_show in Hd.
    apply Some_inj in Hd. symmetry. exact Hd. }
  assert (Hh : Sol.validatePaymasterUserOp_hash op = digest).
  { rewrite (validatePaymasterUserOp_hash_bytes op a La Hs), Hnonce, Hdata.
    symmetry. exact Hdig. }
  rewrite (parse_concat_slice _ (Hex.show _) pa _ Hpa (parse_show _)) in Hpnd.
  apply Some_inj in Hpnd.
  assert (Hsig : skipn 20 (Sol.paymasterAndData op)
                 = Viem.sign (privateKeyToAccount paymasterPk)
                     (eip191_wrap (Sol.validatePaymasterUserOp_hash op))).
  { rewrite <- Hpnd, <- Lpa, skipn_app, skipn_all, Nat.sub_diag.
    cbn [skipn app]. rewrite Hh, hashMessage_32; [reflexivity |].
    rewrite Hdig. apply length_keccak256. }
  split; [exact Hsig |].
  unfold Sol.validatePaymasterUserOp, Sol.require.
  rewrite Z.eqb_refl.
  assert (L85 : length (Sol.paymasterAndData op) = (20 + 65)%nat).
  { rewrite <- Hpnd, length_app, Lpa, Hlen. reflexivity. }
  apply Nat.eqb_eq in L85. rewrite L85.
  assert (Hfirst : firstn (85 - 20) (skipn 20 (Sol.paymasterAndData op))
                   = skipn 20 (Sol.paymasterAndData op)).
  { apply firstn_all2. rewrite Hsig, Hlen. cbn. lia. }
  rewrite Hfirst, _recover_wrap. unfold Sol._split, Sol.require.
  rewrite Hsig at 1. rewrite Hlen. cbn [Nat.eqb].
  cbv zeta in Hrec. rewrite Hrec, Z.eqb_refl. reflexivity.
Qed.

End ContractProperties.

Section AccountProperties.

Variable ecrecover : bytes -> Z -> bytes -> bytes -> Z.
Variable isValidSignatureNow : Z -> bytes -> bytes -> bool.

(** X5. Owner rotation in the 01-simple account: only the current owner
    can call [setOwner]; after it, an operation whose signature recovers
    to the old owner is refused with "invalid signature", and one whose
    signature recovers to the new owner is accepted. *)
Theorem setOwner_rotates_validation
    (self self' : Sol.DemoAccount) (msg_sender newOwner : Z)
    (op : Sol.UserOperation) (v : Z) (r s : bytes) :
  Account01.setOwner self msg_sender newOwner = Sol.Ok self' ->
  Sol.split (Sol.signature op) = Sol.Ok (v, r, s) ->
  msg_sender = Sol.owner self
  /\ Sol.owner self' = newOwner
  /\ Sol.entryPoint self' = Sol.entryPoint self
  /\ (forall caller, caller <> Sol.owner self ->
        Account01.setOwner self caller newOwner = Sol.Revert "not owner")
  /\ (ecrecover (eip191_wrap (Sol.validateUserOp_hash op)) v r s = newOwner ->
      Sol.validateUserOp ecrecover self' (Sol.entryPoint self') op 0
      = Sol.Ok (0, None))
  /\ (ecrecover (eip191_wrap (Sol.validateUserOp_hash op)) v r s <> newOwner ->
      Sol.validateUserOp ecrecover self' (Sol.entryPoint self') op 0
      = Sol.Revert "invalid signature").
Proof.
  intros Hset Hsplit. unfold Account01.setOwner, Sol.require in Hset.
  destruct (msg_sender =? Sol.owner self) eqn:E; [| discriminate].
  apply Z.eqb_eq in E. inversion Hset. subst self'. cbn [Sol.owner Sol.entryPoint].
  split; [exact E | split; [reflexivity | split; [reflexivity | split; [| split]]]].
  - intros caller Hc. unfold Account01.setOwner, Sol.require.
    apply Z.eqb_neq in Hc. rewrite Hc. reflexivity.
  - intros Hrec.
    pose proof (validateUserOp_unfold ecrecover
                  {| Sol.owner := newOwner; Sol.entryPoint := Sol.entryPoint self |}
                  op 0) as H.
    cbn [Sol.owner Sol.entryPoint] in H. rewrite H, Hsplit, Hrec, Z.eqb_refl.
    reflexivity.
  - intros Hrec.
    pose proof (validateUserOp_unfold ecrecover
                  {| Sol.owner := newOwner; Sol.entryPoint := Sol.entryPoint self |}
                  op 0) as H.
    cbn [Sol.owner Sol.entryPoint] in H. rewrite H, Hsplit.
    apply Z.eqb_neq in Hrec. rewrite Hrec. reflexivity.
Qed.

(** X6. Replay protection of the 03-social account: a successful
    [validateUserOp] returns 0, was called by the EntryPoint, requires
    the operation's nonce to equal the account's and advances the
    account's nonce by one, leaving every other field of the account
    (owner, recovery admin, EntryPoint, initialized flag) as it was;
    validating the same operation again then fails with "Bad nonce". *)
Theorem validateUserOp_no_replay
    (self self' : Factory.DemoAccount) (msg_sender result : Z)
    (userOp : Sol.UserOperation) (userOpHash : bytes) :
  Factory.validateUserOp isValidSignatureNow self msg_sender userOp userOpHash
    = Sol.Ok (result, self') ->
  result = 0
  /\ msg_sender = Factory.entryPoint self
  /\ Sol.nonce userOp = Factory.nonce self
  /\ self' = {| Factory.owner := Factory.owner self;
                Factory.factoryAdmin := Factory.factoryAdmin self;
                Factory.entryPoint := Factory.entryPoint self;
                Factory.nonce := Factory.nonce self + 1;
                Factory.initialized := Factory.initialized self |}
  /\ Factory.nonce self' = Factory.nonce self + 1
  /\ Factory.owner self' = Factory.owner self
  /\ Factory.factoryAdmin self' = Factory.factoryAdmin self
  /\ Factory.entryPoint self' = Factory.entryPoint self
  /\ Factory.initialized self' = Factory.initialized self
  /\ isValidSignatureNow (Factory.owner self) (eip191_wrap userOpHash)
       (Sol.signature userOp) = true
  /\ Factory.validateUserOp isValidSignatureNow self' msg_sender userOp
       userOpHash = Sol.Revert "Bad nonce".
Proof.
  unfold Factory.validateUserOp, Sol.require, Sol.abi_encodePacked.
  cbn [map concat Sol.packed]. rewrite app_nil_r.
  change (Keccak.keccak256 (Sol.eth_signed_message_32 ++ userOpHash))
    with (eip191_wrap userOpHash).
  destruct (msg_sender =? Factory.entryPoint self) eqn:Hep; [| discriminate].
  destruct (isValidSignatureNow (Factory.owner self) (eip191_wrap userOpHash)
              (Sol.signature userOp)) eqn:Hv; [| discriminate].
  destruct (Sol.nonce userOp =? Factory.nonce self) eqn:Hn; [| discriminate].
  destruct (Factory.nonce self + 1 <? 2 ^ 256); [| discriminate].
  intros H. inversion H. subst result self'.
  cbn [Factory.nonce Factory.owner Factory.factoryAdmin Factory.entryPoint
       Factory.initialized].
  apply Z.eqb_eq in Hn. pose proof Hep as Hep'. apply Z.eqb_eq in Hep'.
  repeat (split; [reflexivity || assumption |]).
  rewrite Hep, Hv.
  assert (Hne : (Sol.nonce userOp =? Factory.nonce self + 1) = false)
    by (apply Z.eqb_neq; lia).
  rewrite Hne. reflexivity.
Qed.

Lemma init_inv (self self' : Factory.DemoAccount) (_owner _factoryAdmin : Z) :
  Factory.init self _owner _factoryAdmin = Sol.Ok self' ->
  Factory.initialized self = false
  /\ self' = {| Factory.owner := _owner;
                Factory.factoryAdmin := _factoryAdmin;
                Factory.entryPoint := Factory.entryPoint self;
                Factory.nonce := Factory.nonce self;
                Factory.initialized := true |}.
Proof.
  unfold Factory.init, Sol.require.
  destruct (Factory.initialized self) eqn:Hi; cbn [negb]; [discriminate |].
  intros H. inversion H. split; reflexivity.
Qed.

(** X7. [init] works once: on an account that is not yet initialized it
    succeeds for any caller and records the owner and the recovery admin
    it is given; on the resulting account every further [init] reverts
    with "Already initialized", so the owner cannot be replaced through
    it. *)
Theorem init_only_once
    (self self' : Factory.DemoAccount) (_owner _factoryAdmin : Z) :
  Factory.init self _owner _factoryAdmin = Sol.Ok self' ->
  Factory.initialized self = false
  /\ Factory.owner self' = _owner
  /\ Factory.factoryAdmin self' = _factoryAdmin
  /\ Factory.entryPoint self' = Factory.entryPoint self
  /\ Factory.nonce self' = Factory.nonce self
  /\ Factory.initialized self' = true
  /\ (forall o a, Factory.init self' o a = Sol.Revert "Already initialized").
Proof.
  intros H. apply init_inv in H as [Hi ->]. cbn.
  repeat split; try reflexivity. exact Hi.
Qed.

Variable DemoAccount_creationCode : bytes.
Variable create2 : Factory.Chain -> Z -> bytes -> bytes -> Z * Factory.Chain.

(** X8. When [createAccount] deploys, the account CREATE2 returned is
    initialized in the same call: it was uninitialized, its owner becomes
    the caller-chosen initial owner, its recovery admin the factory's
    admin, one [AccountDeployed] event is emitted, and no other account's
    storage changes. *)
Theorem createAccount_deploys_initialized
    (c c' : Factory.Chain) (this : Z) (uuidString : string)
    (backendSalt : bytes) (entryPoint initialOwner account : Z)
    (events : list Factory.Event) :
  length (Factory.code_at c
            (Factory.getAddress DemoAccount_creationCode c this uuidString
               backendSalt entryPoint)) = 0%nat ->
  Factory.createAccount DemoAccount_creationCode create2 c this uuidString
    backendSalt entryPoint initialOwner
  = Sol.Ok (account, c', events) ->
  let created :=
    create2 c this
      (DemoAccount_creationCode ++ Sol.abi_encode_address entryPoint)
      (Keccak.keccak256 (utf8 uuidString ++ backendSalt)) in
  account = fst created
  /\ account <> 0
  /\ Factory.initialized (Factory.account_at (snd created) account) = false
  /\ Factory.owner (Factory.account_at c' account) = initialOwner
  /\ Factory.factoryAdmin (Factory.account_at c' account)
     = Factory.admin (snd created)
  /\ Factory.initialized (Factory.account_at c' account) = true
  /\ events = [Factory.AccountDeployed account uuidString]
  /\ (forall other, other <> account ->
        Factory.account_at c' other = Factory.account_at (snd created) other).
Proof.
  intros Hcode Hrun created. unfold Factory.createAccount in Hrun.
  cbv zeta in Hrun. rewrite Hcode in Hrun. cbn [Nat.ltb Nat.leb] in Hrun.
  unfold Sol.abi_encodePacked in Hrun. cbn [map concat Sol.packed] in Hrun.
  rewrite !app_nil_r in Hrun. fold created in Hrun.
  unfold Sol.require in Hrun.
  destruct (fst created =? 0) eqn:Hz; cbn [negb] in Hrun; [discriminate |].
  apply Z.eqb_neq in Hz.
  destruct (Factory.init _ initialOwner _) as [st |] eqn:Hinit; [| discriminate].
  inversion Hrun. subst account c' events.
  apply init_inv in Hinit as [Hi ->].
  cbn [Factory.set_account Factory.account_at].
  rewrite Z.eqb_refl.
  cbn [Factory.owner Factory.factoryAdmin Factory.initialized].
  split; [reflexivity | split; [exact Hz | split; [exact Hi |]]].
  split; [reflexivity | split; [reflexivity |]].
  split; [reflexivity | split; [reflexivity |]].
  intros other Hne. apply Z.eqb_neq in Hne. rewrite Hne. reflexivity.
Qed.

End AccountProperties.

Section Eip1271.

Variable isValidSignatureNow : Z -> bytes -> bytes -> bool.

Lemma isValidSignature_selector :
  Viem.selector "isValidSignature(bytes32,bytes)" = [x16; x26; xba; x7e].
Proof. vm_compute. reflexivity. Qed.

(** X9. [isValidSignature] answers with the EIP-1271 magic value
    0x1626ba7e exactly when the signature checker accepts the signature
    for the current owner, and with 0xffffffff otherwise.  It checks the
    hash it is given as it is, while [validateUserOp] wraps the operation
    hash first: a signature [validateUserOp] accepted is valid under
    [isValidSignature] for the wrapped hash. *)
Theorem isValidSignature_magic_value
    (self : Factory.DemoAccount) (hash signature : bytes) :
  (Factory.isValidSignature isValidSignatureNow self hash signature
   = [x16; x26; xba; x7e]
   <-> isValidSignatureNow (Factory.owner self) hash signature = true)
  /\ (Factory.isValidSignature isValidSignatureNow self hash signature
      = [xff; xff; xff; xff]
      <-> isValidSignatureNow (Factory.owner self) hash signature = false)
  /\ (forall msg_sender userOp result self',
        Factory.validateUserOp isValidSignatureNow self msg_sender userOp hash
        = Sol.Ok (result, self') ->
        Factory.isValidSignature isValidSignatureNow self (eip191_wrap hash)
          (Sol.signature userOp)
        = [x16; x26; xba; x7e]).
Proof.
  unfold Factory.isValidSignature. rewrite isValidSignature_selector.
  split; [| split].
  - destruct (isValidSignatureNow _ hash signature);
      split; try reflexivity; discriminate.
  - destruct (isValidSignatureNow _ hash signature);
      split; try reflexivity; discriminate.
  - intros msg_sender userOp result self'.
    unfold Factory.validateUserOp, Sol.require, Sol.abi_encodePacked.
    cbn [map concat Sol.packed]. rewrite app_nil_r.
    change (Keccak.keccak256 (Sol.eth_signed_message_32 ++ hash))
      with (eip191_wrap hash).
    destruct (msg_sender =? Factory.entryPoint self); [| discriminate].
    destruct (isValidSignatureNow (Factory.owner self) (eip191_wrap hash)
                (Sol.signature userOp)); [reflexivity | discriminate].
Qed.

End Eip1271.

Section RecoveryProperties.

Variable DemoAccount_creationCode : bytes.
Variable create2 : Factory.Chain -> Z -> bytes -> bytes -> Z * Factory.Chain.

Lemma getAddress_chain_independent (c c' : Factory.Chain) (this : Z)
    (uuidString : string) (backendSalt : bytes) (entryPoint : Z) :
  Factory.getAddress DemoAccount_creationCode c' this uuidString backendSalt
    entryPoint
  = Factory.getAddress DemoAccount_creationCode c this uuidString backendSalt
      entryPoint.
Proof. unfold Factory.getAddress, Sol.getAddress. reflexivity. Qed.

Lemma setSmartAccountOwner_unauthorized
    (c : Factory.Chain) (this msg_sender : Z) (uuidString : string)
    (backendSalt : bytes) (entryPoint newOwner account : Z) :
  account = Factory.getAddress DemoAccount_creationCode c this uuidString
              backendSalt entryPoint ->
  msg_sender = Factory.admin c ->
  (0 < length (Factory.code_at c account))%nat ->
  this <> Factory.owner (Factory.account_at c account) ->
  this <> Factory.factoryAdmin (Factory.account_at c account) ->
  Factory.setSmartAccountOwner DemoAccount_creationCode c this msg_sender
    uuidString backendSalt entryPoint newOwner
  = Sol.Revert "Not authorized".
Proof.
  intros -> Ha Hc Ho Hf.
  unfold Factory.setSmartAccountOwner, Factory.setOwner, Sol.require. cbv zeta.
  apply Z.eqb_eq in Ha. apply Nat.ltb_lt in Hc.
  apply Z.eqb_neq in Ho. apply Z.eqb_neq in Hf.
  rewrite Ha, Hc, Ho, Hf. reflexivity.
Qed.

(** X10. The recovery hook [setSmartAccountOwner] succeeds only for the
    factory's admin, on an address that has code, and only when the
    factory contract itself is the account's owner or recovery admin,
    because the inner [setOwner] is called by the factory; it then
    replaces the owner of that account and nothing else (its recovery
    admin, EntryPoint, nonce and initialized flag, every other account,
    the deployed code and the factory's admin stay as they were) and
    emits one [SmartAccountOwnerChanged].  For an admin call on a
    deployed account where the factory is neither, it reverts with
    "Not authorized". *)
Theorem setSmartAccountOwner_needs_factory_rights
    (c : Factory.Chain) (this msg_sender : Z) (uuidString : string)
    (backendSalt : bytes) (entryPoint newOwner : Z) :
  let account :=
    Factory.getAddress DemoAccount_creationCode c this uuidString backendSalt
      entryPoint in
  let st := Factory.account_at c account in
  (forall c' events,
     Factory.setSmartAccountOwner DemoAccount_creationCode c this msg_sender
       uuidString backendSalt entryPoint newOwner = Sol.Ok (c', events) ->
     msg_sender = Factory.admin c
     /\ (0 < length (Factory.code_at c account))%nat
     /\ (this = Factory.owner st \/ this = Factory.factoryAdmin st)
     /\ Factory.account_at c' account
        = {| Factory.owner := newOwner;
             Factory.factoryAdmin := Factory.factoryAdmin st;
             Factory.entryPoint := Factory.entryPoint st;
             Factory.nonce := Factory.nonce st;
             Factory.initialized := Factory.initialized st |}
     /\ Factory.owner (Factory.account_at c' account) = newOwner
     /\ Factory.factoryAdmin (Factory.account_at c' account)
        = Factory.factoryAdmin st
     /\ (forall other, other <> account ->
           Factory.account_at c' other = Factory.account_at c other)
     /\ (forall a, Factory.code_at c' a = Factory.code_at c a)
     /\ Factory.admin c' = Factory.admin c
     /\ events = [Factory.SmartAccountOwnerChanged account newOwner])
  /\ (msg_sender = Factory.admin c ->
      (0 < length (Factory.code_at c account))%nat ->
      this <> Factory.owner st -> this <> Factory.factoryAdmin st ->
      Factory.setSmartAccountOwner DemoAccount_creationCode c this msg_sender
        uuidString backendSalt entryPoint newOwner
      = Sol.Revert "Not authorized").
Proof.
  intros account st. unfold Factory.setSmartAccountOwner. cbv zeta.
  fold account. fold st. unfold Factory.setOwner, Sol.require. split.
  - intros c' events.
    destruct (msg_sender =? Factory.admin c) eqn:Ha; [| discriminate].
    destruct (0 <? length (Factory.code_at c account))%nat eqn:Hc;
      [| discriminate].
    destruct ((this =? Factory.owner st) || (this =? Factory.factoryAdmin st))
      eqn:Hr; [| discriminate].
    intros H. inversion H. subst c' events.
    cbn [Factory.set_account Factory.account_at Factory.code_at
         Factory.admin].
    rewrite Z.eqb_refl.
    cbn [Factory.owner Factory.factoryAdmin].
    apply Z.eqb_eq in Ha. apply Nat.ltb_lt in Hc.
    apply orb_true_iff in Hr. rewrite !Z.eqb_eq in Hr.
    split; [exact Ha | split; [exact Hc | split; [exact Hr |]]].
    split; [reflexivity | split; [reflexivity | split; [reflexivity |]]].
    split; [| repeat split; reflexivity].
    intros other Hne. apply Z.eqb_neq in Hne. rewrite Hne. reflexivity.
  - intros Ha Hc Ho Hf.
    apply Z.eqb_eq in Ha. apply Nat.ltb_lt in Hc.
    apply Z.eqb_neq in Ho. apply Z.eqb_neq in Hf.
    rewrite Ha, Hc, Ho, Hf. reflexivity.
Qed.

(** What a deploying [createAccount] leaves in the new account. *)
Lemma createAccount_deployed_owner
    (c c' : Factory.Chain) (this : Z) (uuidString : string)
    (backendSalt : bytes) (entryPoint initialOwner account : Z)
    (events : list Factory.Event) :
  length (Factory.code_at c
            (Factory.getAddress DemoAccount_creationCode c this uuidString
               backendSalt entryPoint)) = 0%nat ->
  Factory.createAccount DemoAccount_creationCode create2 c this uuidString
    backendSalt entryPoint initialOwner
  = Sol.Ok (account, c', events) ->
  Factory.owner (Factory.account_at c' account) = initialOwner
  /\ Factory.factoryAdmin (Factory.account_at c' account) = Factory.admin c'.
Proof.
  intros Hcode Hrun.
  unfold Factory.createAccount in Hrun. cbv zeta in Hrun.
  rewrite Hcode in Hrun. cbn [Nat.ltb Nat.leb] in Hrun.
  unfold Sol.require in Hrun.
  destruct (negb _); [| discriminate].
  destruct (Factory.init _ initialOwner _) as [st |] eqn:Hinit;
    [| discriminate].
  unfold Factory.init, Sol.require in Hinit.
  destruct (negb _) in Hinit; [| discriminate].
  inversion Hinit. subst st. clear Hinit.
  inversion Hrun. subst c'. subst account.
  cbn [Factory.set_account Factory.account_at Factory.admin].
  match goal with |- context [?a =? ?a] => rewrite (Z.eqb_refl a) end.
  cbn [Factory.owner Factory.factoryAdmin]. split; reflexivity.
Qed.

(** X11. The first [createAccount] for an identity fixes the owner: once
    a call has deployed the account at its derived address, a later call
    for the same identity returns that address, deploys nothing, emits
    nothing and leaves the chain as it is, whatever initial owner it
    names; the account keeps the owner the first call gave it. *)
Theorem createAccount_first_owner_wins
    (c c' : Factory.Chain) (this : Z) (uuidString : string)
    (backendSalt : bytes) (entryPoint firstOwner laterOwner account : Z)
    (events : list Factory.Event) :
  length (Factory.code_at c
            (Factory.getAddress DemoAccount_creationCode c this uuidString
               backendSalt entryPoint)) = 0%nat ->
  Factory.createAccount DemoAccount_creationCode create2 c this uuidString
    backendSalt entryPoint firstOwner
  = Sol.Ok (account, c', events) ->
  account = Factory.getAddress DemoAccount_creationCode c this uuidString
              backendSalt entryPoint ->
  (0 < length (Factory.code_at c' account))%nat ->
  Factory.createAccount DemoAccount_creationCode create2 c' this uuidString
    backendSalt entryPoint laterOwner
  = Sol.Ok (account, c', [])
  /\ Factory.owner (Factory.account_at c' account) = firstOwner.
Proof.
  intros Hcode Hrun Haddr Hdeployed. split.
  - unfold Factory.createAccount. cbv zeta.
    rewrite (getAddress_chain_independent c c'), <- Haddr.
    apply Nat.ltb_lt in Hdeployed. rewrite Hdeployed. reflexivity.
  - exact (proj1 (createAccount_deployed_owner c c' this uuidString
                    backendSalt entryPoint firstOwner account events
                    Hcode Hrun)).
Qed.

(** X12. Recovery after a factory deployment: when [createAccount] has
    just deployed an account at its derived address (CREATE2 returned that
    address and its code is in place), the admin's call to
    [setSmartAccountOwner] for the same identity reverts with
    "Not authorized" unless the factory contract is itself the admin or
    the initial owner: [init] recorded the admin, not the factory, as the
    account's recovery admin. *)
Theorem recovery_reverts_after_createAccount
    (c c' : Factory.Chain) (this : Z) (uuidString : string)
    (backendSalt : bytes) (entryPoint initialOwner newOwner account : Z)
    (events : list Factory.Event) :
  length (Factory.code_at c
            (Factory.getAddress DemoAccount_creationCode c this uuidString
               backendSalt entryPoint)) = 0%nat ->
  Factory.createAccount DemoAccount_creationCode create2 c this uuidString
    backendSalt entryPoint initialOwner
  = Sol.Ok (account, c', events) ->
  account = Factory.getAddress DemoAccount_creationCode c this uuidString
              backendSalt entryPoint ->
  (0 < length (Factory.code_at c' account))%nat ->
  this <> Factory.admin c' ->
  this <> initialOwner ->
  Factory.setSmartAccountOwner DemoAccount_creationCode c' this
    (Factory.admin c') uuidString backendSalt entryPoint newOwner
  = Sol.Revert "Not authorized".
Proof.
  intros Hcode Hrun Haddr Hdeployed Hadmin Howner.
  pose proof (createAccount_deployed_owner c c' this uuidString backendSalt
                entryPoint initialOwner account events Hcode Hrun) as Hst.
  destruct Hst as [Ho Hf].
  apply setSmartAccountOwner_unauthorized with (account := account).
  - rewrite (getAddress_chain_independent c c'). exact Haddr.
  - reflexivity.
  - exact Hdeployed.
  - rewrite Ho. exact Howner.
  - rewrite Hf. exact Hadmin.
Qed.

End RecoveryProperties.

(* ================================================================== *)
(** * Further properties of the 03-social client *)
(* ================================================================== *)

Section Masking.

(** X13. [maskAfterFive] keeps the length of its input and its first
    five code units, puts an asterisk at every later position, and so
    shows nothing of the input beyond its first five code units and its
    length.  Lengths and positions are in UTF-16 code units, as
    [length], [slice] and [repeat] count them. *)
Theorem maskAfterFive_hides_tail (input : list N) :
  length (Page.maskAfterFive input) = length input
  /\ firstn 5 (Page.maskAfterFive input) = firstn 5 input
  /\ (forall i, (5 <= i < length input)%nat ->
        nth_error (Page.maskAfterFive input) i = Some 42%N)
  /\ (forall other,
        firstn 5 other = firstn 5 input ->
        length other = length input ->
        Page.maskAfterFive other = Page.maskAfterFive input).
Proof.
  unfold Page.maskAfterFive.
  destruct (length input <=? 5)%nat eqn:E.
  - apply Nat.leb_le in E. split; [reflexivity | split; [reflexivity |]].
    split; [intros i Hi; lia |].
    intros other Ht Hl. rewrite Hl.
    assert (E' : (length input <=? 5)%nat = true) by (apply Nat.leb_le; exact E).
    rewrite E'.
    rewrite <- (firstn_all2 (n := 5) other), <- (firstn_all2 (n := 5) input)
      by lia.
    exact Ht.
  - apply Nat.leb_gt in E.
    assert (L5 : length (firstn 5 input) = 5%nat)
      by (rewrite length_firstn; lia).
    split; [| split; [| split]].
    + rewrite length_app, L5, repeat_length. lia.
    + rewrite firstn_app, L5, Nat.sub_diag, firstn_firstn. cbn [firstn Nat.min].
      apply app_nil_r.
    + intros i Hi. rewrite nth_error_app2 by lia. rewrite L5.
      apply nth_error_repeat. lia.
    + intros other Ht Hl. rewrite Hl.
      assert (E' : (length input <=? 5)%nat = false)
        by (apply Nat.leb_gt; exact E).
      rewrite E', Ht. reflexivity.
Qed.

End Masking.

Section Deployment.





End Deployment.

Section Sending.

Variable privateKeyToAccount : string -> Viem.Account.
Variable cfg : Social.Config.

(** Every run of [sendUserOp] that posts an operation, step by step. *)
Lemma sendUserOp_steps (rd : Social.Reads) (s : Social.Session)
    (r : Social.Sent) (op : Social.SimpleUserOperation) :
  Social.sendUserOp privateKeyToAccount cfg rd s = Returned r ->
  Social.posted r = Some op ->
  exists pk uuid logicCall callData initCode pmSig opForHash ownerSig,
    Social.ownerPk s = Some pk /\ falsy (Some pk) = false
    /\ Social.uuidString s = Some uuid /\ falsy (Some uuid) = false
    /\ Viem.encodeFunctionData "increment" [] = Some logicCall
    /\ Viem.encodeFunctionData "execute"
         [Viem.AvAddress (Social.logicAddress cfg); Viem.AvUint256 0;
          Viem.AvBytes logicCall] = Some callData
    /\ Social.signPaymaster privateKeyToAccount cfg (Social.draftUserOp (Social.factory_getAddress rd)
            (Social.entryPoint_getNonce rd) initCode callData)
       = Returned pmSig
    /\ Social.toEntryPointUserOp
         (Social.attachPaymaster cfg (Social.draftUserOp (Social.factory_getAddress rd)
            (Social.entryPoint_getNonce rd) initCode callData) pmSig)
       = Some opForHash
    /\ Viem.signMessage (privateKeyToAccount pk)
         (Social.entryPoint_getUserOpHash rd opForHash) = Some ownerSig
    /\ op = Utils.set_signature
              (Social.attachPaymaster cfg (Social.draftUserOp (Social.factory_getAddress rd)
            (Social.entryPoint_getNonce rd) initCode callData) pmSig)
              ownerSig
    /\ Social.after r
       = Social.setStatus "UserOperation sent."
           (Social.setSmartAccountAddress (Social.factory_getAddress rd)
              (Social.setStatus "Preparing UserOperation..." s)).
Proof.
  intros Hrun Hposted. unfold Social.sendUserOp in Hrun.
  destruct (Social.ownerPk s) as [pk |] eqn:Hpk.
  2: { inversion Hrun. subst r. discriminate. }
  destruct (falsy (Some pk)) eqn:Fpk.
  { inversion Hrun. subst r. discriminate. }
  destruct (Social.uuidString s) as [uuid |] eqn:Huuid; [| discriminate].
  destruct (falsy (Some uuid)) eqn:Fuuid; [discriminate |].
  apply bindO_inv in Hrun as (r1 & Hens & Hrun).
  unfold Social.ensureSmartAccount in Hens.
  cbn [Social.setStatus Social.ownerPk Social.uuidString] in Hens.
  rewrite Hpk, Fpk, Huuid, Fuuid in Hens.
  inversion Hens. subst r1. clear Hens. cbn [fst snd] in Hrun.
  apply bindO_inv in Hrun as (logicCall & Hlogic & Hrun).
  apply lift_inv in Hlogic.
  apply bindO_inv in Hrun as (callData & Hcall & Hrun).
  apply lift_inv in Hcall.
  apply bindO_inv in Hrun as (initCode & _ & Hrun).
  apply bindO_inv in Hrun as (pmSig & Hpm & Hrun).
  apply bindO_inv in Hrun as (opForHash & Hop & Hrun).
  apply lift_inv in Hop.
  apply bindO_inv in Hrun as (ownerSig & Hsig & Hrun).
  apply lift_inv in Hsig.
  match type of Hrun with
  | match ?b with _ => _ end = _ => destruct b as [json |]; [| discriminate]
  end.
  inversion Hrun. subst r. cbn [Social.posted Social.after] in *.
  inversion Hposted.
  exists pk, uuid, logicCall, callData, initCode, pmSig, opForHash, ownerSig.
  repeat (split; [assumption || reflexivity |]). reflexivity.
Qed.

Lemma slice_show (bs : bytes) : Js.slice 2 (Hex.show bs) = Hex.show_digits bs.
Proof. reflexivity. Qed.

(** No signer key: the variable is unset, or nothing is left of it
    after [trim] (the empty string included). *)
Lemma getPaymasterSignerPk_None (v : option string) :
  Social.getPaymasterSignerPk v = None
  <-> v = None \/ exists pk, v = Some pk /\ Js.trim pk = EmptyString.
Proof.
  unfold Social.getPaymasterSignerPk, falsy. destruct v as [pk |].
  - destruct (String.eqb_spec pk EmptyString) as [-> | Hne]; cbn [orb].
    + split; [intros _ | reflexivity]. right. exists EmptyString.
      split; reflexivity.
    + destruct (String.eqb_spec (Js.trim pk) EmptyString) as [E | E].
      * split; [intros _ | reflexivity]. right. exists pk. auto.
      * split; [discriminate |].
        intros [H | (pk' & H & Ht)]; [discriminate |].
        inversion H. subst pk'. contradiction.
  - split; [intros _; left; reflexivity | reflexivity].
Qed.

(** Keys made of white space only count as no key: spaces and tabs, a
    no-break space (U+00A0), an ideographic space (U+3000). *)
Example getPaymasterSignerPk_blank_cases :
  Social.getPaymasterSignerPk (Some ClientDemo.nbsp) = None
  /\ Social.getPaymasterSignerPk (Some ClientDemo.ideographic_space) = None
  /\ Social.getPaymasterSignerPk
       (Some (" " ++ ClientDemo.nbsp ++ ClientDemo.ideographic_space)%string)
     = None
  /\ Social.getPaymasterSignerPk (Some " 0x02 ") = Some " 0x02 ".
Proof. repeat split. Qed.

(** X15. [sendUserOp] does nothing when nobody is logged in: with no
    owner key it returns without posting and leaves the page state as it
    is.  With an owner key but no uuid it throws, nothing is posted, and
    the click handler shows "Error".  Every run that does post had both,
    and leaves the status "UserOperation sent." and the account address
    set to the one the factory computed. *)
Theorem sendUserOp_guards (rd : Social.Reads) (s : Social.Session) :
  (falsy (Social.ownerPk s) = true ->
   Social.sendUserOp privateKeyToAccount cfg rd s
   = Returned {| Social.posted := None; Social.after := s |})
  /\ (falsy (Social.ownerPk s) = false -> falsy (Social.uuidString s) = true ->
      Social.sendUserOp privateKeyToAccount cfg rd s
      = Thrown (ErrorMsg
                  "Missing uuidString (expected from Google sub / aa-uuid)")
      /\ Social.onSendOpClick privateKeyToAccount cfg rd s = "Error")
  /\ (forall r op,
        Social.sendUserOp privateKeyToAccount cfg rd s = Returned r ->
        Social.posted r = Some op ->
        falsy (Social.ownerPk s) = false
        /\ falsy (Social.uuidString s) = false
        /\ Social.status (Social.after r) = "UserOperation sent."
        /\ Social.smartAccountAddress (Social.after r)
           = Some (Social.factory_getAddress rd)
        /\ Social.ownerPk (Social.after r) = Social.ownerPk s
        /\ Social.uuidString (Social.after r) = Social.uuidString s).
Proof.
  split; [| split].
  - intros F. unfold Social.sendUserOp.
    destruct (Social.ownerPk s) as [pk |]; [| reflexivity].
    rewrite F. reflexivity.
  - intros Fpk Fu.
    assert (H : Social.sendUserOp privateKeyToAccount cfg rd s
                = Thrown (ErrorMsg
                    "Missing uuidString (expected from Google sub / aa-uuid)")).
    { unfold Social.sendUserOp.
      destruct (Social.ownerPk s) as [pk |]; [| discriminate].
      rewrite Fpk.
      destruct (Social.uuidString s) as [uuid |]; [| reflexivity].
      rewrite Fu. reflexivity. }
    split; [exact H |]. unfold Social.onSendOpClick. rewrite H. reflexivity.
  - intros r op Hrun Hposted.
    destruct (sendUserOp_steps rd s r op Hrun Hposted)
      as (pk & uuid & logicCall & callData & initCode & pmSig & opForHash
          & ownerSig & Hpk & Fpk & Hu & Fu & _ & _ & _ & _ & _ & _ & Hafter).
    rewrite Hafter, Hpk, Hu.
    cbn [Social.setStatus Social.setSmartAccountAddress Social.status
         Social.smartAccountAddress Social.ownerPk Social.uuidString].
    rewrite Hpk, Hu.
    repeat (split; [assumption || reflexivity |]). reflexivity.
Qed.

(** X16. Sponsorship is optional in the 03-social client.  With no signer
    key configured (unset, empty, or nothing left of it after [trim],
    which drops Unicode white space too) the posted operation has the
    paymaster payload "0x".  With a key the payload is the configured
    paymaster address followed by the hex digits of the signer's
    signature over the wrapped sponsor digest of the posted operation. *)
Theorem sendUserOp_sponsorship (rd : Social.Reads) (s : Social.Session)
    (r : Social.Sent) (op : Social.SimpleUserOperation) :
  Social.sendUserOp privateKeyToAccount cfg rd s = Returned r ->
  Social.posted r = Some op ->
  match Social.getPaymasterSignerPk (Social.VITE_PAYMASTER_SIGNER_PK cfg) with
  | None => Utils.paymasterAndData op = "0x"
  | Some pk =>
      exists digest m,
        Social.paymasterDigest op = Some digest
        /\ Hex.parse digest = Some m
        /\ Utils.paymasterAndData op
           = (Social.paymasterAddress cfg
              ++ Hex.show_digits
                   (Viem.sign (privateKeyToAccount pk) (Viem.hashMessage m)))%string
  end
  /\ (Social.getPaymasterSignerPk (Social.VITE_PAYMASTER_SIGNER_PK cfg) = None
      <-> Social.VITE_PAYMASTER_SIGNER_PK cfg = None
          \/ exists pk, Social.VITE_PAYMASTER_SIGNER_PK cfg = Some pk
                        /\ Js.trim pk = EmptyString).
Proof.
  intros Hrun Hposted. split; [| apply getPaymasterSignerPk_None].
  destruct (sendUserOp_steps rd s r op Hrun Hposted)
    as (opk & uuid & logicCall & callData & initCode & pmSig & opForHash
        & ownerSig & _ & _ & _ & _ & _ & _ & Hpm & _ & _ & -> & _).
  unfold Social.signPaymaster in Hpm.
  destruct (Social.getPaymasterSignerPk _) as [pk |].
  - apply bindO_inv in Hpm as (digest & Hd & Hpm). apply lift_inv in Hd.
    apply bindO_inv in Hpm as (sigHex & Hs & Hpm). apply lift_inv in Hs.
    inversion Hpm. subst pmSig. clear Hpm.
    apply signMessage_inv in Hs as (m & Hm & ->).
    exists digest, m. split; [| split; [exact Hm |]].
    + unfold Social.paymasterDigest in *.
      cbn [Utils.set_signature Social.attachPaymaster falsy Hex.show append
           String.eqb Utils.set_paymasterAndData Utils.nonce Utils.sender
           Utils.callData] in *.
      exact Hd.
    + cbn [Utils.set_signature Social.attachPaymaster falsy Hex.show append
           String.eqb Utils.set_paymasterAndData Utils.paymasterAndData].
      rewrite <- slice_show. reflexivity.
  - inversion Hpm. subst pmSig. reflexivity.
Qed.

(** X17. The owner's signature covers the whole posted operation: it is
    the owner account's signature over the wrapped hash the EntryPoint
    returns for the posted operation with only its signature field reset
    to "0x", so the init code, the gas fields and the paymaster payload
    are all part of what is signed. *)
Theorem sendUserOp_owner_signature (rd : Social.Reads) (s : Social.Session)
    (r : Social.Sent) (op : Social.SimpleUserOperation) :
  Social.sendUserOp privateKeyToAccount cfg rd s = Returned r ->
  Social.posted r = Some op ->
  exists pk unsigned h,
    Social.ownerPk s = Some pk
    /\ Social.toEntryPointUserOp (Utils.set_signature op "0x") = Some unsigned
    /\ Hex.parse (Social.entryPoint_getUserOpHash rd unsigned) = Some h
    /\ Utils.signature op
       = Hex.show (Viem.sign (privateKeyToAccount pk) (Viem.hashMessage h)).
Proof.
  intros Hrun Hposted.
  destruct (sendUserOp_steps rd s r op Hrun Hposted)
    as (pk & uuid & logicCall & callData & initCode & pmSig & opForHash
        & ownerSig & Hpk & _ & _ & _ & _ & _ & _ & Hop & Hsig & -> & _).
  apply signMessage_inv in Hsig as (h & Hh & ->).
  exists pk, opForHash, h.
  split; [exact Hpk | split; [| split; [exact Hh | reflexivity]]].
  rewrite <- Hop. unfold Social.toEntryPointUserOp.
  destruct pmSig as [sig |]; cbn [Social.attachPaymaster];
    [destruct (falsy (Some sig)) |]; reflexivity.
Qed.

(** X18. The posted operation names the account the factory computed and
    the nonce the EntryPoint reported: decoded for the EntryPoint, its
    nonce is that number and its gas fields are the client's constants. *)
Theorem sendUserOp_posts_chain_values (rd : Social.Reads) (s : Social.Session)
    (r : Social.Sent) (op : Social.SimpleUserOperation) :
  0 <= Social.entryPoint_getNonce rd ->
  Social.sendUserOp privateKeyToAccount cfg rd s = Returned r ->
  Social.posted r = Some op ->
  exists e,
    Social.toEntryPointUserOp op = Some e
    /\ Social.sender e = Social.factory_getAddress rd
    /\ Social.nonce e = Social.entryPoint_getNonce rd
    /\ Social.callGasLimit e = 3473408
    /\ Social.verificationGasLimit e = 1376256
    /\ Social.preVerificationGas e = 262144
    /\ Social.maxFeePerGas e = 10000000000
    /\ Social.maxPriorityFeePerGas e = 10000000000
    /\ Social.signature e = Utils.signature op.
Proof.
  intros Hn Hrun Hposted.
  destruct (sendUserOp_steps rd s r op Hrun Hposted)
    as (pk & uuid & logicCall & callData & initCode & pmSig & opForHash
        & ownerSig & _ & _ & _ & _ & _ & _ & _ & _ & _ & -> & _).
  unfold Social.toEntryPointUserOp.
  assert (Hfields :
    forall o, o = Social.attachPaymaster cfg (Social.draftUserOp (Social.factory_getAddress rd)
            (Social.entryPoint_getNonce rd) initCode callData) pmSig ->
      Utils.nonce o = Utils.toHex (Social.entryPoint_getNonce rd)
      /\ Utils.callGasLimit o = "0x350000"
      /\ Utils.verificationGasLimit o = "0x150000"
      /\ Utils.preVerificationGas o = "0x40000"
      /\ Utils.maxFeePerGas o = "0x2540be400"
      /\ Utils.maxPriorityFeePerGas o = "0x2540be400"
      /\ Utils.sender o = Social.factory_getAddress rd).
  { intros o ->. destruct pmSig as [sig |]; cbn [Social.attachPaymaster];
      [destruct (falsy (Some sig)) |]; repeat split; reflexivity. }
  destruct (Hfields _ eq_refl) as (H1 & H2 & H3 & H4 & H5 & H6 & H7).
  cbn [Utils.set_signature Utils.nonce Utils.callGasLimit
       Utils.verificationGasLimit Utils.preVerificationGas Utils.maxFeePerGas
       Utils.maxPriorityFeePerGas Utils.sender Utils.signature].
  rewrite H1, H2, H3, H4, H5, H6, H7, (BigInt_toHex _ Hn).
  eexists. split; [vm_compute Js.BigInt; cbn; reflexivity |].
  cbn. repeat split; reflexivity.
Qed.

End Sending.

(* ================================================================== *)
(** * Further properties of the 01-simple and 02-paymaster clients *)
(* ================================================================== *)

Section Environment.

Lemma startsWith_0x (s : string) (b : bytes) :
  Hex.parse s = Some b -> Env.startsWith "0x" s = true.
Proof.
  unfold Hex.parse. intros H.
  destruct s as [| c0 s']; [discriminate H |].
  destruct c0 as [[] [] [] [] [] [] [] []]; try discriminate H.
  destruct s' as [| c1 rest]; [discriminate H |].
  destruct c1 as [[] [] [] [] [] [] [] []]; try discriminate H.
  reflexivity.
Qed.

(** X19. The three env helpers nest: what [envAddress] accepts [envHex]
    accepts, what [envHex] accepts [envValue] accepts, each returning the
    configured string unchanged; an unset or empty variable makes all
    three throw "Missing env var: <name>"; and [envHex] checks only the
    prefix, so any text after "0x" passes it. *)
Theorem env_helpers_nest (v : option string) (name s : string) :
  (Utils.envAddress v name = Returned s -> Env.envHex v name = Returned s)
  /\ (Env.envHex v name = Returned s -> Env.envValue v name = Returned s)
  /\ (Env.envValue v name = Returned s <-> v = Some s /\ s <> EmptyString)
  /\ (falsy v = true ->
      Utils.envAddress v name = Thrown (ErrorMsg ("Missing env var: " ++ name))
      /\ Env.envHex v name = Thrown (ErrorMsg ("Missing env var: " ++ name))
      /\ Env.envValue v name = Thrown (ErrorMsg ("Missing env var: " ++ name)))
  /\ (forall rest, Env.envHex (Some ("0x" ++ rest)%string) name
                   = Returned ("0x" ++ rest)%string).
Proof.
  split; [| split; [| split; [| split]]].
  - unfold Utils.envAddress, Env.envHex. destruct v as [t |]; [| discriminate].
    destruct (falsy (Some t)); [discriminate |].
    destruct (Viem.isAddress t) eqn:Ia; cbn [negb]; [| discriminate].
    destruct (isAddress_shape t Ia) as (b & E & _).
    rewrite (startsWith_0x t b E). cbn [negb]. trivial.
  - unfold Env.envHex, Env.envValue. destruct v as [t |]; [| discriminate].
    destruct (falsy (Some t)); [discriminate |].
    destruct (negb (Env.startsWith "0x" t)); [discriminate | trivial].
  - unfold Env.envValue, falsy. destruct v as [t |].
    + destruct (String.eqb_spec t EmptyString) as [-> | Hne].
      * split; [discriminate | intros [H Hs]; inversion H; congruence].
      * split.
        -- intros H. inversion H. subst. auto.
        -- intros [H _]. inversion H. reflexivity.
    + split; [discriminate | intros [H _]; discriminate].
  - intros F. unfold Utils.envAddress, Env.envHex, Env.envValue.
    destruct v as [t |]; [rewrite F |]; repeat split; reflexivity.
  - intros rest. reflexivity.
Qed.

End Environment.

Section Prefund.

(** X20. [ensureAaFunded] sends nothing when the account already holds
    the minimum.  Otherwise it tops up by exactly the missing amount, but
    only from an owner who holds strictly more than that (an owner with
    exactly the missing amount is refused and the process exits); after
    the transfer the account holds exactly the minimum, and a second run
    sends nothing. *)
Theorem ensureAaFunded_tops_up_to_minimum (aaBalance ownerBalance : Z) :
  match Funding.ensureAaFunded aaBalance ownerBalance with
  | Funding.NoTopUp => Funding.MIN_AA_BALANCE <= aaBalance
  | Funding.Exit =>
      aaBalance < Funding.MIN_AA_BALANCE
      /\ ownerBalance <= Funding.MIN_AA_BALANCE - aaBalance
  | Funding.TopUp value =>
      0 < value < ownerBalance
      /\ aaBalance + value = Funding.MIN_AA_BALANCE
      /\ forall ownerAfter,
           Funding.ensureAaFunded (aaBalance + value) ownerAfter
           = Funding.NoTopUp
  end.
Proof.
  unfold Funding.ensureAaFunded.
  destruct (Funding.MIN_AA_BALANCE <=? aaBalance) eqn:E.
  - apply Z.leb_le in E. exact E.
  - apply Z.leb_gt in E.
    destruct (ownerBalance <=? Funding.MIN_AA_BALANCE - aaBalance) eqn:F.
    + apply Z.leb_le in F. split; assumption.
    + apply Z.leb_gt in F. split; [lia | split; [lia |]].
      intros ownerAfter.
      replace (aaBalance + (Funding.MIN_AA_BALANCE - aaBalance))
        with Funding.MIN_AA_BALANCE by lia.
      rewrite Z.leb_refl. reflexivity.
Qed.

End Prefund.

Section GasQuote.

Variable BigInt_other : JsValue -> option Z.

Lemma coalesce_nullish (a b : JsValue) :
  Gas.coalesce a b = if nullish a then b else a.
Proof. destruct a; reflexivity. Qed.

(** X21. [getBundlerGasPrices] reads both fees from one tier of the
    bundler's quote: [standard] if present, else [fast], else [slow], else
    the flat fields of the result itself.  It never mixes tiers: when the
    chosen tier lacks a fee the call throws even if another tier has it.
    A reply without a usable [result] throws the client's own error. *)
Theorem getBundlerGasPrices_reads_one_tier (res result : JsValue) :
  prop res "result" = Some result ->
  let standard := get result "standard" in
  let fast := get result "fast" in
  let slow := get result "slow" in
  let tier :=
    if negb (nullish standard) then standard
    else if negb (nullish fast) then fast
    else if negb (nullish slow) then slow
    else result in
  (truthy result = false ->
   Gas.getBundlerGasPrices BigInt_other (Body res)
   = Thrown (ErrorMsg "Bundler did not return gas price result"))
  /\ (truthy result = true ->
      (forall g,
         Gas.getBundlerGasPrices BigInt_other (Body res) = Returned g
         <-> Gas.BigInt_value BigInt_other (get tier "maxFeePerGas")
             = Some (Gas.maxFeePerGas g)
             /\ Gas.BigInt_value BigInt_other (get tier "maxPriorityFeePerGas")
                = Some (Gas.maxPriorityFeePerGas g))
      /\ (nullish (get tier "maxFeePerGas") = true
          \/ nullish (get tier "maxPriorityFeePerGas") = true ->
          Gas.getBundlerGasPrices BigInt_other (Body res)
          = Thrown LibraryError)).
Proof.
  intros Hres standard fast slow tier.
  assert (Hq : Gas.quote result = tier).
  { unfold Gas.quote. subst tier standard fast slow.
    rewrite !coalesce_nullish.
    destruct (nullish (get result "standard")) eqn:E1;
      destruct (nullish (get result "fast")) eqn:E2;
      destruct (nullish (get result "slow")) eqn:E3;
      repeat (progress (cbn [negb]; cbv iota; rewrite ?E1, ?E2, ?E3));
      reflexivity. }
  unfold Gas.getBundlerGasPrices. rewrite Hres. split.
  - intros Ht. rewrite Ht. reflexivity.
  - intros Ht. rewrite Ht. cbn [negb]. cbv zeta. rewrite Hq. split.
    + intros g.
      destruct (Gas.BigInt_value BigInt_other (get tier "maxFeePerGas"))
        as [fee |]; cbn [lift bindO].
      * destruct (Gas.BigInt_value BigInt_other
                    (get tier "maxPriorityFeePerGas")) as [tip |];
          cbn [lift bindO].
        -- split.
           ++ intros H. inversion H. cbn. auto.
           ++ intros [H1 H2]. destruct g as [f t]. cbn in H1, H2.
              inversion H1. inversion H2. reflexivity.
        -- split; [discriminate | intros [_ H]; discriminate].
      * split; [discriminate | intros [H _]; discriminate].
    + intros [Hn | Hn].
      * destruct (get tier "maxFeePerGas"); try discriminate; reflexivity.
      * destruct (Gas.BigInt_value BigInt_other (get tier "maxFeePerGas"));
          cbn [lift bindO]; [| reflexivity].
        destruct (get tier "maxPriorityFeePerGas"); try discriminate;
          reflexivity.
Qed.

End GasQuote.

Section PollingFailure.

Variable relay : Relay.
Variables bundlerUrl uoHash : string.

(** X22. A failed fetch ends the receipt loop with an error instead of a
    retry: if the first [n] replies carry no receipt and the next fetch is
    rejected or yields a [null] body, the loop is still running after up
    to [n] iterations and has thrown after any more, having waited one
    second per empty reply. *)
Theorem poller_throws_on_failed_fetch (n : nat) :
  let req := Poller.receiptRequest bundlerUrl uoHash in
  (forall k, (k < n)%nat -> absent (relay k req)) ->
  failed (relay n req) ->
  (forall fuel, (fuel <= n)%nat ->
     Poller.waitForReceipt fuel relay bundlerUrl uoHash = Returned None)
  /\ (forall fuel, (n < fuel)%nat ->
        Poller.waitForReceipt fuel relay bundlerUrl uoHash
        = Thrown LibraryError).
Proof.
  intros req Habs Hfail.
  assert (Hpend : forall m, (m <= n)%nat ->
            Poller.ticks m relay bundlerUrl uoHash Poller.start
            = Returned {| Poller.state := Poller.Pending;
                          Poller.sent := repeat req m;
                          Poller.waited := 1000 * Z.of_nat m |}).
  { intros m Hm. rewrite ticks_pending.
    - cbn [Poller.start Poller.sent Poller.waited].
      rewrite app_nil_r. reflexivity.
    - reflexivity.
    - intros i Hi. cbn [Poller.start Poller.sent length Nat.add].
      apply Habs. lia. }
  split.
  - intros fuel Hf. unfold Poller.waitForReceipt.
    rewrite (Hpend fuel Hf). reflexivity.
  - intros fuel Hf. unfold Poller.waitForReceipt.
    replace fuel with (n + S (fuel - S n))%nat by lia.
    rewrite ticks_add, (Hpend n (le_n n)). cbn [bindO Poller.ticks].
    unfold Poller.tick. cbn [Poller.state Poller.sent].
    rewrite repeat_length. fold req.
    destruct Hfail as [-> | ->]; reflexivity.
Qed.

End PollingFailure.

(* ================================================================== *)
(** * The 03-social session: login, restore, logout *)
(* ================================================================== *)

Section SessionProperties.

Variable privateKeyToAccount : string -> Viem.Account.
Variable cfg : Social.Config.

Lemma falsy_false_iff (s : string) :
  falsy (Some s) = false <-> s <> EmptyString.
Proof.
  unfold falsy. destruct (String.eqb_spec s EmptyString) as [-> | H].
  - split; [discriminate | congruence].
  - split; [intros _; exact H | reflexivity].
Qed.

Lemma falsy_versioned (u : string) : falsy (Some (u ++ ":V2")%string) = false.
Proof. destruct u; reflexivity. Qed.

(** What a successful [handleGoogleRedirect] leaves behind. *)
Lemma handleGoogleRedirect_inv (extracted : option string)
    (rd : Social.Reads) (p p' : Page.State) :
  Page.handleGoogleRedirect privateKeyToAccount extracted rd p
    = (Returned true, p') ->
  exists pk u,
    extracted = Some pk /\ pk <> EmptyString
    /\ Page.getItem (Page.storage p) "aa-uuid" = Some u /\ u <> EmptyString
    /\ Page.storage p'
       = Page.setItem
           (Page.setItem (Page.setItem (Page.storage p) "aa-owner-pk" pk)
              "aa-uuid" (u ++ ":V2")%string)
           "aa-smart-account" (Social.factory_getAddress rd)
    /\ Page.globals p'
       = {| Social.ownerPk := Some pk;
            Social.smartAccountAddress := Some (Social.factory_getAddress rd);
            Social.uuidString := Some (u ++ ":V2")%string;
            Social.status := "Logged in with Google." |}
    /\ Page.ui p'
       = Page.showLoggedInUI (Viem.address (privateKeyToAccount pk))
           (Social.factory_getAddress rd) (Page.ui p).
Proof.
  unfold Page.handleGoogleRedirect.
  destruct extracted as [pk |]; [| discriminate].
  destruct (falsy (Some pk)) eqn:Fpk; [discriminate |].
  cbv zeta. cbn [Page.storage Page.globals Page.ui].
  assert (Hget : Page.getItem (Page.setItem (Page.storage p) "aa-owner-pk" pk)
                   "aa-uuid"
                 = Page.getItem (Page.storage p) "aa-uuid") by reflexivity.
  rewrite Hget.
  destruct (Page.getItem (Page.storage p) "aa-uuid") as [u |] eqn:Hu;
    [| discriminate].
  destruct (falsy (Some u)) eqn:Fu; [discriminate |].
  unfold Page.ensureSmartAccount, Social.ensureSmartAccount.
  cbn [Page.globals Page.with_session Social.ownerPk Social.uuidString].
  rewrite Fpk, falsy_versioned.
  cbn [Page.set_globals Page.globals Page.storage Page.ui
       Social.setSmartAccountAddress Social.setStatus Social.ownerPk
       Social.uuidString Social.smartAccountAddress Social.status].
  intros H. inversion H. clear H.
  exists pk, u. apply falsy_false_iff in Fpk. apply falsy_false_iff in Fu.
  repeat (split; [assumption || reflexivity |]). reflexivity.
Qed.

(** X23. Login then reload: after a successful [handleGoogleRedirect] the
    storage holds the owner key, the uuid with ":V2" appended and the
    account address the factory computed; on any page with that storage
    [restoreSession] succeeds and restores exactly those three values,
    taking the address from storage without asking the chain again. *)
Theorem restoreSession_after_login
    (extracted : option string) (rd rd' : Social.Reads)
    (p p' q : Page.State) :
  Page.handleGoogleRedirect privateKeyToAccount extracted rd p
    = (Returned true, p') ->
  Social.factory_getAddress rd <> EmptyString ->
  Page.storage q = Page.storage p' ->
  exists pk u q',
    extracted = Some pk
    /\ Page.getItem (Page.storage p) "aa-uuid" = Some u
    /\ Page.restoreSession privateKeyToAccount rd' q = (Returned true, q')
    /\ Social.ownerPk (Page.globals q') = Some pk
    /\ Social.uuidString (Page.globals q') = Some (u ++ ":V2")%string
    /\ Social.smartAccountAddress (Page.globals q')
       = Some (Social.factory_getAddress rd)
    /\ Social.status (Page.globals q') = "Session restored."
    /\ Page.storage q' = Page.storage p'
    /\ Page.ui q'
       = Page.showLoggedInUI (Viem.address (privateKeyToAccount pk))
           (Social.factory_getAddress rd) (Page.ui q).
Proof.
  intros Hlogin Hsa Hq.
  apply handleGoogleRedirect_inv in Hlogin
    as (pk & u & -> & Hpk & Hu & Hune & Hst & _ & _).
  apply falsy_false_iff in Hpk. apply falsy_false_iff in Hsa.
  exists pk, u. unfold Page.restoreSession. rewrite Hq, Hst.
  assert (G1 : forall st a b c,
            Page.getItem
              (Page.setItem (Page.setItem (Page.setItem st "aa-owner-pk" a)
                               "aa-uuid" b) "aa-smart-account" c)
              "aa-owner-pk" = Some a) by reflexivity.
  assert (G2 : forall st a b c,
            Page.getItem
              (Page.setItem (Page.setItem (Page.setItem st "aa-owner-pk" a)
                               "aa-uuid" b) "aa-smart-account" c)
              "aa-uuid" = Some b) by reflexivity.
  rewrite G1, G2. cbv zeta.
  rewrite Hpk, falsy_versioned. cbn [orb].
  cbn [Page.set_globals Page.storage]. rewrite Hq, Hst.
  assert (G3 : forall st a b c,
            Page.getItem
              (Page.setItem (Page.setItem (Page.setItem st "aa-owner-pk" a)
                               "aa-uuid" b) "aa-smart-account" c)
              "aa-smart-account" = Some c) by reflexivity.
  rewrite G3, Hsa.
  eexists. split; [reflexivity | split; [exact Hu | split; [reflexivity |]]].
  cbn [Page.logged_in Page.globals Page.storage Page.ui Page.set_globals
       Page.with_session Social.setStatus Social.setSmartAccountAddress
       Social.ownerPk Social.uuidString Social.smartAccountAddress
       Social.status].
  rewrite <- Hst, <- Hq.
  repeat (split; [reflexivity |]). reflexivity.
Qed.

(** X24. Logout ends the session for good: it sets the three globals
    (owner key, account address, uuid) to null and the status to
    "Logged out.", removes the three stored items and no other, and puts
    the page in its logged-out state with the counter shown as "-";
    afterwards, on any page with that storage, [restoreSession] returns
    false and changes nothing, and [sendUserOp] posts nothing. *)
Theorem logout_ends_session (rd : Social.Reads) (p q : Page.State) :
  Page.storage q = Page.storage (Page.logout p) ->
  Page.restoreSession privateKeyToAccount rd q = (Returned false, q)
  /\ Page.globals (Page.logout p)
     = {| Social.ownerPk := None;
          Social.smartAccountAddress := None;
          Social.uuidString := None;
          Social.status := "Logged out." |}
  /\ Page.ui (Page.logout p)
     = {| Page.googleLogin_display := "inline-block";
          Page.logoutBtn_display := "none";
          Page.userInfo_display := "none";
          Page.sendOp_disabled := true;
          Page.refreshCount_disabled := true;
          Page.eoa := EmptyString;
          Page.smartAccount := EmptyString;
          Page.count := "-" |}
  /\ Page.getItem (Page.storage (Page.logout p)) "aa-owner-pk" = None
  /\ Page.getItem (Page.storage (Page.logout p)) "aa-uuid" = None
  /\ Page.getItem (Page.storage (Page.logout p)) "aa-smart-account" = None
  /\ (forall k, k <> "aa-owner-pk" -> k <> "aa-uuid" ->
        k <> "aa-smart-account" ->
        Page.getItem (Page.storage (Page.logout p)) k
        = Page.getItem (Page.storage p) k)
  /\ Social.sendUserOp privateKeyToAccount cfg rd (Page.globals (Page.logout p))
     = Returned {| Social.posted := None;
                   Social.after := Page.globals (Page.logout p) |}
  /\ Page.sendOp_disabled (Page.ui (Page.logout p)) = true
  /\ Page.refreshCount_disabled (Page.ui (Page.logout p)) = true
  /\ Page.count (Page.ui (Page.logout p)) = "-".
Proof.
  intros Hq. split.
  - unfold Page.restoreSession. rewrite Hq. reflexivity.
  - repeat (split; [reflexivity |]). split; [| repeat split; reflexivity].
    intros k H1 H2 H3. unfold Page.logout, Page.getItem, Page.removeItem.
    cbn [Page.storage].
    apply String.eqb_neq in H1. apply String.eqb_neq in H2.
    apply String.eqb_neq in H3. rewrite H1, H2, H3. reflexivity.
Qed.

(** X25. A redirect without a stored uuid fails half-way: the call throws
    "Missing aa-uuid from Google redirect" after it has already stored the
    owner key and set it as the current one, and nothing else has changed:
    the account address, the uuid, the status line, every other stored
    item and the page elements are as before.
    On a reload [restoreSession] finds no uuid and returns false, and in
    the page as left [sendUserOp] throws for the missing uuid unless one
    was already set. *)
Theorem handleGoogleRedirect_without_uuid
    (pk : string) (rd : Social.Reads) (p q : Page.State) :
  pk <> EmptyString ->
  falsy (Page.getItem (Page.storage p) "aa-uuid") = true ->
  let p' := snd (Page.handleGoogleRedirect privateKeyToAccount (Some pk) rd p) in
  fst (Page.handleGoogleRedirect privateKeyToAccount (Some pk) rd p)
    = Thrown (ErrorMsg "Missing aa-uuid from Google redirect")
  /\ p' = {| Page.globals :=
               {| Social.ownerPk := Some pk;
                  Social.smartAccountAddress :=
                    Social.smartAccountAddress (Page.globals p);
                  Social.uuidString := Social.uuidString (Page.globals p);
                  Social.status := Social.status (Page.globals p) |};
             Page.storage := Page.setItem (Page.storage p) "aa-owner-pk" pk;
             Page.ui := Page.ui p |}
  /\ Page.storage p' = Page.setItem (Page.storage p) "aa-owner-pk" pk
  /\ Social.ownerPk (Page.globals p') = Some pk
  /\ Social.uuidString (Page.globals p') = Social.uuidString (Page.globals p)
  /\ Page.ui p' = Page.ui p
  /\ (Page.storage q = Page.storage p' ->
      Page.restoreSession privateKeyToAccount rd q = (Returned false, q))
  /\ (falsy (Social.uuidString (Page.globals p)) = true ->
      Social.sendUserOp privateKeyToAccount cfg rd (Page.globals p')
      = Thrown (ErrorMsg
                  "Missing uuidString (expected from Google sub / aa-uuid)")).
Proof.
  intros Hpk Hu p'.
  apply falsy_false_iff in Hpk.
  assert (Hrun : Page.handleGoogleRedirect privateKeyToAccount (Some pk) rd p
                 = (Thrown (ErrorMsg "Missing aa-uuid from Google redirect"),
                    {| Page.globals :=
                         {| Social.ownerPk := Some pk;
                            Social.smartAccountAddress :=
                              Social.smartAccountAddress (Page.globals p);
                            Social.uuidString :=
                              Social.uuidString (Page.globals p);
                            Social.status := Social.status (Page.globals p) |};
                       Page.storage :=
                         Page.setItem (Page.storage p) "aa-owner-pk" pk;
                       Page.ui := Page.ui p |})).
  { unfold Page.handleGoogleRedirect. rewrite Hpk. cbv zeta.
    cbn [Page.storage].
    assert (Hget : Page.getItem
                     (Page.setItem (Page.storage p) "aa-owner-pk" pk) "aa-uuid"
                   = Page.getItem (Page.storage p) "aa-uuid") by reflexivity.
    rewrite Hget.
    destruct (Page.getItem (Page.storage p) "aa-uuid") as [u |];
      [rewrite Hu |]; reflexivity. }
  subst p'. rewrite Hrun. cbn [fst snd Page.storage Page.globals Page.ui
                               Social.ownerPk Social.uuidString].
  repeat (split; [reflexivity |]). split.
  - intros Hq. unfold Page.restoreSession. rewrite Hq.
    assert (G1 : Page.getItem (Page.setItem (Page.storage p) "aa-owner-pk" pk)
                   "aa-owner-pk" = Some pk) by reflexivity.
    assert (G2 : Page.getItem (Page.setItem (Page.storage p) "aa-owner-pk" pk)
                   "aa-uuid" = Page.getItem (Page.storage p) "aa-uuid")
      by reflexivity.
    rewrite G1, G2.
    destruct (Page.getItem (Page.storage p) "aa-uuid") as [u |];
      [| reflexivity].
    rewrite Hu, orb_true_r. reflexivity.
  - intros Fu. unfold Social.sendUserOp. cbn [Social.ownerPk Social.uuidString].
    rewrite Hpk.
    destruct (Social.uuidString (Page.globals p)) as [u |]; [rewrite Fu |];
      reflexivity.
Qed.

End SessionProperties.

(* ================================================================== *)
(** * The further properties on the running examples *)
(* ================================================================== *)

(** A signature laid out as r, s, v is read back as such. *)
Lemma split_reads_r_s_v_witness :
  Sol.split (be 32 1 ++ be 32 2 ++ [x1b]) = Sol.Ok (27, be 32 1, be 32 2).
Proof.
  exact (proj1 (split_reads_r_s_v (be 32 1) (be 32 2) x1b
                  ltac:(reflexivity) ltac:(reflexivity))).
Defined.



(** The paymaster accepts the payload the client built for the demo
    operation. *)
Lemma validatePaymasterUserOp_accepts_client_payload_witness :
  Sol.validatePaymasterUserOp Demo.test_ecrecover ChainDemo.paymaster 1
    ChainDemo.sponsored_op
  = Sol.Ok ([], 0).
Proof.
  exact (proj2 (validatePaymasterUserOp_accepts_client_payload
                  Demo.test_ecrecover SocialDemo.privateKeyToAccount
                  ChainDemo.paymaster
                  "0x00000000000000000000000000000000000000aa" "0x02"
                  sponsor_payload_example Demo.address_hex Demo.increment_hex
                  (zeros 19 ++ [xaa]) Demo.address_bytes Demo.increment_bytes
                  5 ChainDemo.sponsored_op
                  ltac:(reflexivity) ltac:(reflexivity)
                  ltac:(reflexivity) ltac:(reflexivity)
                  ltac:(split; [lia | reflexivity])
                  ltac:(reflexivity)
                  ltac:(reflexivity) ltac:(reflexivity) ltac:(reflexivity)
                  ltac:(vm_compute; reflexivity)
                  ltac:(vm_compute; reflexivity)
                  ltac:(intros h; reflexivity)
                  ltac:(vm_compute; reflexivity))).
Defined.

(** After the owner numbered 9 hands the account over, the operation
    signed by the new owner validates. *)
Lemma setOwner_rotates_validation_witness :
  Sol.validateUserOp Demo.test_ecrecover
    {| Sol.owner := from_be Demo.address_bytes; Sol.entryPoint := 1 |} 1
    ChainDemo.signed_op 0
  = Sol.Ok (0, None).
Proof.
  destruct (setOwner_rotates_validation Demo.test_ecrecover
              {| Sol.owner := 9; Sol.entryPoint := 1 |}
              {| Sol.owner := from_be Demo.address_bytes; Sol.entryPoint := 1 |}
              9 (from_be Demo.address_bytes) ChainDemo.signed_op
              (Z_of_byte (nth 64 (Sol.signature ChainDemo.signed_op) x00))
              (firstn 32 (Sol.signature ChainDemo.signed_op))
              (firstn 32 (skipn 32 (Sol.signature ChainDemo.signed_op)))
              ltac:(reflexivity) ltac:(vm_compute; reflexivity))
    as (_ & _ & _ & _ & H & _).
  apply H. vm_compute. reflexivity.
Defined.

(** The demo account validates its operation once; the replay fails. *)
Lemma validateUserOp_no_replay_witness :
  Factory.validateUserOp ChainDemo.isValidSignatureNow
    {| Factory.owner := 7; Factory.factoryAdmin := 173;
       Factory.entryPoint := 1; Factory.nonce := 6;
       Factory.initialized := true |}
    1 ChainDemo.account_op ChainDemo.userOpHash
  = Sol.Revert "Bad nonce".
Proof.
  destruct (validateUserOp_no_replay ChainDemo.isValidSignatureNow
              ChainDemo.account
              {| Factory.owner := 7; Factory.factoryAdmin := 173;
                 Factory.entryPoint := 1; Factory.nonce := 6;
                 Factory.initialized := true |}
              1 0 ChainDemo.account_op ChainDemo.userOpHash
              ltac:(vm_compute; reflexivity))
    as (_ & _ & _ & _ & _ & _ & _ & _ & _ & _ & H).
  exact H.
Defined.

(** A second [init] of a freshly initialized account is refused. *)
Lemma init_only_once_witness :
  Factory.init
    {| Factory.owner := 7; Factory.factoryAdmin := 173;
       Factory.entryPoint := 1; Factory.nonce := 0;
       Factory.initialized := true |} 666 666
  = Sol.Revert "Already initialized".
Proof.
  destruct (init_only_once (Factory.constructed 1)
              {| Factory.owner := 7; Factory.factoryAdmin := 173;
                 Factory.entryPoint := 1; Factory.nonce := 0;
                 Factory.initialized := true |}
              7 173 ltac:(reflexivity))
    as (_ & _ & _ & _ & _ & _ & H).
  apply H.
Defined.

(** A second [createAccount] for the demo user, naming another owner,
    returns the deployed account and changes nothing. *)
Lemma createAccount_first_owner_wins_witness :
  Factory.createAccount ChainDemo.creationCode ChainDemo.create2
    ChainDemo.deployed_chain ChainDemo.factory "user-42:V2" ChainDemo.salt
    ChainDemo.entryPoint 666
  = Sol.Ok (ChainDemo.deployed_account, ChainDemo.deployed_chain, [])
  /\ Factory.owner
       (Factory.account_at ChainDemo.deployed_chain ChainDemo.deployed_account)
     = 7.
Proof.
  apply (createAccount_first_owner_wins
           ChainDemo.creationCode ChainDemo.create2
           ChainDemo.empty ChainDemo.deployed_chain ChainDemo.factory
           "user-42:V2" ChainDemo.salt ChainDemo.entryPoint 7 666
           ChainDemo.deployed_account ChainDemo.deployed_events).
  - reflexivity.
  - vm_compute. reflexivity.
  - vm_compute. reflexivity.
  - apply Nat.ltb_lt. vm_compute. reflexivity.
Defined.

(** The first [createAccount] for the demo user leaves an account owned
    by the owner it named. *)
Lemma createAccount_deploys_initialized_witness :
  Factory.owner
    (Factory.account_at ChainDemo.deployed_chain ChainDemo.deployed_account)
  = 7.
Proof.
  destruct (createAccount_deploys_initialized
              ChainDemo.creationCode ChainDemo.create2
              ChainDemo.empty ChainDemo.deployed_chain ChainDemo.factory
              "user-42:V2" ChainDemo.salt ChainDemo.entryPoint 7
              ChainDemo.deployed_account ChainDemo.deployed_events
              ltac:(reflexivity) ltac:(vm_compute; reflexivity))
    as (_ & _ & _ & H & _).
  exact H.
Defined.

(** On the demo chain the admin's recovery call is refused. *)
Lemma setSmartAccountOwner_needs_factory_rights_witness :
  Factory.setSmartAccountOwner ChainDemo.creationCode ChainDemo.deployed_chain
    ChainDemo.factory 173 "user-42:V2" ChainDemo.salt ChainDemo.entryPoint 8
  = Sol.Revert "Not authorized".
Proof.
  apply (proj2 (setSmartAccountOwner_needs_factory_rights
                  ChainDemo.creationCode ChainDemo.deployed_chain
                  ChainDemo.factory 173 "user-42:V2" ChainDemo.salt
                  ChainDemo.entryPoint 8)).
  - vm_compute. reflexivity.
  - apply Nat.ltb_lt. vm_compute. reflexivity.
  - vm_compute. discriminate.
  - vm_compute. discriminate.
Defined.

(** The same refusal, from the deployment itself. *)
Lemma recovery_reverts_after_createAccount_witness :
  Factory.setSmartAccountOwner ChainDemo.creationCode ChainDemo.deployed_chain
    ChainDemo.factory (Factory.admin ChainDemo.deployed_chain) "user-42:V2"
    ChainDemo.salt ChainDemo.entryPoint 8
  = Sol.Revert "Not authorized".
Proof.
  apply (recovery_reverts_after_createAccount
           ChainDemo.creationCode ChainDemo.create2
           ChainDemo.empty ChainDemo.deployed_chain ChainDemo.factory
           "user-42:V2" ChainDemo.salt ChainDemo.entryPoint 7 8
           ChainDemo.deployed_account ChainDemo.deployed_events).
  - reflexivity.
  - vm_compute. reflexivity.
  - vm_compute. reflexivity.
  - apply Nat.ltb_lt. vm_compute. reflexivity.
  - vm_compute. discriminate.
  - vm_compute. discriminate.
Defined.

(** The account answers the magic value for its owner's signature. *)
Lemma isValidSignature_magic_value_witness :
  Factory.isValidSignature ChainDemo.isValidSignatureNow ChainDemo.account
    (eip191_wrap ChainDemo.userOpHash) (Sol.signature ChainDemo.account_op)
  = [x16; x26; xba; x7e].
Proof.
  apply (proj2 (proj1 (isValidSignature_magic_value
                         ChainDemo.isValidSignatureNow ChainDemo.account
                         (eip191_wrap ChainDemo.userOpHash)
                         (Sol.signature ChainDemo.account_op)))).
  vm_compute. reflexivity.
Defined.

(** "héllo wörld" and "héllo there!", both of eleven code units with
    the same first five, are masked alike. *)
Lemma maskAfterFive_hides_tail_witness :
  Page.maskAfterFive
    [104; 233; 108; 108; 111; 32; 116; 104; 101; 114; 101]%N
  = Page.maskAfterFive
      [104; 233; 108; 108; 111; 32; 119; 246; 114; 108; 100]%N.
Proof.
  apply (proj2 (proj2 (proj2
           (maskAfterFive_hides_tail
              [104; 233; 108; 108; 111; 32; 119; 246; 114; 108; 100]%N)))).
  - reflexivity.
  - reflexivity.
Defined.


(** The first use of the demo session posts and reports it. *)
Lemma sendUserOp_guards_witness :
  Social.status (Social.after SocialDemo.first_use) = "UserOperation sent.".
Proof.
  destruct (proj2 (proj2 (sendUserOp_guards SocialDemo.privateKeyToAccount
                            SocialDemo.config ClientDemo.rd SocialDemo.session))
              SocialDemo.first_use (SocialDemo.op_of SocialDemo.first_use)
              ltac:(vm_compute; reflexivity) ltac:(vm_compute; reflexivity))
    as (_ & _ & H & _).
  exact H.
Defined.

(** The demo configuration has a signer key: the first use is sponsored. *)
Lemma sendUserOp_sponsorship_witness :
  exists digest m,
    Social.paymasterDigest (SocialDemo.op_of SocialDemo.first_use) = Some digest
    /\ Hex.parse digest = Some m
    /\ Utils.paymasterAndData (SocialDemo.op_of SocialDemo.first_use)
       = (Social.paymasterAddress SocialDemo.config
          ++ Hex.show_digits
               (Viem.sign (SocialDemo.privateKeyToAccount "0x02")
                  (Viem.hashMessage m)))%string.
Proof.
  exact (proj1 (sendUserOp_sponsorship SocialDemo.privateKeyToAccount
                  SocialDemo.config ClientDemo.rd SocialDemo.session
                  SocialDemo.first_use (SocialDemo.op_of SocialDemo.first_use)
                  ltac:(vm_compute; reflexivity)
                  ltac:(vm_compute; reflexivity))).
Defined.

(** The owner's signature of the first use covers the posted operation. *)
Lemma sendUserOp_owner_signature_witness :
  exists pk unsigned h,
    Social.ownerPk SocialDemo.session = Some pk
    /\ Social.toEntryPointUserOp
         (Utils.set_signature (SocialDemo.op_of SocialDemo.first_use) "0x")
       = Some unsigned
    /\ Hex.parse (Social.entryPoint_getUserOpHash ClientDemo.rd unsigned)
       = Some h
    /\ Utils.signature (SocialDemo.op_of SocialDemo.first_use)
       = Hex.show (Viem.sign (SocialDemo.privateKeyToAccount pk)
                     (Viem.hashMessage h)).
Proof.
  exact (sendUserOp_owner_signature SocialDemo.privateKeyToAccount
           SocialDemo.config ClientDemo.rd SocialDemo.session
           SocialDemo.first_use (SocialDemo.op_of SocialDemo.first_use)
           ltac:(vm_compute; reflexivity) ltac:(vm_compute; reflexivity)).
Defined.

(** The first use carries the nonce 5 the EntryPoint reported. *)
Lemma sendUserOp_posts_chain_values_witness :
  exists e,
    Social.toEntryPointUserOp (SocialDemo.op_of SocialDemo.first_use) = Some e
    /\ Social.sender e = "0x00000000000000000000000000000000000000ac"
    /\ Social.nonce e = 5.
Proof.
  destruct (sendUserOp_posts_chain_values SocialDemo.privateKeyToAccount
              SocialDemo.config ClientDemo.rd SocialDemo.session
              SocialDemo.first_use (SocialDemo.op_of SocialDemo.first_use)
              ltac:(vm_compute; discriminate)
              ltac:(vm_compute; reflexivity) ltac:(vm_compute; reflexivity))
    as (e & H1 & H2 & H3 & _).
  exists e. split; [exact H1 | split; [exact H2 | exact H3]].
Defined.

(** The EntryPoint address passes [envHex] as it passes [envAddress]. *)
Lemma env_helpers_nest_witness :
  Env.envHex (Some Demo.address_hex) "SC_ENTRYPOINT_ADDRESS"
  = Returned Demo.address_hex.
Proof.
  apply (proj1 (env_helpers_nest (Some Demo.address_hex)
                  "SC_ENTRYPOINT_ADDRESS" Demo.address_hex)).
  vm_compute. reflexivity.
Defined.

(** With a [fast] tier and flat fields, the fees are the [fast] ones. *)
Lemma getBundlerGasPrices_reads_one_tier_witness :
  Gas.getBundlerGasPrices ClientDemo.BigInt_other (Body ClientDemo.gas_reply)
  = Returned {| Gas.maxFeePerGas := 16; Gas.maxPriorityFeePerGas := 2 |}.
Proof.
  apply (proj1 (proj2 (getBundlerGasPrices_reads_one_tier
                         ClientDemo.BigInt_other ClientDemo.gas_reply
                         ClientDemo.gas_result ltac:(reflexivity))
                  ltac:(reflexivity))).
  split; vm_compute; reflexivity.
Defined.

(** Two empty replies, then a failed fetch: the loop throws. *)
Lemma poller_throws_on_failed_fetch_witness :
  Poller.waitForReceipt 5 ClientDemo.failing_relay "https://bundler" "0x1234"
  = Thrown LibraryError.
Proof.
  refine (proj2 (poller_throws_on_failed_fetch ClientDemo.failing_relay
                   "https://bundler" "0x1234" 2 _ _) 5%nat _).
  - intros k Hk.
    exists (JObject [("jsonrpc", JString "2.0"); ("id", JNumber 1);
                     ("result", JNull)]), JNull.
    unfold ClientDemo.failing_relay. apply Nat.ltb_lt in Hk. rewrite Hk.
    repeat split; reflexivity.
  - left. reflexivity.
  - lia.
Defined.

(** The demo login survives a reload. *)
Lemma restoreSession_after_login_witness :
  exists q',
    Page.restoreSession SocialDemo.privateKeyToAccount ClientDemo.rd
      ClientDemo.reloaded = (Returned true, q')
    /\ Social.uuidString (Page.globals q') = Some "user-42:V2".
Proof.
  destruct (restoreSession_after_login SocialDemo.privateKeyToAccount
              (Some "0x01") ClientDemo.rd ClientDemo.rd
              ClientDemo.fresh ClientDemo.after_login ClientDemo.reloaded
              ltac:(vm_compute; reflexivity)
              ltac:(vm_compute; discriminate)
              ltac:(reflexivity))
    as (pk & u & q' & _ & Hu & Hr & _ & Huuid & _).
  exists q'. split; [exact Hr |].
  rewrite Huuid. vm_compute in Hu. inversion Hu. reflexivity.
Defined.

(** After logging out of the demo session nothing is restored. *)
Lemma logout_ends_session_witness :
  Page.restoreSession SocialDemo.privateKeyToAccount ClientDemo.rd
    (Page.logout ClientDemo.after_login)
  = (Returned false, Page.logout ClientDemo.after_login).
Proof.
  apply (proj1 (logout_ends_session SocialDemo.privateKeyToAccount
                  SocialDemo.config ClientDemo.rd ClientDemo.after_login
                  (Page.logout ClientDemo.after_login) ltac:(reflexivity))).
Defined.

(** A redirect on a page with nothing stored throws. *)
Lemma handleGoogleRedirect_without_uuid_witness :
  fst (Page.handleGoogleRedirect SocialDemo.privateKeyToAccount (Some "0x01")
         ClientDemo.rd ClientDemo.blank)
  = Thrown (ErrorMsg "Missing aa-uuid from Google redirect").
Proof.
  apply (proj1 (handleGoogleRedirect_without_uuid
                  SocialDemo.privateKeyToAccount SocialDemo.config "0x01"
                  ClientDemo.rd ClientDemo.blank ClientDemo.blank
                  ltac:(discriminate) ltac:(reflexivity))).
Defined.

(** The path from the client's digest to the validator, on the demo
    operation with the stand-in signer. *)
Lemma validateUserOp_accepts_client_signature_witness :
  Sol.validateUserOp Demo.test_ecrecover
    {| Sol.owner := from_be Demo.address_bytes; Sol.entryPoint := 1 |} 1
    ChainDemo.signed_op 0
  = Sol.Ok (0, None).
Proof.
  exact (proj2 (validateUserOp_accepts_client_signature
                  Demo.test_ecrecover
                  {| Sol.owner := from_be Demo.address_bytes;
                     Sol.entryPoint := 1 |}
                  Demo.test_account Demo.address_hex Demo.increment_hex
                  (Hex.show (Sol.validateUserOp_hash Demo.onchain_op))
                  (Hex.show (Sol.signature ChainDemo.signed_op))
                  Demo.address_bytes Demo.increment_bytes 5
                  ChainDemo.signed_op
                  ltac:(reflexivity) ltac:(reflexivity)
                  ltac:(split; [lia | reflexivity])
                  ltac:(reflexivity)
                  ltac:(reflexivity) ltac:(reflexivity) ltac:(reflexivity)
                  ltac:(vm_compute; reflexivity)
                  ltac:(vm_compute; reflexivity)
                  ltac:(vm_compute; reflexivity)
                  ltac:(vm_compute; reflexivity)
                  ltac:(vm_compute; reflexivity))).
Defined.

(** A submission the bundler refuses with an error object: one request
    sent, nothing polled, the client's error thrown. *)
Lemma submitAndWait_checks_reply_witness :
  Main.submitAndWait 5 ClientDemo.refusing_relay "https://bundler"
    (JString "op") (JString Demo.address_hex)
  = {| Main.sent :=
         [Main.sendRequest "https://bundler" (JString "op")
            (JString Demo.address_hex)];
       Main.polled := None;
       Main.outcome :=
         Thrown (ErrorMsg "Bundler did not return a valid operation hash") |}.
Proof.
  apply (proj1 (proj2 (submitAndWait_checks_reply 5 ClientDemo.refusing_relay
                         "https://bundler" (JString "op")
                         (JString Demo.address_hex)
                         SocialDemo.error_reply ltac:(reflexivity))
                  ltac:(intros h Hh; vm_compute in Hh; discriminate Hh))).
Defined.

(** The demo operation as the 02-paymaster client builds it decodes to
    nonce 5 and the fixed gas limits. *)
Lemma toEntryPointUserOp_buildUserOperation_witness :
  Social.toEntryPointUserOp Demo.wire_op
  = Some {| Social.sender := Demo.address_hex;
            Social.nonce := 5;
            Social.initCode := "0x";
            Social.callData := Demo.increment_hex;
            Social.callGasLimit := 250000;
            Social.verificationGasLimit := 250000;
            Social.preVerificationGas := 50000;
            Social.maxFeePerGas := 10000000000;
            Social.maxPriorityFeePerGas := 10000000000;
            Social.paymasterAndData := "0x";
            Social.signature := "0x" |}.
Proof.
  apply (toEntryPointUserOp_buildUserOperation
           {| Utils.p_sender := Demo.address_hex; Utils.p_nonce := 5;
              Utils.p_callData := Demo.increment_hex;
              Utils.p_maxFeePerGas := 10000000000;
              Utils.p_maxPriorityFeePerGas := 10000000000 |});
    cbn; lia.
Defined.
